(** * Process supervision and backup scheduling of minecraft-server-starter

    A shallow embedding of the GUI's supervision routes
    ([/api/server/start], [/api/server/stop], [/api/server/status]), of the
    property routes' file functions and world-name check, and of the shell
    scripts that take backups (the start script with backup on stop,
    [scripts/backup.sh], [minecraft.sh]), followed by the properties proved
    about them.

    Conventions.
    - JavaScript strings and shell words are [string]s of bytes, text
      beyond ASCII in UTF-8.  JavaScript's [trim] and [parseInt] know all
      of its white space (U+00A0, U+2028, U+FEFF and the like); the shell
      knows the white space of ASCII.  Case folding is that of ASCII.
    - A JavaScript number that the code uses as an integer is a [Z];
      [NaN] and [undefined] are [None].
    - Absolute POSIX paths are lists of segments, already normalised the way
      [path.join] normalises them.  A path that a request names
      ([serverJar], [jarDir]) stands for the path it denotes; the
      statements about the text of a path are about paths the code has
      joined itself.
    - The operating system is an explicit state ([os]) threaded through the
      routes; whatever the outside world decides during one call (what
      [readdir] lists, whether a download succeeds, which pid [spawn]
      returns, which port [listen(0)] hands out) is an argument of the call. *)

From Stdlib Require Import ZArith Lia Ascii String List Bool.
From Stdlib Require Import Decimal DecimalString DecimalZ DecimalPos DecimalN.
From stdpp Require Import base option list gmap strings sorting.

Local Open Scope Z_scope.
Local Open Scope string_scope.

(* ================================================================== *)
(** * Text: the string primitives of JavaScript and of the shell        *)
(* ================================================================== *)

Module Text.

(** ASCII lower-casing of one byte ([A]..[Z] only). *)
Definition lower (c : ascii) : ascii :=
  let n := nat_of_ascii c in
  if (Nat.leb 65 n && Nat.leb n 90)%bool then ascii_of_nat (n + 32) else c.

(** [s.toLowerCase()] restricted to the ASCII letters. *)
Fixpoint toLowerCase (s : string) : string :=
  match s with
  | EmptyString => EmptyString
  | String c r => String (lower c) (toLowerCase r)
  end.

(** [s.startsWith(p)] *)
Fixpoint startsWith (p s : string) : bool :=
  match p, s with
  | EmptyString, _ => true
  | String a p', String b s' => if Ascii.eqb a b then startsWith p' s' else false
  | String _ _, EmptyString => false
  end.

(** [s.slice(n)] for [n >= 0] *)
Fixpoint drop (n : nat) (s : string) : string :=
  match n, s with
  | O, _ => s
  | S n', String _ r => drop n' r
  | S _, EmptyString => EmptyString
  end.

(** [s.endsWith(p)] *)
Definition endsWith (p s : string) : bool :=
  (Nat.leb (String.length p) (String.length s)
   && String.eqb (drop (String.length s - String.length p) s) p)%bool.

(** White space of one byte: TAB, LF, VT, FF, CR (codes 9 to 13) and
    SPACE (code 32).  This is all the white space of the shell; for
    JavaScript it is the white space below U+0080. *)
Definition is_space (c : ascii) : bool :=
  let n := nat_of_ascii c in
  ((Nat.leb 9 n && Nat.leb n 13) || Nat.eqb n 32)%bool.

(** JavaScript's white space of two bytes: U+00A0 (no-break space), in
    UTF-8 the bytes C2 A0. *)
Definition is_space2 (a b : ascii) : bool :=
  (Nat.eqb (nat_of_ascii a) 194 && Nat.eqb (nat_of_ascii b) 160)%bool.

(** JavaScript's white space of three bytes:
    - U+1680 (E1 9A 80);
    - U+2000 to U+200A (E2 80 80 to E2 80 8A), the line separators U+2028
      and U+2029 (E2 80 A8, E2 80 A9) and U+202F (E2 80 AF);
    - U+205F (E2 81 9F);
    - U+3000 (E3 80 80);
    - U+FEFF, the byte order mark (EF BB BF). *)
Definition is_space3 (a b c : ascii) : bool :=
  let x := nat_of_ascii a in
  let y := nat_of_ascii b in
  let z := nat_of_ascii c in
  ((Nat.eqb x 225 && Nat.eqb y 154 && Nat.eqb z 128)
   || (Nat.eqb x 226 && Nat.eqb y 128
       && ((Nat.leb 128 z && Nat.leb z 138)
           || Nat.eqb z 168 || Nat.eqb z 169 || Nat.eqb z 175))
   || (Nat.eqb x 226 && Nat.eqb y 129 && Nat.eqb z 159)
   || (Nat.eqb x 227 && Nat.eqb y 128 && Nat.eqb z 128)
   || (Nat.eqb x 239 && Nat.eqb y 187 && Nat.eqb z 191))%bool.

(** [s.trimStart()]: the white-space characters at the front of [s] are
    dropped, whether they take one, two or three bytes. *)
Fixpoint trimStart (s : string) : string :=
  match s with
  | String a r1 =>
      if is_space a then trimStart r1 else
      match r1 with
      | String b r2 =>
          if is_space2 a b then trimStart r2 else
          match r2 with
          | String c r3 => if is_space3 a b c then trimStart r3 else s
          | EmptyString => s
          end
      | EmptyString => s
      end
  | EmptyString => EmptyString
  end.

(** [s.trimEnd()]: [s] is cut where what is left of it is white space
    only.  (A cut never falls inside a character: the second and third
    bytes of a white-space character begin no white-space character.) *)
Fixpoint trimEnd (s : string) : string :=
  match s with
  | EmptyString => EmptyString
  | String c r =>
      if String.eqb (trimStart s) EmptyString then EmptyString
      else String c (trimEnd r)
  end.

(** [s.trim()] *)
Definition trim (s : string) : string := trimEnd (trimStart s).

(** The value of a decimal digit: the bytes [0] to [9] have the codes 48
    to 57. *)
Definition digit (c : ascii) : option Z :=
  let n := nat_of_ascii c in
  if (Nat.leb 48 n && Nat.leb n 57)%bool then Some (Z.of_nat (n - 48)) else None.

Definition is_digit (c : ascii) : bool :=
  match digit c with Some _ => true | None => false end.

(** Reads the longest prefix of digits of [s] in the given radix,
    continuing the value [acc]; returns the value and what is left. *)
Fixpoint read_digits (radix acc : Z) (s : string) : Z * string :=
  match s with
  | String c r =>
      match digit c with
      | Some d => if (d <? radix)%Z then read_digits radix (radix * acc + d)%Z r
                  else (acc, s)
      | None => (acc, s)
      end
  | EmptyString => (acc, s)
  end.

(** [s] is one or more decimal digits: the regular expression [^[0-9]+$]. *)
Fixpoint all_digits (s : string) : bool :=
  match s with
  | EmptyString => true
  | String c r => (is_digit c && all_digits r)%bool
  end.

Definition is_number (s : string) : bool :=
  match s with
  | EmptyString => false
  | _ => all_digits s
  end.

(** [Number.parseInt(s, 10)]: leading white space (that of [trimStart]) is
    skipped, a sign is
    accepted, then the longest prefix of digits is read and whatever
    follows is ignored.  [None] is [NaN].  The value is the exact integer
    (JavaScript rounds beyond 2^53, far above any pid). *)
Definition parseInt (s : string) : option Z :=
  let s1 := trimStart s in
  let '(neg, s2) :=
    match s1 with
    | String "-" r => (true, r)
    | String "+" r => (false, r)
    | _ => (false, s1)
    end in
  match s2 with
  | String c _ =>
      if is_digit c
      then let v := fst (read_digits 10 0 s2) in
           Some (if neg : bool then - v else v)
      else None
  | EmptyString => None
  end.

(** The decimal text of an integer: [String(n)] in JavaScript and what
    [echo $((n))] prints in the shell. *)
Definition of_Z (z : Z) : string := NilZero.string_of_int (Z.to_int z).

(** [String(child.pid)]: [undefined] prints as the word itself. *)
Definition String_ (pid : option Z) : string :=
  match pid with
  | Some z => of_Z z
  | None => "undefined"
  end.

(** The pieces of [s] between occurrences of the separator byte. *)
Fixpoint split (sep : ascii) (s : string) : list string :=
  match s with
  | EmptyString => [EmptyString]
  | String c r =>
      if Ascii.eqb c sep then EmptyString :: split sep r
      else match split sep r with
           | h :: t => String c h :: t
           | [] => [String c EmptyString]
           end
  end.

End Text.

(* ================================================================== *)
(** * Paths: [path.join], [path.resolve], [path.isAbsolute]             *)
(* ================================================================== *)

(** An absolute, normalised POSIX path: its segments from the root. *)
Abbreviation path := (list string).

Module Path.

(** One step of normalisation: empty and [.] segments vanish, [..]
    drops the last segment (and stays at the root when there is none). *)
Definition step (acc : path) (seg : string) : path :=
  if String.eqb seg EmptyString then acc
  else if String.eqb seg "." then acc
  else if String.eqb seg ".." then removelast acc
  else acc ++ [seg].

(** [path.join(base, rel)] for an absolute [base]. *)
Definition join (base : path) (rel : string) : path :=
  fold_left step (Text.split "/" rel) base.

(** [path.isAbsolute(p)] *)
Definition isAbsolute (p : string) : bool := Text.startsWith "/" p.

(** An absolute path given as text. *)
Definition of_string (p : string) : path := join [] p.

(** [path.resolve(base, rel)] for an absolute [base]: a relative [rel]
    is joined, an absolute one replaces [base]. *)
Definition resolve (base : path) (rel : string) : path :=
  if isAbsolute rel then of_string rel else join base rel.

(** All the directories [mkdir(p, {recursive: true})] makes sure exist:
    [p] and every ancestor of it. *)
Definition ancestors (p : path) : list path :=
  map (fun n => firstn n p) (seq 0 (S (List.length p))).

(** The text of a path, as it is passed on a command line. *)
Definition to_string (p : path) : string :=
  match p with
  | [] => "/"
  | _ => fold_right (fun seg r => "/" +:+ seg +:+ r) EmptyString p
  end.

End Path.

(* ================================================================== *)
(** * World names                                                       *)
(* ================================================================== *)

Module World.

(** One byte of the class [[A-Za-z0-9._-]]. *)
Definition name_char (c : ascii) : bool :=
  let n := nat_of_ascii c in
  ((Nat.leb 65 n && Nat.leb n 90)          (* A-Z *)
   || (Nat.leb 97 n && Nat.leb n 122)      (* a-z *)
   || (Nat.leb 48 n && Nat.leb n 57)       (* 0-9 *)
   || Nat.eqb n 46 || Nat.eqb n 95 || Nat.eqb n 45)%bool.  (* . _ - *)

Fixpoint all_name_chars (s : string) : bool :=
  match s with
  | EmptyString => true
  | String c r => (name_char c && all_name_chars r)%bool
  end.

(** [validateWorldName]: [/^[A-Za-z0-9._-]+$/.test(world)], as the
    property and whitelist routes define it. *)
Definition validateWorldName (world : string) : bool :=
  match world with
  | EmptyString => false
  | _ => all_name_chars world
  end.

End World.

(* ================================================================== *)
(** * Artifact resolution                                               *)
(* ================================================================== *)

(** One entry of a directory as [readdir(dir, {withFileTypes: true})] and
    [stat] report it: its name, whether it is a regular file, and its
    modification time in milliseconds. *)
Record dirent := Dirent { name : string; isFile : bool; mtimeMs : Z }.

Module Artifact.

(** A line terminator, which [.] of a regular expression does not match:
    LF, CR, and U+2028 / U+2029 in their UTF-8 bytes. *)
Fixpoint has_line_terminator (s : string) : bool :=
  match s with
  | EmptyString => false
  | String c r =>
      (match c, r with
       | "010"%char, _ | "013"%char, _ => true
       | "226"%char, String "128"%char (String "168"%char _)
       | "226"%char, String "128"%char (String "169"%char _) => true
       | _, _ => false
       end || has_line_terminator r)%bool
  end.

(** [/^server.*\.jar$/i.test(n)] *)
Definition is_server_jar (n : string) : bool :=
  let l := Text.toLowerCase n in
  (Text.startsWith "server" l
   && Text.endsWith ".jar" (Text.drop 6 l)
   && negb (has_line_terminator (Text.drop 6 n)))%bool.

(** [e.isFile() && e.name.toLowerCase().endsWith('.jar')] *)
Definition is_jar (e : dirent) : bool :=
  (isFile e && Text.endsWith ".jar" (Text.toLowerCase (name e)))%bool.

(** Insertion of one entry into a list ordered newest first; an entry is
    put before the first one that is not newer than it. *)
Fixpoint insert_newest (x : dirent) (l : list dirent) : list dirent :=
  match l with
  | [] => [x]
  | y :: r => if (mtimeMs y <=? mtimeMs x)%Z then x :: l
              else y :: insert_newest x r
  end.

(** [stats.sort((a, b) => b.t - a.t)]: [Array.prototype.sort] is stable,
    so entries of equal time keep the order they were listed in. *)
Definition sort_newest (l : list dirent) : list dirent :=
  fold_right insert_newest [] l.

(** [findExistingJar(dir)], given what [readdir(dir)] answers ([None]
    when it throws, which the function catches). *)
Definition findExistingJar (dir : path) (entries : option (list dirent))
  : option path :=
  match entries with
  | None => None
  | Some es =>
      let jars := List.filter is_jar es in
      match jars with
      | [] => None
      | _ =>
          let preferred := List.filter (fun e => is_server_jar (name e)) jars in
          let list := match preferred with [] => jars | _ => preferred end in
          match sort_newest list with
          | e :: _ => Some (Path.join dir (name e))
          | [] => None
          end
      end
  end.

(** The marker that [grep -vE '(\.old|\.bak)\.jar$'] filters out. *)
Definition has_backup_marker (n : string) : bool :=
  (Text.endsWith ".old.jar" n || Text.endsWith ".bak.jar" n)%bool.

End Artifact.

(* ================================================================== *)
(** * The operating system as the routes see it                         *)
(* ================================================================== *)

Inductive signal := Sig0 | SIGTERM.

Inductive event :=
| Mkdir (p : path)
| WriteFile (p : path) (data : string)
| Unlink (p : path)
| Kill (pid : Z) (sig : signal)
| Spawn (cmd : string) (args : list string) (pid : option Z)
| Listen (port : Z)
| Close (port : Z).

Record os := Os {
  cwd : path;                 (* [process.cwd()] *)
  files : gmap path string;   (* text files and their content *)
  dirs : gset path;           (* directories that exist *)
  alive : gset Z;             (* pids that [process.kill(pid, 0)] accepts *)
  in_use : gset Z;            (* ports an exclusive wildcard bind is refused *)
  trace : list event          (* effects performed so far, oldest first *)
}.

Definition with_files (f : gmap path string) (o : os) : os :=
  Os (cwd o) f (dirs o) (alive o) (in_use o) (trace o).
Definition with_dirs (d : gset path) (o : os) : os :=
  Os (cwd o) (files o) d (alive o) (in_use o) (trace o).
Definition with_alive (a : gset Z) (o : os) : os :=
  Os (cwd o) (files o) (dirs o) a (in_use o) (trace o).
Definition emit (e : event) (o : os) : os :=
  Os (cwd o) (files o) (dirs o) (alive o) (in_use o) (trace o ++ [e]).

(** A computation over the operating system that returns or throws. *)
Inductive outcome (A : Type) := Return (a : A) | Throw (e : string).
Arguments Return {A} a.
Arguments Throw {A} e.

Definition M (A : Type) : Type := os -> outcome A * os.

Definition ret {A} (a : A) : M A := fun o => (Return a, o).
Definition throw {A} (e : string) : M A := fun o => (Throw e, o).
Definition bind {A B} (m : M A) (k : A -> M B) : M B :=
  fun o => match m o with
           | (Return a, o') => k a o'
           | (Throw e, o') => (Throw e, o')
           end.
(** [try { m } catch { h }] *)
Definition try_catch {A} (m : M A) (h : string -> M A) : M A :=
  fun o => match m o with
           | (Return a, o') => (Return a, o')
           | (Throw e, o') => h e o'
           end.
Definition get : M os := fun o => (Return o, o).
Definition modify (f : os -> os) : M unit := fun o => (Return tt, f o).

Notation "'let*' x ':=' m 'in' k" := (bind m (fun x => k))
  (at level 10, x name, m at level 100, k at level 200).
Notation "m ';;' k" := (bind m (fun _ => k))
  (at level 100, k at level 200, right associativity).

(** ** Primitive effects *)

(** [fs.mkdir(p, {recursive: true})] *)
Definition ensureDir (p : path) : M unit :=
  modify (fun o => emit (Mkdir p) (with_dirs (dirs o ∪ list_to_set (Path.ancestors p)) o)).

(** [fs.readFile(p, 'utf8')]: throws when there is no such file. *)
Definition readFile (p : path) : M string :=
  fun o => match files o !! p with
           | Some txt => (Return txt, o)
           | None => (Throw "ENOENT", o)
           end.

(** [fs.writeFile(p, data)]: creates or replaces the file; throws when the
    directory it should go into does not exist. *)
Definition writeFile (p : path) (data : string) : M unit :=
  fun o => if decide (removelast p ∈ dirs o)
           then (Return tt, emit (WriteFile p data) (with_files (<[p := data]> (files o)) o))
           else (Throw "ENOENT", o).

(** [fs.unlink(p)]: throws when there is no such file. *)
Definition unlink (p : path) : M unit :=
  fun o => match files o !! p with
           | Some _ => (Return tt, emit (Unlink p) (with_files (delete p (files o)) o))
           | None => (Throw "ENOENT", o)
           end.

(** [process.kill(pid, sig)]: throws when the pid cannot be signalled.
    A termination signal is delivered; the process exits on its own later. *)
Definition process_kill (pid : Z) (sig : signal) : M unit :=
  fun o => if decide (pid ∈ alive o)
           then (Return tt, emit (Kill pid sig) o)
           else (Throw "ESRCH", emit (Kill pid sig) o).

(** What [server.listen({port, host: '0.0.0.0', exclusive: true})] leads to. *)
Inductive listen_result := Listening (port : Z) | ListenError | BadPort.

(** The operating system binds the requested port unless it is in use, and
    for port 0 a free port of its own choice ([ephemeral], if it has one);
    Node refuses a port outside 0..65535 before asking. *)
Definition net_listen (ephemeral : option Z) (port : Z) (o : os) : listen_result :=
  if ((port <? 0) || (65535 <? port))%Z then BadPort
  else if (port =? 0)%Z then
    match ephemeral with
    | Some e => if decide (e ∈ in_use o) then ListenError
                else if ((e <? 1) || (65535 <? e))%Z then ListenError
                else Listening e
    | None => ListenError
    end
  else if decide (port ∈ in_use o) then ListenError else Listening port.

(* ================================================================== *)
(** * Port allocation                                                   *)
(* ================================================================== *)

Module Port.

(** [checkPortAvailable(port)]: resolves [true] once the server listens
    (and has been closed again), [false] on an error event. *)
Definition checkPortAvailable (ephemeral : option Z) (port : Z) : M bool :=
  fun o => match net_listen ephemeral port o with
           | Listening p => (Return true, emit (Close p) (emit (Listen port) o))
           | ListenError => (Return false, emit (Listen port) o)
           | BadPort => (Throw "ERR_SOCKET_BAD_PORT", o)
           end.

(** [getEphemeralPort()]: resolves the port the system chose for port 0,
    rejects on an error event. *)
Definition getEphemeralPort (ephemeral : option Z) : M Z :=
  fun o => match net_listen ephemeral 0 o with
           | Listening p => (Return p, emit (Close p) (emit (Listen 0) o))
           | ListenError => (Throw "listen", emit (Listen 0) o)
           | BadPort => (Throw "ERR_SOCKET_BAD_PORT", o)
           end.

(** [findAvailablePort(preferred)] returns [{port, autoPicked}]. *)
Definition findAvailablePort (ephemeral : option Z) (preferred : Z) : M (Z * bool) :=
  let* ok := checkPortAvailable ephemeral preferred in
  if ok : bool then ret (preferred, false)
  else let* ephem := getEphemeralPort ephemeral in
       ret (ephem, true).

End Port.

(* ================================================================== *)
(** * The supervision routes                                            *)
(* ================================================================== *)

(** The repository root is one level above the GUI's working directory. *)
Definition ROOT_DIR (o : os) : path := Path.resolve (cwd o) "..".
Definition PUBLIC_DIR (o : os) : path := Path.join (cwd o) "public".
Definition PID_DIR (o : os) : path := Path.join (ROOT_DIR o) ".mc-pids".
Definition WORLDS_DIR (o : os) : path := Path.join (ROOT_DIR o) "worlds".

(** [pidFile(worldName)], the same in the three routes. *)
Definition pidFile (o : os) (worldName : string) : path :=
  Path.join (PID_DIR o) (worldName +:+ ".pid").

(** A number in a request body. *)
Inductive jsnum := Int (z : Z) | NotInt.

(** What a route answers. *)
Record started := Started {
  st_worldName : string;
  st_pid : option Z;
  st_memory : string;
  st_jar : path;
  st_jarDir : path;
  st_requestedPort : Z;
  st_port : Z;
  st_portAutoPicked : bool
}.

Inductive response :=
| Text (status : Z) (body : string)          (* [new NextResponse(body, {status})] *)
| JsonStarted (r : started)                  (* [{ok: true, worldName, pid, ...}] *)
| JsonAlreadyStopped (message : string)      (* [{ok: true, alreadyStopped: true, message}] *)
| JsonStopped (pid : Z)                      (* [{ok: true, stopped: true, pid}] *)
| JsonStatus (running : bool) (pid : option Z)  (* [{running, pid}] *)
| Uncaught (e : string).                     (* an exception left the handler *)

(** Runs a handler: an exception that leaves it becomes [Uncaught]. *)
Definition run (m : M response) (o : os) : response * os :=
  match m o with
  | (Return r, o') => (r, o')
  | (Throw e, o') => (Uncaught e, o')
  end.

(** ** [POST /api/server/start] *)

Module StartRoute.

(** The request body, with [None] for a field that is absent. *)
Record Body := {
  worldName : option string;
  memory : option string;
  serverJar : option string;
  jarDir : option string;
  port : option jsnum
}.

(** What [spawn('java', args, ...)] does: it throws, or it returns a child
    whose [pid] is [undefined] when the process could not be created. *)
Inductive spawn_result := SpawnThrows (e : string) | Child (pid : option Z).

(** What the outside world decides during one call. *)
Record Env := {
  readdir : path -> option (list dirent);   (* [None]: [readdir] throws *)
  download : option (string * string);      (* latest release id and the
                                               jar's bytes; [None]: one of
                                               the three fetches fails *)
  ephemeral : option Z;                     (* the port given for port 0 *)
  child : spawn_result
}.

(** This route's [isAlive] has no guard on its argument. *)
Definition isAlive (pid : Z) : M bool :=
  try_catch (process_kill pid Sig0 ;; ret true) (fun _ => ret false).

(** [downloadLatestServerJar(targetDir)] returns the path of the jar. *)
Definition downloadLatestServerJar (env : Env) (targetDir : path) : M path :=
  match download env with
  | None => throw "download failed"
  | Some (latestId, buf) =>
      let jarName := "server-" +:+ latestId +:+ ".jar" in
      let dest := Path.join targetDir jarName in
      ensureDir targetDir ;;
      writeFile dest buf ;;
      ret dest
  end.

(** [resolveJarDir(jarDir)] *)
Definition resolveJarDir (o : os) (jarDir : option string) : path :=
  match jarDir with
  | None => ROOT_DIR o
  | Some d =>
      if (String.eqb d EmptyString || String.eqb d "root")%bool then ROOT_DIR o
      else if String.eqb d "public" then PUBLIC_DIR o
      else if Path.isAbsolute d then Path.of_string d
      else Path.join (ROOT_DIR o) d
  end.

(** [!Number.isInteger(p) || p < 1 || p > 65535] *)
Definition bad_port (p : jsnum) : bool :=
  match p with
  | Int z => ((z <? 1) || (65535 <? z))%Z
  | NotInt => true
  end.

Definition port_value (p : jsnum) : Z :=
  match p with Int z => z | NotInt => 0 end.

(** The handler. *)
Definition POST (env : Env) (body : Body) : M response :=
  let worldName := default EmptyString (worldName body) in
  let memory := default "4G" (memory body) in
  let serverJar := default EmptyString (serverJar body) in
  let requestedPort := default (Int 25565) (port body) in
  let name := Text.trim worldName in
  if String.eqb name EmptyString then ret (Text 400 "worldName is required") else
  (* Validate port input first (1-65535) *)
  if bad_port requestedPort
  then ret (Text 400 "Invalid port number. Must be between 1 and 65535.") else
  let requestedPort := port_value requestedPort in
  let* o := get in
  ensureDir (PID_DIR o) ;;
  (* Bail if already running *)
  let* running :=
    try_catch
      (let* txt := readFile (pidFile o name) in
       match Text.parseInt txt with
       | Some existing =>
           if (existing =? 0)%Z then ret false else isAlive existing
       | None => ret false
       end)
      (fun _ => ret false) in
  if running : bool then ret (Text 409 "Server already running for this world.") else
  (* Ensure world directory *)
  let worldPath := Path.join (WORLDS_DIR o) name in
  ensureDir worldPath ;;
  (* Resolve server jar *)
  let targetJarDir := resolveJarDir o (jarDir body) in
  let* jarPath :=
    if negb (String.eqb serverJar EmptyString)
    then ret (if Path.isAbsolute serverJar then Path.of_string serverJar
              else Path.join (ROOT_DIR o) serverJar)
    else match Artifact.findExistingJar targetJarDir (readdir env targetJarDir) with
         | Some j => ret j
         | None => downloadLatestServerJar env targetJarDir
         end in
  (* Pick a usable port (stick to requested if it's free) *)
  let* picked :=
    try_catch
      (let* res := Port.findAvailablePort (ephemeral env) requestedPort in
       ret (Some res))
      (fun _ => ret None) in
  match picked with
  | None => ret (Text 503 "Unable to allocate a free port.")
  | Some (chosenPort, autoPicked) =>
      (* Launch *)
      let args := [ "-Xmx" +:+ memory; "-Xms" +:+ memory; "-jar";
                    Path.to_string jarPath; "nogui";
                    "--world"; Path.to_string worldPath;
                    "--port"; Text.of_Z chosenPort ] in
      try_catch
        (let* pid :=
           match child env with
           | SpawnThrows e => throw e
           | Child pid =>
               modify (fun o' =>
                 emit (Spawn "java" args pid)
                   (match pid with
                    | Some p => with_alive ({[p]} ∪ alive o') o'
                    | None => o'
                    end)) ;;
               ret pid
           end in
         writeFile (pidFile o name) (Text.String_ pid) ;;
         ret (JsonStarted
                (Started name pid memory jarPath targetJarDir
                         requestedPort chosenPort autoPicked)))
        (fun e => ret (Text 500 ("Error: " +:+ e)))
  end.

End StartRoute.

(** ** [POST /api/server/stop] and [GET /api/server/status] *)

(** The [isAlive] of the stop and status routes: [NaN], a fraction, zero
    and negative numbers are not alive without asking the system. *)
Definition isAlive (pid : option Z) : M bool :=
  match pid with
  | None => ret false
  | Some p =>
      if (p <=? 0)%Z then ret false
      else try_catch (process_kill p Sig0 ;; ret true) (fun _ => ret false)
  end.

Module StopRoute.

(** What the outside world decides during one call: whether the process
    exits on its own between the liveness probe and the signal. *)
Record Env := { vanishes : bool }.

Definition POST (env : Env) (worldName : option string) : M response :=
  let name := Text.trim (default EmptyString worldName) in
  if String.eqb name EmptyString then ret (Text 400 "worldName is required") else
  let* o := get in
  let pfile := pidFile o name in
  (* If there's no pid file, treat as already stopped (idempotent) *)
  let* pidText := try_catch (let* t := readFile pfile in ret (Some t))
                            (fun _ => ret None) in
  match pidText with
  | None => ret (JsonAlreadyStopped "No running server found (no PID file).")
  | Some pidText =>
      let pid := Text.parseInt pidText in
      (* If PID isn't alive, clean up the pidfile and return alreadyStopped *)
      let* live := isAlive pid in
      if negb live then
        try_catch (unlink pfile) (fun _ => ret tt) ;;
        ret (JsonAlreadyStopped "No running server found (stale PID cleaned).")
      else
        let pid := default 0 pid in
        (if vanishes env
         then modify (fun o' => with_alive (alive o' ∖ {[pid]}) o')
         else ret tt) ;;
        (* Try to terminate gracefully *)
        let* sent := try_catch (process_kill pid SIGTERM ;; ret true)
                               (fun _ => ret false) in
        if negb sent then
          (* If TERM failed because it's gone, treat as stopped *)
          try_catch (unlink pfile) (fun _ => ret tt) ;;
          ret (JsonAlreadyStopped "Process already exited.")
        else
          (* Best-effort pidfile cleanup; the detached process will exit *)
          try_catch (unlink pfile) (fun _ => ret tt) ;;
          ret (JsonStopped pid)
  end.

End StopRoute.

Module StatusRoute.

Definition GET (worldName : option string) : M response :=
  let worldName := Text.trim (default EmptyString worldName) in
  if String.eqb worldName EmptyString then ret (Text 400 "worldName is required") else
  let* o := get in
  try_catch
    (let* txt := readFile (pidFile o worldName) in
     let pid := Text.parseInt txt in
     let* running := isAlive pid in
     ret (JsonStatus running (if running : bool then pid else None)))
    (* No PID file or unreadable -> not running *)
    (fun _ => ret (JsonStatus false None)).

End StatusRoute.

(* ================================================================== *)
(** * The shell scripts                                                 *)
(* ================================================================== *)

(** ** Shell arithmetic and the [test] builtin *)

Module Sh.

(** Shell arithmetic is done on 64-bit signed integers and wraps. *)
Definition wrap64 (z : Z) : Z := (z + 2 ^ 63) mod 2 ^ 64 - 2 ^ 63.

(** What evaluating a word as an arithmetic expression gives. *)
Inductive arith := Value (z : Z) | ArithError | Unmodelled.

(** The value of a variable that holds [s], inside [$(( ))].  Modelled
    for the words the interval parser is meant for: an empty word is 0; a
    word of digits is a constant, octal when it starts with 0 (where a
    digit 8 or 9 is an error), decimal otherwise.  Any other word is an
    expression of its own (operators, variable names, other bases) and
    is left out of the model. *)
Definition arith_of_word (s : string) : arith :=
  match s with
  | EmptyString => Value 0
  | String "0"%char (String _ _ as r) =>
      if Text.all_digits r then
        match Text.read_digits 8 0 r with
        | (v, EmptyString) => Value (wrap64 v)
        | (_, String _ _) => ArithError
        end
      else Unmodelled
  | _ => if Text.all_digits s
         then Value (wrap64 (fst (Text.read_digits 10 0 s)))
         else Unmodelled
  end.

(** Space and TAB, which [test] skips after a number. *)
Definition is_blank (c : ascii) : bool :=
  match c with
  | " "%char | "009"%char => true
  | _ => false
  end.

Fixpoint skip_blanks (s : string) : string :=
  match s with
  | String c r => if is_blank c then skip_blanks r else s
  | EmptyString => EmptyString
  end.

(** The white space [strtoimax] skips before a number. *)
Fixpoint skip_space (s : string) : string :=
  match s with
  | String c r => if Text.is_space c then skip_space r else s
  | EmptyString => EmptyString
  end.

(** The integer an operand of [[ a -le b ]] stands for, if it is one:
    white space, a sign, digits, blanks, nothing else, and a value that
    fits 64 bits. *)
Definition legal_number (s : string) : option Z :=
  let s1 := skip_space s in
  let '(neg, s2) :=
    match s1 with
    | String "-" r => (true, r)
    | String "+" r => (false, r)
    | _ => (false, s1)
    end in
  match s2 with
  | String c _ =>
      if Text.is_digit c then
        let '(v, rest) := Text.read_digits 10 0 s2 in
        let v := if neg : bool then (- v)%Z else v in
        match skip_blanks rest with
        | EmptyString =>
            if ((- 2 ^ 63 <=? v) && (v <? 2 ^ 63))%Z then Some v else None
        | String _ _ => None
        end
      else None
  | EmptyString => None
  end.

(** The status of [[ a -le b ]] and [[ a -ge b ]]: 0 when the relation
    holds, 1 when it does not, 2 when an operand is not an integer. *)
Definition test_le (a b : string) : Z :=
  match legal_number a, legal_number b with
  | Some x, Some y => if (x <=? y)%Z then 0 else 1
  | _, _ => 2
  end.

Definition test_ge (a b : string) : Z :=
  match legal_number a, legal_number b with
  | Some x, Some y => if (y <=? x)%Z then 0 else 1
  | _, _ => 2
  end.

(** [${val%[smhdw]}]: the word without its last byte when that byte is
    one of the units, together with that byte. *)
Fixpoint strip_unit (val : string) : option (string * ascii) :=
  match val with
  | EmptyString => None
  | String c EmptyString =>
      match c with
      | "s"%char | "m"%char | "h"%char | "d"%char | "w"%char => Some (EmptyString, c)
      | _ => None
      end
  | String c r =>
      match strip_unit r with
      | Some (n, u) => Some (String c n, u)
      | None => None
      end
  end.

(** Seconds in one unit. *)
Definition unit_seconds (u : ascii) : Z :=
  match u with
  | "s"%char => 1
  | "m"%char => 60
  | "h"%char => 3600
  | "d"%char => 86400
  | "w"%char => 604800
  | _ => 0
  end.

End Sh.

(** What the backup scripts read and write on disk. *)
Record archive := Archive {
  ar_mtime : Z;        (* modification time of the archive file *)
  ar_snapshot : Z      (* which state of the world it holds *)
}.

Record disk := Disk {
  world_exists : bool;            (* the world's directory is there *)
  world_data : Z;                 (* the state of the world's files *)
  backups : gmap string archive;  (* the files of the backup directory *)
  last_backup : option Z          (* the timestamp file, if any *)
}.

(** How a shell function or script ends: it returns a status, or the
    script exits (by [exit], or under [set -e] by a failing command). *)
Inductive ended := Status (n : Z) | Exit (n : Z).

(** ** The start script with backup on stop *)

Module StartScript.

(** The configuration read from [.env]. *)
Record Config := {
  WORLD_NAME : string;
  BACKUP_ON_STOP : string;
  BACKUP_INTERVAL : string
}.

(** [parse_interval_to_seconds]: the text it prints, [None] outside the
    modelled words.  [num] is the word without its unit; [unit] comes
    from stripping [num] off the front again, which for a [num] of digits
    leaves exactly the unit byte.  A word that does not end in a unit
    byte has [num] equal to the word, and whatever [unit] is then, it is
    a suffix of the word and so none of [s m h d w]: the last branch. *)
Definition parse_interval_to_seconds (val : string) : option string :=
  match Sh.strip_unit val with
  | Some (num, u) =>
      match Sh.arith_of_word num with
      | Sh.Value n => Some (Text.of_Z (Sh.wrap64 (n * Sh.unit_seconds u)))
      | Sh.ArithError => Some EmptyString
      | Sh.Unmodelled => None
      end
  | None =>
      (* If no unit or unknown, try as seconds *)
      Some (if Text.is_number val then val else "0")
  end.

(** [should_backup_now] at time [now] (the output of [date +%s]): its
    return status, 0 meaning that a backup is due.  An [if] or a final
    [[ ]] whose test fails with status 2 falls through like any other
    non-zero status. *)
Definition should_backup_now (cfg : Config) (now : Z) (d : disk) : option Z :=
  if negb (String.eqb (BACKUP_ON_STOP cfg) "TRUE") then Some 1 else
  match parse_interval_to_seconds (BACKUP_INTERVAL cfg) with
  | None => None
  | Some interval_s =>
      if (Sh.test_le interval_s "0" =? 0)%Z then
        (* If parsing failed, default to always backup *)
        Some 0
      else
        match last_backup d with
        | None => Some 0
        | Some last =>
            let delta := Sh.wrap64 (now - last) in
            Some (Sh.test_ge (Text.of_Z delta) interval_s)
        end
  end.

(** What the outside world decides during one backup. *)
Record Env := {
  ts : string;       (* [date +%Y%m%d-%H%M%S] *)
  tar_ok : bool;     (* does [tar] succeed *)
  now : Z            (* [date +%s], taken as the archive's time too *)
}.

Definition archive_name (cfg : Config) (env : Env) : string :=
  WORLD_NAME cfg +:+ "-" +:+ ts env +:+ ".tar.gz".

(** [do_backup]; a failing [tar] ends the script under [set -e]. *)
Definition do_backup (cfg : Config) (env : Env) (d : disk) : ended * disk :=
  (* Skip if the world folder doesn't exist yet *)
  if negb (world_exists d) then (Status 0, d) else
  if negb (tar_ok env) then (Exit 2, d) else
  (Status 0,
   Disk (world_exists d) (world_data d)
        (<[archive_name cfg env := Archive (now env) (world_data d)]> (backups d))
        (Some (now env))).

Definition do_backup_if_needed (cfg : Config) (env : Env) (d : disk)
  : option (ended * disk) :=
  match should_backup_now cfg (now env) d with
  | None => None
  | Some st => Some (if (st =? 0)%Z then do_backup cfg env d else (Status 0, d))
  end.

(** [do_backup_on_stop]: only the toggle counts, not the interval. *)
Definition do_backup_on_stop (cfg : Config) (env : Env) (d : disk) : ended * disk :=
  if String.eqb (BACKUP_ON_STOP cfg) "TRUE" then do_backup cfg env d
  else (Status 0, d).

(** The server the script has started, and the disk. *)
Record session := Session {
  server_alive : bool;     (* [kill -0 "$server_pid"] succeeds *)
  kill_ok : bool;          (* would [kill -TERM "$server_pid"] succeed *)
  on_disk : disk
}.

(** [cleanup_and_backup], the handler of INT and TERM: a server that is
    still alive is signalled and waited for, a failure of either being
    ignored ([|| true]); then the backup on stop runs, and the script exits
    with 0 unless the backup has ended it. *)
Definition cleanup_and_backup (cfg : Config) (env : Env) (s : session)
  : ended * session :=
  let s1 := if server_alive s then Session false false (on_disk s) else s in
  (* Always back up on stop (respecting BACKUP_ON_STOP toggle, but ignoring interval) *)
  match do_backup_on_stop cfg env (on_disk s1) with
  | (Exit n, d) => (Exit n, Session (server_alive s1) (kill_ok s1) d)
  | (Status _, d) => (Exit 0, Session (server_alive s1) (kill_ok s1) d)
  end.

(** The order of [ls -t]: newest first, names ascending (byte by byte, as
    in the C locale) among equal times. *)
Definition ls_t_before (a b : dirent) : Prop :=
  (mtimeMs b < mtimeMs a)%Z ∨ (mtimeMs a = mtimeMs b ∧ String.le (name a) (name b)).

Global Instance ls_t_before_dec : RelDecision ls_t_before.
Proof. intros a b. unfold ls_t_before. apply _. Defined.

Definition glob_jar (e : dirent) : bool :=
  (Text.endsWith ".jar" (name e) && negb (Text.startsWith "." (name e)))%bool.

(** [ls -t *.jar | grep -vE '(\.old|\.bak)\.jar$' | head -n 1], for a
    current directory in which the names the pattern matches are files. *)
Definition SERVER_JAR (entries : list dirent) : option string :=
  head (List.filter (fun n => negb (Artifact.has_backup_marker n))
          (map name (merge_sort ls_t_before (List.filter glob_jar entries)))).

End StartScript.

(** ** [scripts/backup.sh] *)

Module BackupScript.

(** What the outside world decides during one run. *)
Record Env := {
  DATE : string;      (* [date +%Y-%m-%d] *)
  TIME : string;      (* [date +%H-%M-%S] *)
  tar_ok : bool;      (* does [tar] succeed *)
  now : Z             (* the time the archive file gets *)
}.

(** A world name that the unquoted [${WORLD_NAME}] of the clean-up line
    leaves as one plain word that is not read as an option. *)
Definition plain_name (w : string) : bool :=
  (World.validateWorldName w && negb (Text.startsWith "-" w))%bool.

(** A file name that [xargs] passes on as it is: no white space, no
    single quote (039), no double quote (034), no backslash (092). *)
Fixpoint xargs_safe (n : string) : bool :=
  match n with
  | EmptyString => true
  | String c r =>
      (negb (Text.is_space c) && negb (Ascii.eqb c "039") && negb (Ascii.eqb c "034")
       && negb (Ascii.eqb c "092") && xargs_safe r)%bool
  end.

(** The pattern [${WORLD_NAME}_*.tar.gz] *)
Definition glob_backup (w n : string) : bool :=
  let pre := w +:+ "_" in
  (Text.startsWith pre n
   && Text.endsWith ".tar.gz" (Text.drop (String.length pre) n))%bool.

(** The order of [ls -t]: newest first, names ascending (byte by byte, as
    in the C locale) among equal times. *)
Definition ls_t_before (a b : string * archive) : Prop :=
  (ar_mtime b.2 < ar_mtime a.2)%Z
  ∨ (ar_mtime a.2 = ar_mtime b.2 ∧ String.le a.1 b.1).

Global Instance ls_t_before_dec : RelDecision ls_t_before.
Proof. intros a b. unfold ls_t_before. apply _. Defined.

(** [ls -t ${WORLD_NAME}_*.tar.gz] *)
Definition ls_t (w : string) (files : gmap string archive) : list string :=
  map fst (merge_sort ls_t_before
             (List.filter (fun nf => glob_backup w nf.1) (map_to_list files))).

(** [... | tail -n +11 | xargs -r rm]: every listed name from the 11th
    on is removed. *)
Definition cleanup (w : string) (files : gmap string archive) : gmap string archive :=
  fold_right (fun n m => delete n m) files (skipn 10 (ls_t w files)).

(** The script, run with [WORLD_NAME] in its environment: how it exits
    and what is on disk then.  [None] when, once it comes to writing and
    cleaning up, the world name or an archive name falls outside the words
    modelled above. *)
Definition main (WORLD_NAME : string) (env : Env) (d : disk) : option (Z * disk) :=
  if String.eqb WORLD_NAME EmptyString then Some (1, d) else
  (* Check if world directory exists *)
  if negb (world_exists d) then Some (1, d) else
  if negb (plain_name WORLD_NAME) then None else
  (* Create backup filename with date *)
  let BACKUP_FILE := WORLD_NAME +:+ "_" +:+ DATE env +:+ ".tar.gz" in
  (* If backup for today already exists, append time to make it unique *)
  let BACKUP_FILE :=
    match backups d !! BACKUP_FILE with
    | Some _ => WORLD_NAME +:+ "_" +:+ DATE env +:+ "_" +:+ TIME env +:+ ".tar.gz"
    | None => BACKUP_FILE
    end in
  if tar_ok env then
    let files := <[BACKUP_FILE := Archive (now env) (world_data d)]> (backups d) in
    if forallb xargs_safe (ls_t WORLD_NAME files) then
      (* Keep only the last 10 backups to save disk space *)
      Some (0, Disk (world_exists d) (world_data d)
                    (cleanup WORLD_NAME files) (last_backup d))
    else None
  else Some (1, d).

End BackupScript.

(** ** [minecraft.sh] *)

Module Minecraft.

Inductive step := RconStop | RunBackup | ComposeDown.

(** The containers and the disk, and the commands run so far. *)
Record state := State {
  running : bool;             (* what [check_running] finds *)
  store : disk;
  steps : list step
}.

Record Env := {
  rcon_ok : bool;             (* does [rcon-cli stop] succeed *)
  backup_env : BackupScript.Env
}.

(** [stop_server], under [set -e]: a failing stop command is ignored
    ([|| true]), a failing backup script ends the script before the
    containers are taken down. *)
Definition stop_server (WORLD_NAME : string) (env : Env) (s : state)
  : option (ended * state) :=
  if negb (running s) then Some (Status 0, s) else
  (* Send stop command to minecraft server gracefully *)
  let s1 := State (running s) (store s) (steps s ++ [RconStop]) in
  (* Create backup before stopping *)
  match BackupScript.main WORLD_NAME (backup_env env) (store s1) with
  | None => None
  | Some (st, d) =>
      let s2 := State (running s1) d (steps s1 ++ [RunBackup]) in
      if negb (st =? 0)%Z then Some (Exit st, s2) else
      (* Stop containers *)
      Some (Status 0, State false d (steps s2 ++ [ComposeDown]))
  end.

End Minecraft.

(* ================================================================== *)
(** * The property and whitelist routes                                 *)
(* ================================================================== *)

Module Props.

(** [k.replace(/\\:/g, ':')]: every backslash followed by a colon
    (byte 092, byte 058) becomes the colon, matches taken left to right. *)
Fixpoint unescape_colons (s : string) : string :=
  match s with
  | String "092"%char (String ":"%char r) => String ":" (unescape_colons r)
  | String c r => String c (unescape_colons r)
  | EmptyString => EmptyString
  end.

(** [k.replace(/:/g, '\\:')] *)
Fixpoint escape_colons (s : string) : string :=
  match s with
  | String ":"%char r => String "092" (String ":" (escape_colons r))
  | String c r => String c (escape_colons r)
  | EmptyString => EmptyString
  end.

Definition unescapeKey (k : string) : string := Text.trim (unescape_colons k).
Definition escapeKey (k : string) : string := Text.trim (escape_colons k).

(** [text.split(/\r?\n/)]: a line feed (byte 010) ends a line, together
    with a carriage return (byte 013) right before it. *)
Fixpoint split_lines (s : string) : list string :=
  match s with
  | EmptyString => [EmptyString]
  | String "013"%char (String "010"%char r) => EmptyString :: split_lines r
  | String "010"%char r => EmptyString :: split_lines r
  | String c r =>
      match split_lines r with
      | h :: t => String c h :: t
      | [] => [String c EmptyString]
      end
  end.

(** [line.indexOf(c)] as the two slices around the first [c]:
    [line.slice(0, i)] and [line.slice(i + 1)]; [None] when [c] does not
    occur. *)
Fixpoint cut (c : ascii) (s : string) : option (string * string) :=
  match s with
  | EmptyString => None
  | String x r =>
      if Ascii.eqb x c then Some (EmptyString, r)
      else match cut c r with
           | Some (a, b) => Some (String x a, b)
           | None => None
           end
  end.

(** [out[key] = value] on a plain object, for a string [value]: the key
    [__proto__] reaches the setter of the prototype, which ignores a
    string, so no property is made; any other key becomes (or stays) a
    property of the object. *)
Definition assign (out : gmap string string) (key value : string) : gmap string string :=
  if String.eqb key "__proto__" then out else <[key := value]> out.

(** One turn of the loop of [parseServerProperties]: the key and value
    of a line, [None] where the loop says [continue]. *)
Definition parse_line (raw : string) : option (string * string) :=
  let line := Text.trim raw in
  if (String.eqb line EmptyString || Text.startsWith "#" line)%bool then None else
  match cut "=" line with
  | None => None
  | Some (a, b) =>
      let rawKey := Text.trim a in
      let value := Text.trim b in
      (* Keep the original key semantics (no camelCase); just unescape *)
      Some (unescapeKey rawKey, value)
  end.

(** [parseServerProperties(text)]: the properties of the object it
    returns. *)
Definition parseServerProperties (text : string) : gmap string string :=
  fold_left (fun out raw =>
               match parse_line raw with
               | Some (key, value) => assign out key value
               | None => out
               end)
            (split_lines text) ∅.

(** A value of a property as [stringifyServerProperties] tells them
    apart: a boolean, a number (given by the text [String] prints for
    it), a string, or [null] / [undefined]. *)
Inductive jsval :=
| JBool (b : bool)
| JNumber (printed : string)
| JString (s : string)
| JNull.

Definition value_text (v : jsval) : string :=
  match v with
  | JBool b => if b then "true" else "false"
  | JNumber printed => printed
  | JString s => s
  | JNull => EmptyString
  end.

(** [lines.join('\n')] *)
Fixpoint join_lines (lines : list string) : string :=
  match lines with
  | [] => EmptyString
  | [l] => l
  | l :: rest => l +:+ String "010" (join_lines rest)
  end.

(** [stringifyServerProperties(props)], given [Object.entries(props)]. *)
Definition stringifyServerProperties (entries : list (string * jsval)) : string :=
  join_lines (map (fun kv => escapeKey kv.1 +:+ "=" +:+ value_text kv.2) entries).

(** [getPaths(world)] of the property route and of the whitelist route. *)
Definition worldsPath (o : os) : path := Path.resolve (cwd o) "../worlds".

Definition serverPropsPath (o : os) (world : string) : path :=
  Path.join (Path.join (worldsPath o) world) "server.properties".

Definition whitelistPath (o : os) (world : string) : path :=
  Path.join (Path.join (worldsPath o) world) "whitelist.json".

End Props.

(* ================================================================== *)
(** * Vocabulary of the statements                                      *)
(* ================================================================== *)

(** [s] begins with a white-space character of JavaScript. *)
Definition ws_start (s : string) : bool :=
  match s with
  | String a r1 =>
      Text.is_space a
      || match r1 with
         | String b r2 =>
             Text.is_space2 a b
             || match r2 with
                | String c _ => Text.is_space3 a b c
                | EmptyString => false
                end
         | EmptyString => false
         end
  | EmptyString => false
  end.

(** A byte that is no part of any white space: a printable ASCII byte. *)
Definition plain (c : ascii) : Prop :=
  (33 <= nat_of_ascii c < 128)%nat.

(** A byte that can begin a character: not of the form 10xxxxxx. *)
Definition leading (s : string) : Prop :=
  match s with
  | String c _ => (nat_of_ascii c < 128 \/ 192 <= nat_of_ascii c)%nat
  | EmptyString => True
  end.

(** The value of a decimal numeral read left to right after [acc]. *)
Fixpoint uint_val (acc : Z) (d : uint) : Z :=
  match d with
  | Nil => acc
  | D0 l => uint_val (10 * acc + 0) l
  | D1 l => uint_val (10 * acc + 1) l
  | D2 l => uint_val (10 * acc + 2) l
  | D3 l => uint_val (10 * acc + 3) l
  | D4 l => uint_val (10 * acc + 4) l
  | D5 l => uint_val (10 * acc + 5) l
  | D6 l => uint_val (10 * acc + 6) l
  | D7 l => uint_val (10 * acc + 7) l
  | D8 l => uint_val (10 * acc + 8) l
  | D9 l => uint_val (10 * acc + 9) l
  end.

(** What the stop and status routes take a pid record for: the text does
    not read as a positive pid, or no such process can be signalled. *)
Definition stale (o : os) (txt : string) : Prop :=
  match Text.parseInt txt with
  | Some p => p <= 0 \/ p ∉ alive o
  | None => True
  end.

(** What the start route takes a pid record for, its [isAlive] having no
    guard: the text does not read as a pid other than zero, or no such
    process (or process group) can be signalled. *)
Definition stale_at_start (o : os) (txt : string) : Prop :=
  match Text.parseInt txt with
  | Some p => p = 0 \/ p ∉ alive o
  | None => True
  end.

(** The state once the pid directory has been ensured. *)
Definition after_ensure_pid_dir (o : os) : os :=
  emit (Mkdir (PID_DIR o))
    (with_dirs (dirs o ∪ list_to_set (Path.ancestors (PID_DIR o))) o).

(** The number of processes created so far. *)
Fixpoint spawn_count (t : list event) : nat :=
  match t with
  | [] => O
  | Spawn _ _ (Some _) :: r => S (spawn_count r)
  | _ :: r => spawn_count r
  end.

(** A computation is quiet when it creates no process, removes no file,
    and leaves the working directory and the set of live pids alone. *)
Definition quiet {A} (m : M A) : Prop :=
  forall o r o', m o = (r, o') ->
    cwd o' = cwd o /\ alive o' = alive o
    /\ spawn_count (trace o') = spawn_count (trace o)
    /\ (forall p, is_Some (files o !! p) -> is_Some (files o' !! p)).

(** A computation keeps the file at [p] when it leaves it as it is:
    there or not, and with the same content. *)
Definition keeps {A} (p : path) (m : M A) : Prop :=
  forall o r o', m o = (r, o') -> files o' !! p = files o !! p.

(** Machines to run the routes on: the GUI works in [/srv/mc/gui].  On
    [machine0] no world has a record; on [machine1] the world [Alpha] has
    the record [4242] and that process is alive; on [machine_stale] the
    record is there and the process is not. *)
Definition machine0 : os :=
  Os ["srv"; "mc"; "gui"] ∅ {[ []; ["srv"]; ["srv"; "mc"]; ["srv"; "mc"; ".mc-pids"] ]} ∅ ∅ [].

Definition alpha_pid : path := ["srv"; "mc"; ".mc-pids"; "Alpha.pid"].

Definition machine1 : os :=
  Os ["srv"; "mc"; "gui"] {[ alpha_pid := "4242" ]}
     {[ []; ["srv"]; ["srv"; "mc"]; ["srv"; "mc"; ".mc-pids"] ]} {[ 4242 ]} ∅ [].

Definition machine_stale : os :=
  Os ["srv"; "mc"; "gui"] {[ alpha_pid := "4242" ]}
     {[ []; ["srv"]; ["srv"; "mc"]; ["srv"; "mc"; ".mc-pids"] ]} ∅ ∅ [].

(** A request to start [Alpha] with every default, and a world outside
    in which the repository root holds one [server.jar], no download is
    possible and the child gets pid 4242. *)
Definition body_alpha : StartRoute.Body :=
  {| StartRoute.worldName := Some "Alpha"; StartRoute.memory := None;
     StartRoute.serverJar := None; StartRoute.jarDir := None;
     StartRoute.port := None |}.

Definition env0 : StartRoute.Env :=
  {| StartRoute.readdir := fun _ => Some [Dirent "server.jar" true 1000];
     StartRoute.download := None;
     StartRoute.ephemeral := None;
     StartRoute.child := StartRoute.Child (Some 4242) |}.

Definition started_alpha : started :=
  Started "Alpha" (Some 4242) "4G" ["srv"; "mc"; "server.jar"] ["srv"; "mc"]
          25565 25565 false.

(** The same machine with port 25565 taken by another listener. *)
Definition machine_busy : os :=
  Os ["srv"; "mc"; "gui"] ∅ ∅ ∅ {[ 25565 ]} [].

(** A request whose world name climbs out of the worlds directory. *)
Definition body_evil : StartRoute.Body :=
  {| StartRoute.worldName := Some "../evil"; StartRoute.memory := None;
     StartRoute.serverJar := None; StartRoute.jarDir := None;
     StartRoute.port := None |}.

(** The entries [findExistingJar] chooses among: the jars, narrowed to the
    ones named [server*.jar] when there is any. *)
Definition pool (es : list dirent) : list dirent :=
  let jars := List.filter Artifact.is_jar es in
  match List.filter (fun e => Artifact.is_server_jar (name e)) jars with
  | [] => jars
  | preferred => preferred
  end.

(** The start script's configuration for [Alpha] with backups on and a
    given interval. *)
Definition cfg_interval (i : string) : StartScript.Config :=
  {| StartScript.WORLD_NAME := "Alpha";
     StartScript.BACKUP_ON_STOP := "TRUE";
     StartScript.BACKUP_INTERVAL := i |}.

(** A disk whose last backup was taken at the given time. *)
Definition disk_backed_up_at (t : Z) : disk := Disk true 0 ∅ (Some t).

(** The archives of a world in a backup directory: the names the
    clean-up line's pattern matches. *)
Definition archives_of (w : string) (m : gmap string archive) : gset string :=
  dom (filter (fun kv => BackupScript.glob_backup w kv.1 = true) m).

(** The name [scripts/backup.sh] writes to, and the backup directory once
    [tar] has written there. *)
Definition backup_file (w : string) (env : BackupScript.Env) (d : disk) : string :=
  match backups d !! (w +:+ "_" +:+ BackupScript.DATE env +:+ ".tar.gz") with
  | Some _ => w +:+ "_" +:+ BackupScript.DATE env +:+ "_" +:+ BackupScript.TIME env +:+ ".tar.gz"
  | None => w +:+ "_" +:+ BackupScript.DATE env +:+ ".tar.gz"
  end.

Definition after_tar (w : string) (env : BackupScript.Env) (d : disk) : gmap string archive :=
  <[backup_file w env d := Archive (BackupScript.now env) (world_data d)]> (backups d).

(** One moment of 1 November 2025, as each script reads the clock. *)
Definition noon_start : StartScript.Env :=
  {| StartScript.ts := "20251101-120000"; StartScript.tar_ok := true;
     StartScript.now := 1761998400 |}.

Definition noon_backup : BackupScript.Env :=
  {| BackupScript.DATE := "2025-11-01"; BackupScript.TIME := "12-00-00";
     BackupScript.tar_ok := true; BackupScript.now := 1761998400 |}.

(** A disk on which the world has changed since the given one was seen. *)
Definition world_changed (d : disk) : disk :=
  Disk (world_exists d) (world_data d + 1) (backups d) (last_backup d).

(** Backup directories that already hold archives of [Alpha]: ten written
    by the start script, eleven written by [scripts/backup.sh], one a day. *)
Definition ten_start_archives : disk :=
  Disk true 0
    (list_to_map
       (map (fun k => ("Alpha-202510" +:+ k +:+ "-120000.tar.gz", Archive 1 0))
            ["01"; "02"; "03"; "04"; "05"; "06"; "07"; "08"; "09"; "10"]))
    None.

Definition eleven_script_archives : disk :=
  Disk true 0
    (list_to_map
       (map (fun k => ("Alpha_2025-10-" +:+ k.1 +:+ ".tar.gz", Archive k.2 0))
            [("01", 1); ("02", 2); ("03", 3); ("04", 4); ("05", 5); ("06", 6);
             ("07", 7); ("08", 8); ("09", 9); ("10", 10); ("11", 11)]))
    None.

(** The pid a world is running under as far as its record and the system
    tell: the record reads as a positive pid and that pid can be signalled. *)
Definition recorded_live (o : os) (name : string) : option Z :=
  match files o !! pidFile o name with
  | Some txt =>
      match Text.parseInt txt with
      | Some p => if ((0 <? p)%Z && bool_decide (p ∈ alive o))%bool then Some p else None
      | None => None
      end
  | None => None
  end.

(** Two states that differ at most in their traces, the later one having
    created no process. *)
Definition only_logs (o o' : os) : Prop :=
  cwd o' = cwd o /\ files o' = files o /\ dirs o' = dirs o
  /\ alive o' = alive o /\ in_use o' = in_use o
  /\ spawn_count (trace o') = spawn_count (trace o).

(** What the port step of the start handler comes to in a state: the
    preferred port when it can be bound, else the port the system hands
    out for port 0, marked as picked by the system; [None] when neither
    bind succeeds. *)
Definition pick_port (ephemeral : option Z) (preferred : Z) (o : os) : option (Z * bool) :=
  match net_listen ephemeral preferred o with
  | Listening _ => Some (preferred, false)
  | ListenError =>
      match net_listen ephemeral 0 o with
      | Listening e => Some (e, true)
      | _ => None
      end
  | BadPort => None
  end.

(** The jar the start handler has at hand without a download: the one
    named in the request, resolved against the repository root, else the
    one [findExistingJar] finds in the target directory. *)
Definition local_jar (env : StartRoute.Env) (body : StartRoute.Body) (o : os) : option path :=
  let serverJar := default EmptyString (StartRoute.serverJar body) in
  if negb (String.eqb serverJar EmptyString)
  then Some (if Path.isAbsolute serverJar then Path.of_string serverJar
             else Path.join (ROOT_DIR o) serverJar)
  else Artifact.findExistingJar (StartRoute.resolveJarDir o (StartRoute.jarDir body))
         (StartRoute.readdir env (StartRoute.resolveJarDir o (StartRoute.jarDir body))).

(** The arguments [java] is spawned with. *)
Definition launch_args (memory : string) (jar world : path) (port : Z) : list string :=
  [ "-Xmx" +:+ memory; "-Xms" +:+ memory; "-jar"; Path.to_string jar; "nogui";
    "--world"; Path.to_string world; "--port"; Text.of_Z port ].

(** Nothing stands in the way of a start: the world has no record, or
    one that the start route takes for stale. *)
Definition no_conflict (o : os) (name : string) : Prop :=
  match files o !! pidFile o name with
  | Some txt => stale_at_start o txt
  | None => True
  end.

(** The state once the child has been spawned. *)
Definition spawned (args : list string) (pid : option Z) (o : os) : os :=
  emit (Spawn "java" args pid)
    (match pid with
     | Some p => with_alive ({[p]} ∪ alive o) o
     | None => o
     end).

(** The state a start has reached when it comes to resolving the jar:
    the pid directory and the world directory have been made, and
    nothing else has changed but the trace. *)
Definition prepared (o : os) (name : string) (o' : os) : Prop :=
  cwd o' = cwd o /\ files o' = files o /\ alive o' = alive o
  /\ in_use o' = in_use o
  /\ spawn_count (trace o') = spawn_count (trace o)
  /\ dirs o' = dirs o ∪ list_to_set (Path.ancestors (PID_DIR o))
                      ∪ list_to_set (Path.ancestors (Path.join (WORLDS_DIR o) name)).


(** The step of the start handler that resolves the server jar: the jar
    named in the request, else the newest one found in the target
    directory, else a download.  [o] is the state the handler started in. *)
Definition jar_stage (env : StartRoute.Env) (body : StartRoute.Body) (o : os) : M path :=
  let serverJar := default EmptyString (StartRoute.serverJar body) in
  let targetJarDir := StartRoute.resolveJarDir o (StartRoute.jarDir body) in
  if negb (String.eqb serverJar EmptyString)
  then ret (if Path.isAbsolute serverJar then Path.of_string serverJar
            else Path.join (ROOT_DIR o) serverJar)
  else match Artifact.findExistingJar targetJarDir (StartRoute.readdir env targetJarDir) with
       | Some j => ret j
       | None => StartRoute.downloadLatestServerJar env targetJarDir
       end.

(** A request whose world name has a directory part. *)
Definition body_nested : StartRoute.Body :=
  {| StartRoute.worldName := Some "a/b"; StartRoute.memory := None;
     StartRoute.serverJar := None; StartRoute.jarDir := None;
     StartRoute.port := None |}.

(** Worlds outside in which [spawn] throws, and in which there is no jar
    to be found: none at all, or the release [1.21.4] to download.
    [spawn] throws when the system has no memory left for another
    process: [ENOMEM] is not among the errors Node reports later through
    the child's [error] event (those are [EACCES], [EAGAIN], [EMFILE],
    [ENFILE] and [ENOENT], a missing [java] among them, and they give a
    child without a pid). *)
Definition env_no_memory : StartRoute.Env :=
  {| StartRoute.readdir := fun _ => Some [Dirent "server.jar" true 1000];
     StartRoute.download := None;
     StartRoute.ephemeral := None;
     StartRoute.child := StartRoute.SpawnThrows "spawn ENOMEM" |}.

Definition env_offline : StartRoute.Env :=
  {| StartRoute.readdir := fun _ => Some [];
     StartRoute.download := None;
     StartRoute.ephemeral := None;
     StartRoute.child := StartRoute.Child (Some 4242) |}.

Definition env_online : StartRoute.Env :=
  {| StartRoute.readdir := fun _ => None;
     StartRoute.download := Some ("1.21.4", "jar bytes");
     StartRoute.ephemeral := None;
     StartRoute.child := StartRoute.Child (Some 4242) |}.


Definition body_port0 : StartRoute.Body :=
  {| StartRoute.worldName := Some "Alpha"; StartRoute.memory := None;
     StartRoute.serverJar := None; StartRoute.jarDir := None;
     StartRoute.port := Some (Int 0) |}.

(** The start script's configuration for [Alpha] with the toggle as
    given and an interval of a day. *)
Definition cfg_toggle (t : string) : StartScript.Config :=
  {| StartScript.WORLD_NAME := "Alpha";
     StartScript.BACKUP_ON_STOP := t;
     StartScript.BACKUP_INTERVAL := "24h" |}.

(** One hour after [noon_start]. *)
Definition one_pm_start : StartScript.Env :=
  {| StartScript.ts := "20251101-130000"; StartScript.tar_ok := true;
     StartScript.now := 1762002000 |}.

(** A run of [scripts/backup.sh] in which [tar] fails. *)
Definition noon_tar_fails : BackupScript.Env :=
  {| BackupScript.DATE := "2025-11-01"; BackupScript.TIME := "12-00-00";
     BackupScript.tar_ok := false; BackupScript.now := 1761998400 |}.

(** A backup directory whose ten archives of [Alpha] all carry a time
    later than [noon_backup]. *)
Definition ten_later_archives : disk :=
  Disk true 0
    (list_to_map
       (map (fun k => ("Alpha_2025-11-" +:+ k.1 +:+ ".tar.gz", Archive (1762000000 + k.2) 0))
            [("02", 1); ("03", 2); ("04", 3); ("05", 4); ("06", 5);
             ("07", 6); ("08", 7); ("09", 8); ("10", 9); ("11", 10)]))
    None.

(** Containers that are up, on a disk with the world and no archive. *)
Definition server_up : Minecraft.state :=
  Minecraft.State true (Disk true 0 ∅ None) [].


(** Whether a byte occurs in a text. *)
Fixpoint has (c : ascii) (s : string) : bool :=
  match s with
  | EmptyString => false
  | String x r => (Ascii.eqb x c || has c r)%bool
  end.

(** Whether the last byte of a text is a carriage return. *)
Fixpoint ends_cr (s : string) : bool :=
  match s with
  | EmptyString => false
  | String c EmptyString => Ascii.eqb c "013"
  | String _ r => ends_cr r
  end.

(** Keys and values that a property file holds as they are: a key is
    trimmed, has no [=] and no line feed, does not start a comment and is
    not [__proto__]; a value is trimmed and has no line feed. *)
Definition clean_key (k : string) : Prop :=
  Text.trim k = k /\ has "=" k = false /\ has "010" k = false
  /\ Text.startsWith "#" k = false /\ k <> "__proto__".

Definition clean_value (v : string) : Prop :=
  Text.trim v = v /\ has "010" v = false.

(** The line [stringifyServerProperties] writes for one entry, and the
    entry as the file holds it. *)
Definition line_of (kv : string * Props.jsval) : string :=
  Props.escapeKey kv.1 +:+ "=" +:+ Props.value_text kv.2.

Definition as_text (kv : string * Props.jsval) : string * string :=
  (kv.1, Props.value_text kv.2).

Definition clean_entry (kv : string * Props.jsval) : Prop :=
  clean_key kv.1 /\ clean_value (Props.value_text kv.2).

(** A property file of three lines and its entries. *)
Definition three_props : list (string * Props.jsval) :=
  [("server-port", Props.JNumber "25565"); ("white-list", Props.JBool true);
   ("motd", Props.JString "A Minecraft Server")].

(** A text that is empty or starts with neither white space nor the
    comment sign. *)
Definition hd_ok (s : string) : bool :=
  (negb (ws_start s) && negb (Text.startsWith "#" s))%bool.

(** A property file with a comment, and a patch and what
    [Object.entries] gives for the two merged. *)
Definition old_file : string :=
  "#Minecraft server properties"
  +:+ String "010" ("server-port=25565" +:+ String "010" "motd = hi").

Definition port_patch : gmap string Props.jsval :=
  {[ "server-port" := Props.JNumber "25566" ]}.

Definition merged_entries : list (string * Props.jsval) :=
  [("server-port", Props.JNumber "25566"); ("motd", Props.JString "hi")].

(* ================================================================== *)
(** * Properties                                                        *)
(* ================================================================== *)

(** ** White space *)

Section WhiteSpace.

Lemma is_space_byte (a : ascii) :
  Text.is_space a = true -> (nat_of_ascii a <= 32)%nat.
Proof.
  unfold Text.is_space.
  rewrite orb_true_iff, andb_true_iff, !Nat.leb_le, Nat.eqb_eq. lia.
Qed.

Lemma is_space2_bytes (a b : ascii) :
  Text.is_space2 a b = true ->
  (nat_of_ascii a = 194 /\ nat_of_ascii b = 160)%nat.
Proof.
  unfold Text.is_space2. now rewrite andb_true_iff, !Nat.eqb_eq.
Qed.

Lemma is_space3_bytes (a b c : ascii) :
  Text.is_space3 a b c = true ->
  (194 <= nat_of_ascii a /\ 128 <= nat_of_ascii b < 192
   /\ 128 <= nat_of_ascii c < 192)%nat.
Proof.
  unfold Text.is_space3.
  rewrite !orb_true_iff, !andb_true_iff, !orb_true_iff, !andb_true_iff,
    !Nat.leb_le, !Nat.eqb_eq. lia.
Qed.


Ltac no_space :=
  match goal with
  | |- ?t = false =>
      let E := fresh "E" in
      destruct t eqn:E; [exfalso | reflexivity];
      first [apply is_space_byte in E | apply is_space2_bytes in E
            | apply is_space3_bytes in E];
      unfold plain, leading in *; lia
  end.

Lemma plain_is_space (c : ascii) : plain c -> Text.is_space c = false.
Proof. intros H. no_space. Qed.

Lemma plain_is_space2 (c x : ascii) :
  plain c -> Text.is_space2 c x = false /\ Text.is_space2 x c = false.
Proof. intros H. split; no_space. Qed.

Lemma plain_is_space3 (c x y : ascii) :
  plain c ->
  Text.is_space3 c x y = false /\ Text.is_space3 x c y = false
  /\ Text.is_space3 x y c = false.
Proof. intros H. repeat split; no_space. Qed.

(** The equations of [trimStart]. *)
Lemma trimStart_1 (a : ascii) (r : string) :
  Text.is_space a = true -> Text.trimStart (String a r) = Text.trimStart r.
Proof. intros H. cbn [Text.trimStart]. now rewrite H. Qed.

Lemma trimStart_2 (a b : ascii) (r : string) :
  Text.is_space a = false -> Text.is_space2 a b = true ->
  Text.trimStart (String a (String b r)) = Text.trimStart r.
Proof. intros H1 H2. cbn [Text.trimStart]. now rewrite H1, H2. Qed.

Lemma trimStart_3 (a b c : ascii) (r : string) :
  Text.is_space a = false -> Text.is_space2 a b = false ->
  Text.is_space3 a b c = true ->
  Text.trimStart (String a (String b (String c r))) = Text.trimStart r.
Proof. intros H1 H2 H3. cbn [Text.trimStart]. now rewrite H1, H2, H3. Qed.

Lemma trimStart_keep (s : string) :
  ws_start s = false -> Text.trimStart s = s.
Proof.
  destruct s as [|a [|b [|c r]]]; cbn [ws_start Text.trimStart]; intros H.
  - reflexivity.
  - rewrite orb_false_r in H. now rewrite H.
  - rewrite orb_false_r in H. apply orb_false_elim in H as [Ha Hb].
    now rewrite Ha, Hb.
  - apply orb_false_elim in H as [Ha H]. apply orb_false_elim in H as [Hb Hc].
    now rewrite Ha, Hb, Hc.
Qed.

(** Induction along the white space at the front of a string. *)
Lemma ws_cases (P : string -> Prop) :
  (forall s, ws_start s = false -> P s) ->
  (forall a r, Text.is_space a = true -> P r -> P (String a r)) ->
  (forall a b r, Text.is_space a = false -> Text.is_space2 a b = true ->
                 P r -> P (String a (String b r))) ->
  (forall a b c r, Text.is_space a = false -> Text.is_space2 a b = false ->
                   Text.is_space3 a b c = true ->
                   P r -> P (String a (String b (String c r)))) ->
  forall s, P s.
Proof.
  intros H0 H1 H2 H3 s.
  assert (G : forall n s, (String.length s <= n)%nat -> P s).
  { clear s. induction n as [|n IH]; intros s Hn.
    - destruct s; [|simpl in Hn; lia]. now apply H0.
    - destruct s as [|a r1]; [now apply H0|].
      destruct (Text.is_space a) eqn:Ea.
      { apply H1; [exact Ea|]. apply IH. simpl in Hn. lia. }
      destruct r1 as [|b r2].
      { apply H0. cbn [ws_start]. now rewrite Ea. }
      destruct (Text.is_space2 a b) eqn:Eb.
      { apply H2; [exact Ea | exact Eb |]. apply IH. simpl in Hn. lia. }
      destruct r2 as [|c r3].
      { apply H0. cbn [ws_start]. now rewrite Ea, Eb. }
      destruct (Text.is_space3 a b c) eqn:Ec.
      { apply H3; [exact Ea | exact Eb | exact Ec |]. apply IH. simpl in Hn. lia. }
      apply H0. cbn [ws_start]. now rewrite Ea, Eb, Ec. }
  now apply (G (String.length s)).
Qed.

Lemma ws_start_plain (c : ascii) (r : string) :
  plain c -> ws_start (String c r) = false.
Proof.
  intros H. destruct r as [|b [|d r]]; cbn [ws_start];
    rewrite ?(plain_is_space c H), ?(proj1 (plain_is_space2 c _ H)),
      ?(proj1 (plain_is_space3 c _ _ H)); reflexivity.
Qed.

Lemma trimStart_length (s : string) :
  (String.length (Text.trimStart s) <= String.length s)%nat.
Proof.
  induction s as [s H|a r H IH|a b r Ha Hb IH|a b c r Ha Hb Hc IH] using ws_cases.
  - now rewrite trimStart_keep.
  - rewrite trimStart_1 by easy. simpl. lia.
  - rewrite trimStart_2 by easy. simpl. lia.
  - rewrite trimStart_3 by easy. simpl. lia.
Qed.

(** A string that [trimStart] leaves alone does not begin with white
    space. *)
Lemma trimStart_fixed (s : string) :
  Text.trimStart s = s -> ws_start s = false.
Proof.
  intros H. destruct (ws_start s) eqn:E; [exfalso | reflexivity].
  pose proof (trimStart_length s) as L.
  destruct s as [|a [|b [|c r]]]; cbn [ws_start] in E; [discriminate|..].
  - rewrite orb_false_r in E. rewrite trimStart_1 in H by easy. discriminate.
  - rewrite orb_false_r in E. destruct (Text.is_space a) eqn:Ea.
    + rewrite trimStart_1 in H by easy.
      pose proof (trimStart_length (String b EmptyString)) as L1.
      rewrite H in L1. simpl in L1. lia.
    + simpl in E. rewrite trimStart_2 in H by easy. discriminate.
  - destruct (Text.is_space a) eqn:Ea.
    + rewrite trimStart_1 in H by easy.
      pose proof (trimStart_length (String b (String c r))) as L1.
      rewrite H in L1. simpl in L1. lia.
    + destruct (Text.is_space2 a b) eqn:Eb.
      * rewrite trimStart_2 in H by easy.
        pose proof (trimStart_length (String c r)) as L1.
        rewrite H in L1. simpl in L1. lia.
      * simpl in E. rewrite trimStart_3 in H by easy.
        pose proof (trimStart_length r) as L1.
        rewrite H in L1. simpl in L1. lia.
Qed.

Lemma trimStart_idem (s : string) :
  Text.trimStart (Text.trimStart s) = Text.trimStart s.
Proof.
  induction s as [s H|a r H IH|a b r Ha Hb IH|a b c r Ha Hb Hc IH] using ws_cases.
  - now rewrite !(trimStart_keep s H).
  - now rewrite trimStart_1.
  - now rewrite trimStart_2.
  - now rewrite trimStart_3.
Qed.

(** White space only in front of a string goes with [trimStart]. *)
Lemma trimStart_app (p s : string) :
  Text.trimStart p = EmptyString ->
  Text.trimStart (p +:+ s) = Text.trimStart s.
Proof.
  induction p as [p H|a r H IH|a b r Ha Hb IH|a b c r Ha Hb Hc IH] using ws_cases.
  - rewrite trimStart_keep by easy. now intros ->.
  - rewrite trimStart_1 by easy. intros E.
    change (String a r +:+ s) with (String a (r +:+ s)).
    rewrite trimStart_1 by easy. now apply IH.
  - rewrite trimStart_2 by easy. intros E.
    change (String a (String b r) +:+ s) with (String a (String b (r +:+ s))).
    rewrite trimStart_2 by easy. now apply IH.
  - rewrite trimStart_3 by easy. intros E.
    change (String a (String b (String c r)) +:+ s)
      with (String a (String b (String c (r +:+ s)))).
    rewrite trimStart_3 by easy. now apply IH.
Qed.

(** What [trimStart] drops is white space only. *)
Lemma trimStart_split (s : string) :
  exists p, s = p +:+ Text.trimStart s /\ Text.trimStart p = EmptyString.
Proof.
  induction s as [s H|a r H (p & E & Hp)|a b r Ha Hb (p & E & Hp)
                 |a b c r Ha Hb Hc (p & E & Hp)] using ws_cases.
  - exists EmptyString. now rewrite trimStart_keep.
  - exists (String a p). rewrite !trimStart_1 by easy. split; [|exact Hp].
    change (String a p +:+ Text.trimStart r) with (String a (p +:+ Text.trimStart r)).
    now rewrite <- E.
  - exists (String a (String b p)). rewrite !trimStart_2 by easy.
    split; [|exact Hp].
    change (String a (String b p) +:+ Text.trimStart r)
      with (String a (String b (p +:+ Text.trimStart r))).
    now rewrite <- E.
  - exists (String a (String b (String c p))). rewrite !trimStart_3 by easy.
    split; [|exact Hp].
    change (String a (String b (String c p)) +:+ Text.trimStart r)
      with (String a (String b (String c (p +:+ Text.trimStart r)))).
    now rewrite <- E.
Qed.

(** White space begins with a byte that begins a character. *)
Lemma space_leading (w : string) :
  Text.trimStart w = EmptyString -> leading w.
Proof.
  intros H. destruct w as [|a r]; [exact I|].
  destruct (ws_start (String a r)) eqn:E.
  - cbn [ws_start] in E. unfold leading.
    destruct (Text.is_space a) eqn:Ea; [apply is_space_byte in Ea; lia|].
    destruct r as [|b r]; [discriminate|].
    destruct (Text.is_space2 a b) eqn:Eb; [apply is_space2_bytes in Eb; lia|].
    destruct r as [|c r]; [discriminate|].
    simpl in E. apply is_space3_bytes in E. lia.
  - rewrite trimStart_keep in H by easy. discriminate.
Qed.

Lemma plain_leading (c : ascii) (r : string) : plain c -> leading (String c r).
Proof. unfold plain, leading. lia. Qed.

(** A string that begins with white space still does when text follows. *)
Lemma ws_start_app (p w : string) :
  ws_start p = true -> ws_start (p +:+ w) = true.
Proof.
  destruct p as [|a [|b [|c r]]]; cbn [ws_start]; [discriminate|..].
  - rewrite orb_false_r. intros H.
    change (String a EmptyString +:+ w) with (String a w).
    cbn [ws_start]. now rewrite H.
  - rewrite orb_false_r. intros H.
    change (String a (String b EmptyString) +:+ w) with (String a (String b w)).
    cbn [ws_start]. apply orb_true_iff in H as [H|H]; rewrite H; [reflexivity|].
    now rewrite orb_true_r.
  - intros H.
    change (String a (String b (String c r)) +:+ w)
      with (String a (String b (String c (r +:+ w)))).
    exact H.
Qed.

(** A string that does not begin with white space still does not when a
    character follows it. *)
Lemma ws_start_keep (s w : string) :
  s <> EmptyString -> ws_start s = false -> leading w ->
  ws_start (s +:+ w) = false.
Proof.
  intros Hs H Hw. destruct s as [|a [|b [|c r]]]; [congruence|..];
    cbn [ws_start] in H.
  - rewrite orb_false_r in H.
    change (String a EmptyString +:+ w) with (String a w).
    destruct w as [|x [|y w]]; cbn [ws_start]; rewrite H; simpl;
      [reflexivity| |].
    + rewrite orb_false_r. no_space.
    + apply orb_false_iff. split; no_space.
  - rewrite orb_false_r in H. apply orb_false_elim in H as [Ha Hb].
    change (String a (String b EmptyString) +:+ w) with (String a (String b w)).
    destruct w as [|x w]; cbn [ws_start]; rewrite Ha, Hb; simpl;
      [reflexivity|]. no_space.
  - change (String a (String b (String c r)) +:+ w)
      with (String a (String b (String c (r +:+ w)))).
    exact H.
Qed.

End WhiteSpace.

Section Trimming.

Lemma plain_eq : plain "=".
Proof. unfold plain. change (nat_of_ascii "=") with 61%nat. lia. Qed.

Lemma plain_colon : plain ":".
Proof. unfold plain. change (nat_of_ascii ":") with 58%nat. lia. Qed.

Lemma plain_backslash : plain "092".
Proof. unfold plain. change (nat_of_ascii "092") with 92%nat. lia. Qed.

Lemma trimStart_plain (c : ascii) (r : string) :
  plain c -> Text.trimStart (String c r) = String c r.
Proof. intros H. apply trimStart_keep, ws_start_plain, H. Qed.

Lemma trimEnd_cons (c : ascii) (r : string) :
  Text.trimEnd (String c r)
  = if String.eqb (Text.trimStart (String c r)) EmptyString then EmptyString
    else String c (Text.trimEnd r).
Proof. reflexivity. Qed.

Lemma trimEnd_solid (c : ascii) (r : string) :
  Text.trimStart (String c r) <> EmptyString ->
  Text.trimEnd (String c r) = String c (Text.trimEnd r).
Proof.
  intros H. rewrite trimEnd_cons.
  now destruct (String.eqb_spec (Text.trimStart (String c r)) EmptyString).
Qed.

Lemma trimEnd_plain (c : ascii) (r : string) :
  plain c -> Text.trimEnd (String c r) = String c (Text.trimEnd r).
Proof. intros H. apply trimEnd_solid. now rewrite trimStart_plain. Qed.

Lemma trimEnd_blank (w : string) :
  Text.trimStart w = EmptyString -> Text.trimEnd w = EmptyString.
Proof. destruct w as [|c r]; [reflexivity|]. intros H. now rewrite trimEnd_cons, H. Qed.

(** What [trimEnd] drops is white space only. *)
Lemma trimEnd_split (s : string) :
  exists w, s = Text.trimEnd s +:+ w /\ Text.trimStart w = EmptyString.
Proof.
  induction s as [|c r (w & E & Hw)]; [now exists EmptyString|].
  rewrite trimEnd_cons.
  destruct (String.eqb_spec (Text.trimStart (String c r)) EmptyString) as [B|B].
  - now exists (String c r).
  - exists w. split; [|exact Hw].
    change (String c (Text.trimEnd r) +:+ w) with (String c (Text.trimEnd r +:+ w)).
    now rewrite <- E.
Qed.

Lemma append_empty_r (s : string) : s +:+ EmptyString = s.
Proof.
  induction s as [|c r IH]; [reflexivity|].
  change (String c (r +:+ EmptyString) = String c r). now rewrite IH.
Qed.

(** Text followed by white space is white space only when the text is. *)
Lemma blank_app (x w : string) :
  Text.trimStart w = EmptyString ->
  Text.trimStart (x +:+ w) = EmptyString <-> Text.trimStart x = EmptyString.
Proof.
  intros Hw. split; [|intros Hx; now rewrite trimStart_app].
  induction x as [x H|a r H IH|a b r Ha Hb IH|a b c r Ha Hb Hc IH] using ws_cases.
  - destruct x as [|a r]; [reflexivity|].
    rewrite (trimStart_keep (String a r +:+ w)); [discriminate|].
    apply ws_start_keep; [discriminate | exact H | now apply space_leading].
  - change (String a r +:+ w) with (String a (r +:+ w)).
    now rewrite !trimStart_1.
  - change (String a (String b r) +:+ w) with (String a (String b (r +:+ w))).
    now rewrite !trimStart_2.
  - change (String a (String b (String c r)) +:+ w)
      with (String a (String b (String c (r +:+ w)))).
    now rewrite !trimStart_3.
Qed.

Lemma trimEnd_app (x w : string) :
  Text.trimStart w = EmptyString -> Text.trimEnd (x +:+ w) = Text.trimEnd x.
Proof.
  intros Hw. induction x as [|c r IH]; [now apply trimEnd_blank|].
  change (String c r +:+ w) with (String c (r +:+ w)).
  rewrite !trimEnd_cons, IH.
  pose proof (blank_app (String c r) w Hw) as B.
  change (String c r +:+ w) with (String c (r +:+ w)) in B.
  destruct (String.eqb_spec (Text.trimStart (String c (r +:+ w))) EmptyString) as [E|E];
    destruct (String.eqb_spec (Text.trimStart (String c r)) EmptyString) as [F|F];
    try reflexivity; exfalso; tauto.
Qed.

Lemma trimEnd_idem (s : string) : Text.trimEnd (Text.trimEnd s) = Text.trimEnd s.
Proof.
  destruct (trimEnd_split s) as (w & E & Hw).
  rewrite E at 2. now rewrite trimEnd_app.
Qed.

Lemma length_append (a b : string) :
  String.length (a +:+ b) = (String.length a + String.length b)%nat.
Proof.
  induction a as [|c r IH]; [reflexivity|].
  change (S (String.length (r +:+ b)) = S (String.length r + String.length b)).
  now rewrite IH.
Qed.

Lemma trimEnd_length (s : string) :
  (String.length (Text.trimEnd s) <= String.length s)%nat.
Proof.
  destruct (trimEnd_split s) as (w & E & _).
  rewrite E at 2. rewrite length_append. lia.
Qed.

(** [trimEnd] does not uncover white space at the front. *)
Lemma trimEnd_start (s : string) :
  ws_start s = false -> ws_start (Text.trimEnd s) = false.
Proof.
  intros H. destruct (trimEnd_split s) as (w & E & _).
  destruct (ws_start (Text.trimEnd s)) eqn:F; [|reflexivity].
  apply (ws_start_app _ w) in F. rewrite <- E in F. congruence.
Qed.

Lemma trim_id (s : string) :
  Text.trimStart s = s -> Text.trimEnd s = s -> Text.trim s = s.
Proof. intros H1 H2. unfold Text.trim. now rewrite H1. Qed.

Lemma trim_ok (s : string) :
  Text.trimStart (Text.trim s) = Text.trim s
  /\ Text.trimEnd (Text.trim s) = Text.trim s.
Proof.
  unfold Text.trim. split; [|apply trimEnd_idem].
  apply trimStart_keep, trimEnd_start, trimStart_fixed, trimStart_idem.
Qed.

Lemma trim_trim (s : string) : Text.trim (Text.trim s) = Text.trim s.
Proof. destruct (trim_ok s). now apply trim_id. Qed.

Lemma trim_fix (s : string) :
  Text.trim s = s -> Text.trimStart s = s /\ Text.trimEnd s = s.
Proof. intros H. rewrite <- H. apply trim_ok. Qed.

(** A trimmed text does not end with a carriage return. *)
Lemma trimEnd_cr (s : string) : Text.trimEnd s = s -> ends_cr s = false.
Proof.
  induction s as [|c r IH]; [reflexivity|]. rewrite trimEnd_cons.
  destruct (String.eqb_spec (Text.trimStart (String c r)) EmptyString) as [B|B];
    [discriminate|].
  intros [= E]. destruct r as [|c2 r2]; [|exact (IH E)].
  cbn [ends_cr]. destruct (Ascii.eqb_spec c "013") as [->|]; [|reflexivity].
  now destruct B.
Qed.

Lemma has_app (c : ascii) (a b : string) : has c (a +:+ b) = (has c a || has c b)%bool.
Proof.
  induction a as [|x a IH]; [reflexivity|].
  change (has c (String x (a +:+ b)) = (has c (String x a) || has c b)%bool).
  simpl. now rewrite IH, orb_assoc.
Qed.

Lemma has_trimStart (c : ascii) (s : string) :
  has c s = false -> has c (Text.trimStart s) = false.
Proof.
  destruct (trimStart_split s) as (p & E & _). rewrite E at 1.
  rewrite has_app. now intros [_ H]%orb_false_elim.
Qed.

Lemma has_trimEnd (c : ascii) (s : string) :
  has c s = false -> has c (Text.trimEnd s) = false.
Proof.
  destruct (trimEnd_split s) as (w & E & _). rewrite E at 1.
  rewrite has_app. now intros [H _]%orb_false_elim.
Qed.

Lemma has_trim (c : ascii) (s : string) : has c s = false -> has c (Text.trim s) = false.
Proof. intros H. unfold Text.trim. now apply has_trimEnd, has_trimStart. Qed.

(** White space holds no printable ASCII byte. *)
Lemma blank_has (c : ascii) (w : string) :
  plain c -> Text.trimStart w = EmptyString -> has c w = false.
Proof.
  intros Hc.
  induction w as [w H|a r H IH|a b r Ha Hb IH|a b x r Ha Hb Hx IH] using ws_cases.
  - rewrite trimStart_keep by easy. now intros ->.
  - rewrite trimStart_1 by easy. intros E. cbn [has]. rewrite (IH E), orb_false_r.
    destruct (Ascii.eqb_spec a c) as [->|]; [|reflexivity].
    now rewrite plain_is_space in H.
  - rewrite trimStart_2 by easy. intros E. cbn [has]. rewrite (IH E), !orb_false_r.
    apply is_space2_bytes in Hb. unfold plain in Hc.
    destruct (Ascii.eqb_spec a c) as [->|]; [lia|].
    destruct (Ascii.eqb_spec b c) as [->|]; [lia|]. reflexivity.
  - rewrite trimStart_3 by easy. intros E. cbn [has]. rewrite (IH E), !orb_false_r.
    apply is_space3_bytes in Hx. unfold plain in Hc.
    destruct (Ascii.eqb_spec a c) as [->|]; [lia|].
    destruct (Ascii.eqb_spec b c) as [->|]; [lia|].
    destruct (Ascii.eqb_spec x c) as [->|]; [lia|]. reflexivity.
Qed.

(** A printable byte in a text stops the trimming from either side. *)
Lemma trimStart_sep (a b : string) (c : ascii) :
  plain c -> Text.trimStart a = a ->
  Text.trimStart (a +:+ String c b) = a +:+ String c b.
Proof.
  intros Hc Ha. destruct a as [|x r]; [now apply trimStart_plain|].
  apply trimStart_keep, ws_start_keep;
    [discriminate | now apply trimStart_fixed | now apply plain_leading].
Qed.

Lemma trimEnd_sep (a b : string) (c : ascii) :
  plain c ->
  Text.trimEnd (a +:+ String c b) = a +:+ String c (Text.trimEnd b).
Proof.
  intros Hc. induction a as [|x r IH]; [now apply trimEnd_plain|].
  change (String x r +:+ String c b) with (String x (r +:+ String c b)).
  rewrite trimEnd_solid, IH; [reflexivity|].
  intros E. apply (blank_has c) in E; [|exact Hc].
  change (has c (String x r +:+ String c b) = false) in E.
  rewrite has_app in E. apply orb_false_elim in E as [_ E].
  cbn [has] in E. now rewrite Ascii.eqb_refl in E.
Qed.

(** [trim] and [parseInt] on white space beyond ASCII: a no-break space
    after a name and a line separator before it go, a name of one
    ideographic space is empty, and a byte order mark before a pid is
    skipped. *)
Lemma trim_beyond_ascii :
  Text.trim ("Alpha" +:+ String "194" (String "160" EmptyString)) = "Alpha"
  /\ Text.trim (String "226" (String "128" (String "168" "Alpha"))) = "Alpha"
  /\ Text.trim (String "227" (String "128" (String "128" EmptyString))) = EmptyString
  /\ Text.parseInt (String "239" (String "187" (String "191" "4242"))) = Some 4242.
Proof. repeat split. Qed.

End Trimming.

(** ** Decimal text *)

Section DecimalText.

Lemma read_digits_uint (d : uint) (acc : Z) :
  Text.read_digits 10 acc (NilEmpty.string_of_uint d) = (uint_val acc d, EmptyString).
Proof.
  revert acc; induction d; intros acc; simpl; try reflexivity; apply IHd.
Qed.

Lemma uint_val_acc (d : uint) (p : positive) :
  uint_val (Z.pos p) d = Z.pos (Pos.of_uint_acc d p).
Proof.
  revert p; induction d; intros p; simpl; try reflexivity;
    match goal with
    | |- uint_val ?a _ = Z.pos (Pos.of_uint_acc _ ?q) =>
        replace a with (Z.pos q) by lia; apply IHd
    end.
Qed.

Lemma uint_val_0 (d : uint) : uint_val 0 d = Z.of_N (Pos.of_uint d).
Proof.
  induction d; simpl; try reflexivity; try exact IHd;
    match goal with
    | |- uint_val ?a _ = _ => change a with (Z.pos (Z.to_pos a)); apply uint_val_acc
    end.
Qed.

(** A numeral that is not empty starts with a digit. *)
Lemma uint_text_head (d : uint) :
  d <> Nil ->
  exists c r, NilEmpty.string_of_uint d = String c r
              /\ Text.is_digit c = true /\ Text.is_space c = false
              /\ c <> "-"%char /\ c <> "+"%char.
Proof.
  destruct d; intros H; [congruence | ..]; simpl;
    eexists _, _; (split; [reflexivity|]); repeat split; discriminate.
Qed.

Lemma of_Z_pos (p : positive) :
  Text.of_Z (Z.pos p) = NilEmpty.string_of_uint (Pos.to_uint p).
Proof.
  unfold Text.of_Z; simpl. unfold NilZero.string_of_uint.
  pose proof (DecimalPos.Unsigned.to_uint_nonnil p) as H.
  destruct (Pos.to_uint p); [congruence | reflexivity ..].
Qed.

Lemma of_Z_neg (p : positive) :
  Text.of_Z (Z.neg p) = String "-" (NilEmpty.string_of_uint (Pos.to_uint p)).
Proof.
  unfold Text.of_Z; simpl. unfold NilZero.string_of_uint.
  pose proof (DecimalPos.Unsigned.to_uint_nonnil p) as H.
  destruct (Pos.to_uint p); [congruence | reflexivity ..].
Qed.

Lemma read_digits_pos (p : positive) :
  Text.read_digits 10 0 (NilEmpty.string_of_uint (Pos.to_uint p))
  = (Z.pos p, EmptyString).
Proof.
  rewrite read_digits_uint, uint_val_0, DecimalPos.Unsigned.of_to. reflexivity.
Qed.

Lemma digit_plain (c : ascii) : Text.is_digit c = true -> plain c.
Proof.
  unfold Text.is_digit, Text.digit, plain.
  destruct (Nat.leb 48 (nat_of_ascii c) && Nat.leb (nat_of_ascii c) 57)%bool eqn:E;
    [|discriminate].
  apply andb_prop in E as [E1%Nat.leb_le E2%Nat.leb_le]. lia.
Qed.

Lemma plain_minus : plain "-".
Proof. unfold plain. change (nat_of_ascii "-") with 45%nat. lia. Qed.

(** Reading back the decimal text of an integer gives the integer. *)
Lemma parseInt_of_Z (z : Z) : Text.parseInt (Text.of_Z z) = Some z.
Proof.
  destruct z as [|p|p].
  - reflexivity.
  - rewrite of_Z_pos.
    destruct (uint_text_head (Pos.to_uint p) (DecimalPos.Unsigned.to_uint_nonnil p))
      as (c & r & E & Hd & Hs & Hm & Hp).
    unfold Text.parseInt. pose proof (read_digits_pos p) as R.
    rewrite E in *. rewrite (trimStart_plain c r (digit_plain c Hd)).
    assert (match String c r with
            | String "-" r0 => (true, r0) | String "+" r0 => (false, r0)
            | _ => (false, String c r) end = (false, String c r)) as ->.
    { destruct c as [[] [] [] [] [] [] [] []]; try reflexivity; congruence. }
    rewrite Hd, R. reflexivity.
  - rewrite of_Z_neg.
    destruct (uint_text_head (Pos.to_uint p) (DecimalPos.Unsigned.to_uint_nonnil p))
      as (c & r & E & Hd & Hs & Hm & Hp).
    pose proof (read_digits_pos p) as R. rewrite E in *.
    unfold Text.parseInt. rewrite (trimStart_plain "-" _ plain_minus).
    cbv beta iota zeta. rewrite Hd, R. reflexivity.
Qed.

End DecimalText.

(** ** World names and white space *)

Section WorldNames.

Lemma name_char_not_space (c : ascii) :
  World.name_char c = true -> Text.is_space c = false.
Proof. destruct c as [[] [] [] [] [] [] [] []]; vm_compute; congruence. Qed.

Lemma name_char_plain (c : ascii) : World.name_char c = true -> plain c.
Proof.
  unfold plain.
  destruct c as [[] [] [] [] [] [] [] []]; vm_compute; first [congruence | lia].
Qed.

Lemma trimEnd_name (s : string) :
  World.all_name_chars s = true -> Text.trimEnd s = s.
Proof.
  induction s as [|c r IH]; [reflexivity|].
  change (World.all_name_chars (String c r))
    with (World.name_char c && World.all_name_chars r)%bool.
  intros [Hc Hr]%andb_prop.
  now rewrite (trimEnd_plain c r (name_char_plain c Hc)), (IH Hr).
Qed.

Lemma trimStart_name (s : string) :
  World.all_name_chars s = true -> Text.trimStart s = s.
Proof.
  destruct s as [|c r]; [reflexivity|].
  change (World.all_name_chars (String c r))
    with (World.name_char c && World.all_name_chars r)%bool.
  intros [Hc _]%andb_prop. apply trimStart_plain, name_char_plain, Hc.
Qed.

Lemma validateWorldName_chars (w : string) :
  World.validateWorldName w = true -> World.all_name_chars w = true.
Proof. destruct w; [discriminate | exact (fun H => H)]. Qed.

(** A valid name has no white space around it, and is not empty. *)
Lemma trim_valid (w : string) :
  World.validateWorldName w = true -> Text.trim w = w.
Proof.
  intros H%validateWorldName_chars. unfold Text.trim.
  rewrite (trimStart_name w H). apply trimEnd_name, H.
Qed.

Lemma valid_not_empty (w : string) :
  World.validateWorldName w = true -> String.eqb w EmptyString = false.
Proof. destruct w; [discriminate | reflexivity]. Qed.

Lemma name_char_not_slash (c : ascii) :
  World.name_char c = true -> Ascii.eqb c "/" = false.
Proof. destruct c as [[] [] [] [] [] [] [] []]; vm_compute; congruence. Qed.

Lemma split_name (s : string) :
  World.all_name_chars s = true -> Text.split "/" s = [s].
Proof.
  induction s as [|c r IH]; simpl; [reflexivity|].
  intros [Hc Hr]%andb_prop. rewrite (name_char_not_slash c Hc), (IH Hr).
  reflexivity.
Qed.

(** A valid name other than [.] and [..] names an entry of the directory
    it is joined to; [..], which the pattern lets through, names the
    directory above. *)
Lemma join_valid (base : path) (w : string) :
  World.validateWorldName w = true -> w <> "." -> w <> ".." ->
  Path.join base w = (base ++ [w])%list.
Proof.
  intros Hv H1 H2. unfold Path.join.
  rewrite (split_name w (validateWorldName_chars w Hv)). simpl. unfold Path.step.
  rewrite (valid_not_empty w Hv).
  destruct (String.eqb_spec w "."); [contradiction|].
  destruct (String.eqb_spec w ".."); [contradiction|]. reflexivity.
Qed.

Lemma dot_dot_is_valid :
  World.validateWorldName ".." = true
  /\ Path.join ["srv"; "mc"; "worlds"] ".." = ["srv"; "mc"].
Proof. split; reflexivity. Qed.

End WorldNames.

(** ** Stop *)

(** Projections of the updated states. *)
Lemma files_emit e o : files (emit e o) = files o. Proof. reflexivity. Qed.
Lemma alive_emit e o : alive (emit e o) = alive o. Proof. reflexivity. Qed.
Lemma dirs_emit e o : dirs (emit e o) = dirs o. Proof. reflexivity. Qed.
Lemma cwd_emit e o : cwd (emit e o) = cwd o. Proof. reflexivity. Qed.
Lemma trace_emit e o : trace (emit e o) = (trace o ++ [e])%list. Proof. reflexivity. Qed.

Section Stop.

Variable env : StopRoute.Env.
Variables (w : string) (o : os).
Let name := Text.trim w.
Let pfile := pidFile o name.

(** Stopping a world whose recorded pid is alive, when the process is
    still there for the signal: probe, SIGTERM, unlink, [stopped: true]. *)
Lemma stop_live (txt : string) (pid : Z) :
  String.eqb name EmptyString = false ->
  files o !! pfile = Some txt ->
  Text.parseInt txt = Some pid -> 0 < pid -> pid ∈ alive o ->
  StopRoute.vanishes env = false ->
  run (StopRoute.POST env (Some w)) o
  = (JsonStopped pid,
     emit (Unlink pfile)
       (with_files (delete pfile (files o))
          (emit (Kill pid SIGTERM) (emit (Kill pid Sig0) o)))).
Proof.
  intros Hn Hf Hp Hpos Ha Hv. unfold run, StopRoute.POST.
  change (default EmptyString (Some w)) with w. fold name. rewrite Hn.
  unfold bind at 1. unfold get. fold pfile.
  unfold bind at 1. unfold try_catch at 1. unfold bind at 1, readFile.
  rewrite Hf. unfold ret at 1. rewrite Hp.
  unfold bind at 1, isAlive.
  destruct (Z.leb_spec pid 0); [lia|].
  unfold try_catch at 1, bind at 1, process_kill at 1.
  destruct (decide (pid ∈ alive o)); [|contradiction].
  unfold ret at 1. cbn [negb]. rewrite Hv.
  unfold bind at 1, ret at 1. cbn [default from_option id].
  unfold bind at 1, try_catch at 1, bind at 1, process_kill at 1.
  rewrite alive_emit.
  destruct (decide (pid ∈ alive o)); [|contradiction].
  unfold ret at 1. cbn [negb].
  unfold bind at 1, try_catch at 1, unlink at 1.
  rewrite !files_emit, Hf. reflexivity.
Qed.

(** Stopping a world whose record is stale removes the record. *)
Lemma stop_stale (txt : string) :
  String.eqb name EmptyString = false ->
  files o !! pfile = Some txt ->
  stale o txt ->
  exists o',
    run (StopRoute.POST env (Some w)) o
    = (JsonAlreadyStopped "No running server found (stale PID cleaned).", o')
    /\ files o' = delete pfile (files o)
    /\ alive o' = alive o.
Proof.
  intros Hn Hf Hs. unfold run, StopRoute.POST.
  change (default EmptyString (Some w)) with w. fold name. rewrite Hn.
  unfold bind at 1. unfold get. fold pfile.
  unfold bind at 1. unfold try_catch at 1. unfold bind at 1, readFile.
  rewrite Hf. unfold ret at 1. unfold stale in Hs.
  unfold bind at 1, isAlive.
  destruct (Text.parseInt txt) as [pid|].
  - destruct (Z.leb_spec pid 0).
    + unfold ret at 1. cbn [negb]. unfold bind at 1, try_catch at 1, unlink.
      rewrite Hf. eexists; split; [reflexivity|]. split; reflexivity.
    + unfold try_catch at 1, bind at 1, process_kill at 1.
      destruct (decide (pid ∈ alive o)); [destruct Hs; [lia|contradiction]|].
      unfold ret at 1. cbn [negb]. unfold bind at 1, try_catch at 1, unlink.
      rewrite files_emit, Hf. eexists; split; [reflexivity|]. split; reflexivity.
  - unfold ret at 1. cbn [negb]. unfold bind at 1, try_catch at 1, unlink.
    rewrite Hf. eexists; split; [reflexivity|]. split; reflexivity.
Qed.

End Stop.

Section Status.

Variables (w : string) (o : os).
Let name := Text.trim w.
Let pfile := pidFile o name.

(** The status of a world whose record is stale: not running, and the
    record is left where it is. *)
Lemma status_stale (txt : string) :
  String.eqb name EmptyString = false ->
  files o !! pfile = Some txt ->
  stale o txt ->
  exists o',
    run (StatusRoute.GET (Some w)) o = (JsonStatus false None, o')
    /\ files o' = files o /\ alive o' = alive o.
Proof.
  intros Hn Hf Hs. unfold run, StatusRoute.GET.
  change (default EmptyString (Some w)) with w. fold name. rewrite Hn.
  unfold bind at 1. unfold get. fold pfile.
  unfold try_catch at 1. unfold bind at 1, readFile.
  rewrite Hf. unfold stale in Hs. unfold bind at 1, isAlive.
  destruct (Text.parseInt txt) as [pid|].
  - destruct (Z.leb_spec pid 0).
    + unfold ret. eexists; split; [reflexivity|]. split; reflexivity.
    + unfold try_catch at 1, bind at 1, process_kill at 1.
      destruct (decide (pid ∈ alive o)); [destruct Hs; [lia|contradiction]|].
      unfold ret. eexists; split; [reflexivity|]. split; reflexivity.
  - unfold ret. eexists; split; [reflexivity|]. split; reflexivity.
Qed.

(** The status of a world whose recorded pid is alive. *)
Lemma status_live (txt : string) (pid : Z) :
  String.eqb name EmptyString = false ->
  files o !! pfile = Some txt ->
  Text.parseInt txt = Some pid -> 0 < pid -> pid ∈ alive o ->
  run (StatusRoute.GET (Some w)) o
  = (JsonStatus true (Some pid), emit (Kill pid Sig0) o).
Proof.
  intros Hn Hf Hp Hpos Ha. unfold run, StatusRoute.GET.
  change (default EmptyString (Some w)) with w. fold name. rewrite Hn.
  unfold bind at 1. unfold get. fold pfile.
  unfold try_catch at 1. unfold bind at 1, readFile.
  rewrite Hf, Hp. unfold bind at 1, isAlive.
  destruct (Z.leb_spec pid 0); [lia|].
  unfold try_catch at 1, bind at 1, process_kill at 1.
  destruct (decide (pid ∈ alive o)); [|contradiction]. reflexivity.
Qed.

End Status.

Section Start.

Variable env : StartRoute.Env.
Variables (body : StartRoute.Body) (o : os).
Let name := Text.trim (default EmptyString (StartRoute.worldName body)).
Let pfile := pidFile o name.
Let requested := default (Int 25565) (StartRoute.port body).

(** Starting a world whose recorded pid is not zero and can be signalled
    is refused with 409 after the probe. *)
Lemma start_conflict (txt : string) (pid : Z) :
  String.eqb name EmptyString = false ->
  StartRoute.bad_port requested = false ->
  files o !! pfile = Some txt ->
  Text.parseInt txt = Some pid -> pid <> 0 -> pid ∈ alive o ->
  run (StartRoute.POST env body) o
  = (Text 409 "Server already running for this world.",
     emit (Kill pid Sig0) (after_ensure_pid_dir o)).
Proof.
  intros Hn Hb Hf Hp Hz Ha. unfold run, StartRoute.POST.
  fold name. rewrite Hn. fold requested. rewrite Hb.
  unfold bind at 1. unfold get. fold pfile.
  unfold bind at 1, ensureDir at 1, modify at 1.
  unfold bind at 1, try_catch at 1, bind at 1, readFile at 1.
  rewrite files_emit. cbn [files with_dirs]. rewrite Hf, Hp.
  destruct (Z.eqb_spec pid 0); [contradiction|].
  unfold StartRoute.isAlive, try_catch at 1, bind at 1, process_kill at 1.
  rewrite alive_emit. cbn [alive with_dirs].
  destruct (decide (pid ∈ alive o)); [|contradiction]. reflexivity.
Qed.

End Start.

(** ** What a successful start leaves behind *)

Lemma spawn_count_app (t u : list event) :
  spawn_count (t ++ u) = (spawn_count t + spawn_count u)%nat.
Proof.
  induction t as [|e t IH]; [reflexivity|].
  destruct e as [| | | |c a [p|]| |]; simpl; rewrite IH; reflexivity.
Qed.

Lemma quiet_emit (e : event) (o : os) :
  match e with Spawn _ _ (Some _) => False | _ => True end ->
  spawn_count (trace (emit e o)) = spawn_count (trace o).
Proof.
  intros H. rewrite trace_emit, spawn_count_app.
  destruct e as [| | | |c a [p|]| |]; simpl; first [lia | contradiction].
Qed.

Ltac quiet_step :=
  split; [reflexivity | split; [reflexivity | split; [now rewrite ?quiet_emit | auto]]].

Section Quiet.

Lemma quiet_ret {A} (a : A) : quiet (ret a).
Proof. intros o r o' [= <- <-]. quiet_step. Qed.

Lemma quiet_throw {A} (e : string) : quiet (@throw A e).
Proof. intros o r o' [= <- <-]. quiet_step. Qed.

Lemma quiet_get : quiet get.
Proof. intros o r o' [= <- <-]. quiet_step. Qed.

Lemma quiet_bind {A B} (m : M A) (k : A -> M B) :
  quiet m -> (forall a, quiet (k a)) -> quiet (bind m k).
Proof.
  intros Hm Hk o r o'. unfold bind.
  destruct (m o) as [[a|e] o1] eqn:E; intros H.
  - destruct (Hm _ _ _ E) as (E1 & E2 & E3 & E4).
    destruct (Hk a _ _ _ H) as (F1 & F2 & F3 & F4).
    repeat split; [congruence .. | auto].
  - injection H as <- <-. exact (Hm _ _ _ E).
Qed.

Lemma quiet_try {A} (m : M A) (h : string -> M A) :
  quiet m -> (forall e, quiet (h e)) -> quiet (try_catch m h).
Proof.
  intros Hm Hh o r o'. unfold try_catch.
  destruct (m o) as [[a|e] o1] eqn:E; intros H.
  - injection H as <- <-. exact (Hm _ _ _ E).
  - destruct (Hm _ _ _ E) as (E1 & E2 & E3 & E4).
    destruct (Hh e _ _ _ H) as (F1 & F2 & F3 & F4).
    repeat split; [congruence .. | auto].
Qed.

Lemma quiet_ensureDir (p : path) : quiet (ensureDir p).
Proof.
  intros o r o' [= <- <-]. quiet_step.
Qed.

Lemma quiet_readFile (p : path) : quiet (readFile p).
Proof.
  intros o r o'. unfold readFile.
  destruct (files o !! p); intros [= <- <-]; quiet_step.
Qed.

Lemma quiet_writeFile (p : path) (data : string) : quiet (writeFile p data).
Proof.
  intros o r o'. unfold writeFile.
  destruct (decide _); intros [= <- <-]; [|quiet_step].
  split; [reflexivity | split; [reflexivity | split; [now rewrite quiet_emit|]]].
  intros q Hq. rewrite files_emit. cbn [files with_files].
  apply lookup_insert_is_Some'. auto.
Qed.

Lemma quiet_kill (pid : Z) (sig : signal) : quiet (process_kill pid sig).
Proof.
  intros o r o'. unfold process_kill.
  destruct (decide _); intros [= <- <-]; quiet_step.
Qed.

Lemma quiet_checkPort eph port : quiet (Port.checkPortAvailable eph port).
Proof.
  intros o r o'. unfold Port.checkPortAvailable.
  destruct (net_listen eph port o); intros [= <- <-]; quiet_step.
Qed.

Lemma quiet_ephemeral eph : quiet (Port.getEphemeralPort eph).
Proof.
  intros o r o'. unfold Port.getEphemeralPort.
  destruct (net_listen eph 0 o); intros [= <- <-]; quiet_step.
Qed.

Lemma quiet_findAvailablePort eph port : quiet (Port.findAvailablePort eph port).
Proof.
  apply quiet_bind; [apply quiet_checkPort|]. intros [|]; [apply quiet_ret|].
  apply quiet_bind; [apply quiet_ephemeral|]. intros; apply quiet_ret.
Qed.

Lemma quiet_start_isAlive pid : quiet (StartRoute.isAlive pid).
Proof.
  apply quiet_try; [|intros; apply quiet_ret].
  apply quiet_bind; [apply quiet_kill | intros; apply quiet_ret].
Qed.

Lemma quiet_download env dir : quiet (StartRoute.downloadLatestServerJar env dir).
Proof.
  unfold StartRoute.downloadLatestServerJar.
  destruct (StartRoute.download env) as [[id buf]|]; [|apply quiet_throw].
  apply quiet_bind; [apply quiet_ensureDir|]. intros _.
  apply quiet_bind; [apply quiet_writeFile|]. intros _. apply quiet_ret.
Qed.

End Quiet.

(** ** What a start leaves of a record *)

Section Keeps.

Variable p : path.

Lemma keeps_ret {A} (a : A) : keeps p (ret a).
Proof. now intros o r o' [= <- <-]. Qed.

Lemma keeps_throw {A} (e : string) : keeps p (@throw A e).
Proof. now intros o r o' [= <- <-]. Qed.

Lemma keeps_bind {A B} (m : M A) (k : A -> M B) :
  keeps p m -> (forall a, keeps p (k a)) -> keeps p (bind m k).
Proof.
  intros Hm Hk o r o'. unfold bind.
  destruct (m o) as [[a|e] o1] eqn:E; intros H.
  - rewrite (Hk a _ _ _ H). exact (Hm _ _ _ E).
  - injection H as <- <-. exact (Hm _ _ _ E).
Qed.

Lemma keeps_try {A} (m : M A) (h : string -> M A) :
  keeps p m -> (forall e, keeps p (h e)) -> keeps p (try_catch m h).
Proof.
  intros Hm Hh o r o'. unfold try_catch.
  destruct (m o) as [[a|e] o1] eqn:E; intros H.
  - injection H as <- <-. exact (Hm _ _ _ E).
  - rewrite (Hh e _ _ _ H). exact (Hm _ _ _ E).
Qed.

Lemma keeps_ensureDir (q : path) : keeps p (ensureDir q).
Proof. now intros o r o' [= <- <-]. Qed.

Lemma keeps_readFile (q : path) : keeps p (readFile q).
Proof.
  intros o r o'. unfold readFile. now destruct (files o !! q); intros [= <- <-].
Qed.

Lemma keeps_writeFile (q : path) (data : string) :
  q <> p -> keeps p (writeFile q data).
Proof.
  intros Hq o r o'. unfold writeFile.
  destruct (decide _); intros [= <- <-]; [|reflexivity].
  rewrite files_emit. cbn [files with_files]. now apply lookup_insert_ne.
Qed.

Lemma keeps_kill (pid : Z) (sig : signal) : keeps p (process_kill pid sig).
Proof.
  intros o r o'. unfold process_kill. now destruct (decide _); intros [= <- <-].
Qed.

Lemma keeps_findAvailablePort eph port : keeps p (Port.findAvailablePort eph port).
Proof.
  assert (C : forall q, keeps p (Port.checkPortAvailable eph q)).
  { intros q o r o'. unfold Port.checkPortAvailable.
    now destruct (net_listen eph q o); intros [= <- <-]. }
  apply keeps_bind; [apply C|]. intros [|]; [apply keeps_ret|].
  apply keeps_bind; [|intros; apply keeps_ret].
  intros o r o'. unfold Port.getEphemeralPort.
  now destruct (net_listen eph 0 o); intros [= <- <-].
Qed.

Lemma keeps_check (q : path) :
  keeps p (try_catch
    (let* txt := readFile q
     in match Text.parseInt txt with
        | Some existing =>
            if (existing =? 0)%Z
            then ret false
            else StartRoute.isAlive existing
        | None => ret false
        end)
    (λ _ : string, ret false)).
Proof.
  apply keeps_try; [|intros; apply keeps_ret].
  apply keeps_bind; [apply keeps_readFile|]. intros txt.
  destruct (Text.parseInt txt) as [z|]; [|apply keeps_ret].
  destruct (z =? 0)%Z; [apply keeps_ret|].
  apply keeps_try; [|intros; apply keeps_ret].
  apply keeps_bind; [apply keeps_kill | intros; apply keeps_ret].
Qed.

Lemma keeps_port (eph : option Z) (port : Z) :
  keeps p (try_catch
    (let* res := Port.findAvailablePort eph port in ret (Some res))
    (λ _ : string, ret None)).
Proof.
  apply keeps_try; [|intros; apply keeps_ret].
  apply keeps_bind; [apply keeps_findAvailablePort | intros; apply keeps_ret].
Qed.

End Keeps.

(** The last segment of a joined path: a text of three bytes or more
    without a slash, put at the end of what is joined, ends the last
    segment of the result. *)
Lemma split_plain (t : string) :
  has "/" t = false -> Text.split "/" t = [t].
Proof.
  induction t as [|c r IH]; [reflexivity|]. cbn [has Text.split].
  intros [Hc Hr]%orb_false_elim. now rewrite Hc, (IH Hr).
Qed.

Lemma split_snoc (s : string) :
  exists init l,
    Text.split "/" s = (init ++ [l])%list
    /\ forall t, has "/" t = false ->
         Text.split "/" (s +:+ t) = (init ++ [l +:+ t])%list.
Proof.
  induction s as [|c r (init & l & E & H)].
  - exists [], EmptyString. split; [reflexivity|]. intros t Ht.
    now apply split_plain.
  - destruct (Ascii.eqb c "/") eqn:Ec.
    + exists (EmptyString :: init), l. split.
      * cbn [Text.split]. now rewrite Ec, E.
      * intros t Ht. change (String c r +:+ t) with (String c (r +:+ t)).
        cbn [Text.split]. now rewrite Ec, (H t Ht).
    + destruct init as [|h tl].
      * exists [], (String c l). split.
        -- cbn [Text.split]. now rewrite Ec, E.
        -- intros t Ht. change (String c r +:+ t) with (String c (r +:+ t)).
           cbn [Text.split]. now rewrite Ec, (H t Ht).
      * exists (String c h :: tl), l. split.
        -- cbn [Text.split]. now rewrite Ec, E.
        -- intros t Ht. change (String c r +:+ t) with (String c (r +:+ t)).
           cbn [Text.split]. now rewrite Ec, (H t Ht).
Qed.

Lemma join_suffix (base : path) (s t : string) :
  has "/" t = false -> (3 <= String.length t)%nat ->
  exists acc l, Path.join base (s +:+ t) = (acc ++ [l +:+ t])%list.
Proof.
  intros Ht Hl. destruct (split_snoc s) as (init & l & _ & H).
  unfold Path.join. rewrite (H t Ht), fold_left_app. cbn [fold_left].
  exists (fold_left Path.step init base), l. unfold Path.step.
  assert (L : (3 <= String.length (l +:+ t))%nat) by (rewrite length_append; lia).
  destruct (String.eqb_spec (l +:+ t) EmptyString) as [E|_];
    [rewrite E in L; simpl in L; lia|].
  destruct (String.eqb_spec (l +:+ t) ".") as [E|_];
    [rewrite E in L; simpl in L; lia|].
  destruct (String.eqb_spec (l +:+ t) "..") as [E|_];
    [rewrite E in L; simpl in L; lia|].
  reflexivity.
Qed.

Lemma jar_is_no_record (a b : string) : a +:+ ".jar" <> b +:+ ".pid".
Proof.
  revert b. induction a as [|c r IH]; intros [|c' r'] E.
  - discriminate E.
  - injection E as _ E. apply (f_equal String.length) in E.
    rewrite length_append in E. simpl in E. lia.
  - injection E as _ E. apply (f_equal String.length) in E.
    rewrite length_append in E. simpl in E. lia.
  - injection E as _ E. exact (IH _ E).
Qed.

(** The jar a download writes is never a pid record. *)
Lemma download_not_record (dir : path) (id : string) (o : os) (name : string) :
  Path.join dir ("server-" +:+ id +:+ ".jar") <> pidFile o name.
Proof.
  unfold pidFile.
  change ("server-" +:+ id +:+ ".jar") with (("server-" +:+ id) +:+ ".jar").
  destruct (join_suffix dir ("server-" +:+ id) ".jar" eq_refl) as (a1 & l1 & ->);
    [simpl; lia|].
  destruct (join_suffix (PID_DIR o) name ".pid" eq_refl) as (a2 & l2 & ->);
    [simpl; lia|].
  intros [_ E]%app_inj_tail. exact (jar_is_no_record _ _ E).
Qed.

(** Taking a bind apart. *)
Lemma bind_Return {A B} (m : M A) (k : A -> M B) o b o' :
  bind m k o = (Return b, o') ->
  exists a o1, m o = (Return a, o1) /\ k a o1 = (Return b, o').
Proof.
  unfold bind. destruct (m o) as [[a|e] o1]; [eauto | discriminate].
Qed.

Section StartSuccess.

Variable env : StartRoute.Env.
Variables (body : StartRoute.Body) (o : os).
Let name := Text.trim (default EmptyString (StartRoute.worldName body)).
Let pfile := pidFile o name.
Let requested := default (Int 25565) (StartRoute.port body).

Lemma quiet_check (p : path) :
  quiet (try_catch
    (let* txt := readFile p
     in match Text.parseInt txt with
        | Some existing =>
            if (existing =? 0)%Z
            then ret false
            else StartRoute.isAlive existing
        | None => ret false
        end)
    (λ _ : string, ret false)).
Proof.
  apply quiet_try; [|intros; apply quiet_ret].
  apply quiet_bind; [apply quiet_readFile|]. intros txt.
  destruct (Text.parseInt txt) as [z|]; [|apply quiet_ret].
  destruct (z =? 0)%Z; [apply quiet_ret | apply quiet_start_isAlive].
Qed.

Lemma quiet_jar (sj : string) (root dir : path) :
  quiet (if negb (sj =? EmptyString)
   then ret (if Path.isAbsolute sj then Path.of_string sj else Path.join root sj)
   else
    match Artifact.findExistingJar dir (StartRoute.readdir env dir) with
    | Some j => ret j
    | None => StartRoute.downloadLatestServerJar env dir
    end).
Proof.
  destruct (negb _); [apply quiet_ret|].
  destruct (Artifact.findExistingJar _ _); [apply quiet_ret | apply quiet_download].
Qed.

Lemma quiet_port (eph : option Z) (port : Z) :
  quiet (try_catch
    (let* res := Port.findAvailablePort eph port in ret (Some res))
    (λ _ : string, ret None)).
Proof.
  apply quiet_try; [|intros; apply quiet_ret].
  apply quiet_bind; [apply quiet_findAvailablePort | intros; apply quiet_ret].
Qed.

(** A start that answers with a pid has written that pid as the world's
    record, has created exactly that one process, and the process is
    among the live ones. *)
Lemma start_started (st : started) (o' : os) :
  run (StartRoute.POST env body) o = (JsonStarted st, o') ->
  files o' !! pfile = Some (Text.String_ (st_pid st))
  /\ (forall p, st_pid st = Some p -> p ∈ alive o')
  /\ cwd o' = cwd o
  /\ spawn_count (trace o') = (spawn_count (trace o) + (if st_pid st is Some _ then 1 else 0))%nat
  /\ String.eqb name EmptyString = false
  /\ StartRoute.bad_port requested = false.
Proof.
  unfold run. destruct (StartRoute.POST env body o) as [[r|e] o2] eqn:H; [|discriminate].
  intros [= -> ->]. revert H. unfold StartRoute.POST.
  fold name. destruct (String.eqb name EmptyString) eqn:Hn; [discriminate|].
  fold requested. destruct (StartRoute.bad_port requested) eqn:Hb; [discriminate|].
  intros H.
  apply bind_Return in H as (oo & o1 & [= <- <-] & H).
  apply bind_Return in H as ([] & o1 & H1 & H).
  apply bind_Return in H as (running & o2 & H2 & H).
  destruct running; [discriminate|].
  apply bind_Return in H as ([] & o3 & H3 & H).
  apply bind_Return in H as (jarPath & o4 & H4 & H).
  apply bind_Return in H as (picked & o5 & H5 & H).
  destruct picked as [[chosen auto]|]; [|discriminate].
  apply quiet_ensureDir in H1 as (C1 & A1 & S1 & K1).
  apply quiet_check in H2 as (C2 & A2 & S2 & K2).
  apply quiet_ensureDir in H3 as (C3 & A3 & S3 & K3).
  apply quiet_jar in H4 as (C4 & A4 & S4 & K4).
  apply quiet_port in H5 as (C5 & A5 & S5 & K5).
  unfold try_catch in H.
  destruct (StartRoute.child env) as [e|pid].
  { discriminate. }
  unfold bind at 1 in H. unfold bind at 1, modify at 1 in H.
  unfold ret at 1 in H. unfold bind at 1, writeFile at 1 in H.
  rewrite dirs_emit in H.
  destruct (decide _) in H; [|discriminate].
  injection H as <- <-. cbn [st_pid]. rewrite files_emit. cbn [files with_files].
  split; [apply lookup_insert_eq|].
  split.
  { intros p ->. rewrite !alive_emit. cbn [alive with_files with_alive].
    apply elem_of_union_l, elem_of_singleton. reflexivity. }
  split.
  { rewrite !cwd_emit. destruct pid; cbn; congruence. }
  split; [|split; reflexivity].
  rewrite !trace_emit, !spawn_count_app. cbn [trace with_files].
  destruct pid; rewrite ?trace_emit, ?spawn_count_app;
    cbn [trace with_alive spawn_count]; lia.
Qed.

End StartSuccess.

Lemma bind_inv {A B} (m : M A) (k : A -> M B) o r o' :
  bind m k o = (r, o') ->
  (exists a o1, m o = (Return a, o1) /\ k a o1 = (r, o'))
  \/ (exists e, m o = (Throw e, o') /\ r = Throw e).
Proof.
  unfold bind. destruct (m o) as [[a|e] o1]; [eauto|].
  intros [= <- <-]. eauto.
Qed.

Section StartStale.

Variable env : StartRoute.Env.
Variables (body : StartRoute.Body) (o : os).
Let name := Text.trim (default EmptyString (StartRoute.worldName body)).
Let pfile := pidFile o name.
Let requested := default (Int 25565) (StartRoute.port body).

Lemma check_stale (p : path) (o1 : os) (txt : string) :
  files o1 !! p = Some txt -> stale_at_start o1 txt ->
  exists o2,
  try_catch
    (let* txt := readFile p
     in match Text.parseInt txt with
        | Some existing =>
            if (existing =? 0)%Z
            then ret false
            else StartRoute.isAlive existing
        | None => ret false
        end)
    (λ _ : string, ret false) o1 = (Return false, o2).
Proof.
  intros Hf Hd. unfold try_catch, bind at 1, readFile. rewrite Hf.
  unfold stale_at_start in Hd.
  destruct (Text.parseInt txt) as [z|]; [|eexists; reflexivity].
  destruct (Z.eqb_spec z 0); [eexists; reflexivity|].
  unfold StartRoute.isAlive, try_catch, bind, process_kill.
  destruct (decide (z ∈ alive o1)); [destruct Hd; contradiction|].
  eexists; reflexivity.
Qed.

(** Resolving the jar leaves the record of every world as it is. *)
Lemma keeps_jar (q : string) (sj : string) (root dir : path) :
  keeps (pidFile o q)
    (if negb (sj =? EmptyString)
     then ret (if Path.isAbsolute sj then Path.of_string sj else Path.join root sj)
     else
      match Artifact.findExistingJar dir (StartRoute.readdir env dir) with
      | Some j => ret j
      | None => StartRoute.downloadLatestServerJar env dir
      end).
Proof.
  destruct (negb _); [apply keeps_ret|].
  destruct (Artifact.findExistingJar _ _); [apply keeps_ret|].
  unfold StartRoute.downloadLatestServerJar.
  destruct (StartRoute.download env) as [[id buf]|]; [|apply keeps_throw].
  apply keeps_bind; [apply keeps_ensureDir|]. intros _.
  apply keeps_bind; [|intros; apply keeps_ret].
  apply keeps_writeFile, download_not_record.
Qed.

(** Starting a world whose record is stale is not refused as a conflict;
    an answer that the server has started comes with the new pid in the
    record, and with any other answer the record is as it was. *)
Lemma start_stale (txt : string) (r : response) (o' : os) :
  String.eqb name EmptyString = false ->
  StartRoute.bad_port requested = false ->
  files o !! pfile = Some txt -> stale_at_start o txt ->
  run (StartRoute.POST env body) o = (r, o') ->
  r <> Text 409 "Server already running for this world."
  /\ (forall st, r = JsonStarted st ->
        files o' !! pfile = Some (Text.String_ (st_pid st)))
  /\ ((forall st, r <> JsonStarted st) -> files o' !! pfile = Some txt).
Proof.
  intros Hn Hb Hf Hd Hrun.
  assert (S : forall st, r = JsonStarted st ->
                files o' !! pfile = Some (Text.String_ (st_pid st))).
  { intros st ->. apply (start_started env body o st o' Hrun). }
  revert Hrun. unfold run.
  destruct (StartRoute.POST env body o) as [res o2] eqn:H.
  intros E. assert (o2 = o') as -> by (destruct res; congruence).
  assert (r = match res with Return x => x | Throw e => Uncaught e end) as ->
    by (destruct res; congruence). clear E.
  revert H. unfold StartRoute.POST. fold name. rewrite Hn. fold requested. rewrite Hb.
  intros H.
  apply bind_inv in H as [(oo & o1 & [= <- <-] & H)|(e & [=] & _)].
  apply bind_inv in H as [([] & o1 & H1 & H)|(e & [=] & _)].
  assert (exists txt1, files o1 !! pfile = Some txt1 /\ stale_at_start o1 txt1)
    as (txt1 & Hf1 & Hd1).
  { injection H1 as <-. exists txt. split; [exact Hf | exact Hd]. }
  apply (keeps_ensureDir pfile) in H1 as K1.
  destruct (check_stale pfile o1 txt1 Hf1 Hd1) as (o2 & Hc).
  apply bind_inv in H as [(running & o2' & H2 & H)|(e & H2 & _)];
    fold pfile in H2; rewrite Hc in H2; [|discriminate].
  injection H2 as <- <-.
  apply (keeps_check pfile) in Hc as K2.
  apply bind_inv in H as [([] & o3 & H3 & H)|(e & [=] & _)].
  apply (keeps_ensureDir pfile) in H3 as K3.
  assert (F3 : files o3 !! pfile = Some txt) by congruence.
  apply bind_inv in H as [(jarPath & o4 & H4 & H)|(e & H4 & ->)].
  2:{ apply (keeps_jar name) in H4 as K4. fold pfile in K4.
      split; [discriminate|]. split; [exact S|]. intros _. congruence. }
  apply (keeps_jar name) in H4 as K4. fold pfile in K4.
  apply bind_inv in H as [(picked & o5 & H5 & H)|(e & H5 & ->)].
  2:{ apply (keeps_port pfile) in H5 as K5.
      split; [discriminate|]. split; [exact S|]. intros _. congruence. }
  apply (keeps_port pfile) in H5 as K5.
  assert (K : files o5 !! pfile = Some txt) by congruence.
  split; [|split; [exact S|]].
  - destruct picked as [[chosen auto]|]; [|injection H as <- _; discriminate].
    unfold try_catch in H.
    destruct (StartRoute.child env) as [e|pid]; [injection H as <- _; discriminate|].
    unfold bind at 1 in H. unfold bind at 1, modify at 1 in H.
    unfold ret at 1 in H. unfold bind at 1, writeFile at 1 in H.
    destruct (decide _) in H; injection H as <- _; discriminate.
  - intros NS. destruct picked as [[chosen auto]|].
    2:{ now injection H as _ <-. }
    unfold try_catch in H.
    destruct (StartRoute.child env) as [e|pid].
    { now injection H as _ <-. }
    unfold bind at 1 in H. unfold bind at 1, modify at 1 in H.
    unfold ret at 1 in H. unfold bind at 1, writeFile at 1 in H.
    destruct (decide _) in H; injection H as <- <-.
    + now destruct (NS _ eq_refl).
    + rewrite files_emit. destruct pid; exact K.
Qed.

End StartStale.

Lemma pidFile_cwd (o o' : os) (n : string) :
  cwd o' = cwd o -> pidFile o' n = pidFile o n.
Proof. unfold pidFile, PID_DIR, ROOT_DIR. now intros ->. Qed.

(** ** The shell stop paths *)

Section ShellStop.

(** [stop_server] runs the backup script right after the stop command,
    whatever became of that command. *)
Lemma stop_server_backs_up (W : string) (env : Minecraft.Env) (s : Minecraft.state)
      (r : ended) (s' : Minecraft.state) :
  Minecraft.running s = true ->
  Minecraft.stop_server W env s = Some (r, s') ->
  (exists rest,
     Minecraft.steps s'
     = (Minecraft.steps s ++ Minecraft.RconStop :: Minecraft.RunBackup :: rest)%list
     /\ (rest = [] \/ rest = [Minecraft.ComposeDown]))
  /\ Minecraft.stop_server W
       {| Minecraft.rcon_ok := negb (Minecraft.rcon_ok env);
          Minecraft.backup_env := Minecraft.backup_env env |} s
     = Some (r, s').
Proof.
  intros Hr. unfold Minecraft.stop_server. rewrite Hr. cbn [negb Minecraft.store
    Minecraft.steps Minecraft.running Minecraft.backup_env].
  destruct (BackupScript.main W (Minecraft.backup_env env) (Minecraft.store s))
    as [[st d]|]; [|discriminate].
  destruct (negb (st =? 0)%Z); intros [= <- <-]; (split; [|reflexivity]);
    cbn [Minecraft.steps]; rewrite <- ?app_assoc; eauto.
Qed.

(** [do_backup_on_stop] with the toggle on writes the archive. *)
Lemma do_backup_on_stop_archives (cfg : StartScript.Config) (env : StartScript.Env)
      (d : disk) :
  StartScript.BACKUP_ON_STOP cfg = "TRUE" ->
  world_exists d = true -> StartScript.tar_ok env = true ->
  exists d',
    StartScript.do_backup_on_stop cfg env d = (Status 0, d')
    /\ backups d' !! StartScript.archive_name cfg env
       = Some (Archive (StartScript.now env) (world_data d))
    /\ last_backup d' = Some (StartScript.now env).
Proof.
  intros Hc Hw Ht. unfold StartScript.do_backup_on_stop, StartScript.do_backup.
  rewrite Hc, Hw, Ht. cbn. eexists. split; [reflexivity|]. split; [|reflexivity].
  cbn. apply lookup_insert_eq.
Qed.

(** The signal handler of the start script backs up whether the server
    could be signalled or not. *)
Lemma cleanup_and_backup_archives (cfg : StartScript.Config) (env : StartScript.Env)
      (alive ok : bool) (d : disk) :
  StartScript.BACKUP_ON_STOP cfg = "TRUE" ->
  world_exists d = true -> StartScript.tar_ok env = true ->
  exists d',
    StartScript.cleanup_and_backup cfg env (StartScript.Session alive ok d)
    = (Exit 0, StartScript.Session false (if alive then false else ok) d')
    /\ backups d' !! StartScript.archive_name cfg env
       = Some (Archive (StartScript.now env) (world_data d)).
Proof.
  intros Hc Hw Ht.
  destruct (do_backup_on_stop_archives cfg env d Hc Hw Ht) as (d' & H & Ha & _).
  exists d'. split; [|exact Ha].
  unfold StartScript.cleanup_and_backup. destruct alive; cbn; now rewrite H.
Qed.

End ShellStop.


Section SupervisionClaims.

(** C1, as amended.  Through the stop route a world whose recorded pid is
    alive (and still there when signalled) is probed, sent SIGTERM, its
    record is removed and the answer is [stopped: true] with the pid:
    no backup is taken and no file is written.  The shutdown backup
    belongs to the shell stop paths: [stop_server] of [minecraft.sh] runs
    the backup script after the stop command whatever became of that
    command and before the containers are taken down, and the start
    script's [do_backup_on_stop] writes the archive when
    [BACKUP_ON_STOP] is [TRUE], also when it is run by the signal handler
    and the server could not be signalled. *)
Theorem stop_live_world :
  (forall (env : StopRoute.Env) (w : string) (o : os) (txt : string) (pid : Z),
      String.eqb (Text.trim w) EmptyString = false ->
      files o !! pidFile o (Text.trim w) = Some txt ->
      Text.parseInt txt = Some pid -> 0 < pid -> pid ∈ alive o ->
      StopRoute.vanishes env = false ->
      exists o',
        run (StopRoute.POST env (Some w)) o = (JsonStopped pid, o')
        /\ files o' = delete (pidFile o (Text.trim w)) (files o)
        /\ trace o' = (trace o ++ [Kill pid Sig0; Kill pid SIGTERM;
                                    Unlink (pidFile o (Text.trim w))])%list)
  /\ (forall (W : string) (env : Minecraft.Env) (s : Minecraft.state)
             (r : ended) (s' : Minecraft.state),
      Minecraft.running s = true ->
      Minecraft.stop_server W env s = Some (r, s') ->
      (exists rest,
         Minecraft.steps s'
         = (Minecraft.steps s ++ Minecraft.RconStop :: Minecraft.RunBackup :: rest)%list
         /\ (rest = [] \/ rest = [Minecraft.ComposeDown]))
      /\ Minecraft.stop_server W
           {| Minecraft.rcon_ok := negb (Minecraft.rcon_ok env);
              Minecraft.backup_env := Minecraft.backup_env env |} s
         = Some (r, s'))
  /\ (forall (cfg : StartScript.Config) (env : StartScript.Env) (d : disk),
      StartScript.BACKUP_ON_STOP cfg = "TRUE" ->
      world_exists d = true -> StartScript.tar_ok env = true ->
      exists d',
        StartScript.do_backup_on_stop cfg env d = (Status 0, d')
        /\ backups d' !! StartScript.archive_name cfg env
           = Some (Archive (StartScript.now env) (world_data d))
        /\ last_backup d' = Some (StartScript.now env))
  /\ (forall (cfg : StartScript.Config) (env : StartScript.Env)
             (alive ok : bool) (d : disk),
      StartScript.BACKUP_ON_STOP cfg = "TRUE" ->
      world_exists d = true -> StartScript.tar_ok env = true ->
      exists d',
        StartScript.cleanup_and_backup cfg env (StartScript.Session alive ok d)
        = (Exit 0, StartScript.Session false (if alive then false else ok) d')
        /\ backups d' !! StartScript.archive_name cfg env
           = Some (Archive (StartScript.now env) (world_data d))).
Proof.
  split; [|split; [|split]].
  - intros env w o txt pid Hn Hf Hp Hpos Ha Hv.
    eexists. split; [apply (stop_live env w o txt pid); assumption|].
    split; [reflexivity|]. cbn [trace emit with_files].
    now rewrite <- !app_assoc.
  - apply stop_server_backs_up.
  - apply do_backup_on_stop_archives.
  - apply cleanup_and_backup_archives.
Qed.

Lemma stop_live_world_witness :
  String.eqb (Text.trim "Alpha") EmptyString = false
  /\ files machine1 !! pidFile machine1 (Text.trim "Alpha") = Some "4242"
  /\ Text.parseInt "4242" = Some 4242 /\ 0 < 4242 /\ 4242 ∈ alive machine1
  /\ exists o',
       run (StopRoute.POST {| StopRoute.vanishes := false |} (Some "Alpha")) machine1
       = (JsonStopped 4242, o')
       /\ files o' = delete (pidFile machine1 (Text.trim "Alpha")) (files machine1)
       /\ trace o' = (trace machine1 ++ [Kill 4242 Sig0; Kill 4242 SIGTERM;
                        Unlink (pidFile machine1 (Text.trim "Alpha"))])%list.
Proof.
  assert (H : 4242 ∈ alive machine1) by (vm_compute; reflexivity).
  split; [reflexivity|]. split; [reflexivity|]. split; [reflexivity|].
  split; [lia|]. split; [exact H|].
  apply (proj1 stop_live_world {| StopRoute.vanishes := false |} "Alpha" machine1
           "4242" 4242); first [reflexivity | lia | exact H].
Defined.

(** C1 as stated fails: on [machine1] the stop route answers
    [stopped: true] for [Alpha], and all it did was probe, signal and
    unlink; the only file there was, the pid record, is gone and no
    archive has been written. *)
Lemma stop_route_takes_no_backup :
  let r := run (StopRoute.POST {| StopRoute.vanishes := false |} (Some "Alpha")) machine1 in
  fst r = JsonStopped 4242
  /\ files (snd r) = ∅
  /\ trace (snd r) = [Kill 4242 Sig0; Kill 4242 SIGTERM; Unlink alpha_pid].
Proof. vm_compute. repeat split. Qed.

(** C3. Stopping a world that has a valid name and no pid record answers
    [alreadyStopped: true] and leaves the whole system as it was: no
    signal is sent (the trace does not grow) and nothing is written. *)
Theorem stop_without_record (env : StopRoute.Env) (w : string) (o : os) :
  World.validateWorldName w = true ->
  files o !! pidFile o w = None ->
  run (StopRoute.POST env (Some w)) o
  = (JsonAlreadyStopped "No running server found (no PID file).", o).
Proof.
  intros Hv Hf. unfold run, StopRoute.POST.
  change (default EmptyString (Some w)) with w.
  rewrite (trim_valid w Hv), (valid_not_empty w Hv).
  unfold bind, get, try_catch, readFile, ret. rewrite Hf. reflexivity.
Qed.

Lemma stop_without_record_witness :
  World.validateWorldName "Alpha" = true
  /\ files machine0 !! pidFile machine0 "Alpha" = None
  /\ run (StopRoute.POST {| StopRoute.vanishes := false |} (Some "Alpha")) machine0
     = (JsonAlreadyStopped "No running server found (no PID file).", machine0).
Proof.
  split; [reflexivity|]. split; [reflexivity|].
  apply stop_without_record; reflexivity.
Defined.

End SupervisionClaims.

Section RegistryClaims.

(** C2. A start for a world whose record reads as a pid (other than zero)
    that can be signalled is refused with 409: apart from making sure
    the pid directory exists and probing the pid it does nothing; no
    process is created, no file is written.  Hence a second start right
    after a start that returned a pid, for the same world, is refused
    with 409, and of the two calls only the first created a process. *)
Theorem start_already_running :
  (forall (env : StartRoute.Env) (body : StartRoute.Body) (o : os)
          (txt : string) (pid : Z),
      let name := Text.trim (default EmptyString (StartRoute.worldName body)) in
      String.eqb name EmptyString = false ->
      StartRoute.bad_port (default (Int 25565) (StartRoute.port body)) = false ->
      files o !! pidFile o name = Some txt ->
      Text.parseInt txt = Some pid -> pid <> 0 -> pid ∈ alive o ->
      exists o',
        run (StartRoute.POST env body) o
        = (Text 409 "Server already running for this world.", o')
        /\ files o' = files o /\ alive o' = alive o
        /\ trace o' = (trace o ++ [Mkdir (PID_DIR o); Kill pid Sig0])%list)
  /\ (forall (env1 env2 : StartRoute.Env) (body1 body2 : StartRoute.Body)
             (o o1 : os) (st : started) (p : Z),
      Text.trim (default EmptyString (StartRoute.worldName body2))
      = Text.trim (default EmptyString (StartRoute.worldName body1)) ->
      StartRoute.bad_port (default (Int 25565) (StartRoute.port body2)) = false ->
      run (StartRoute.POST env1 body1) o = (JsonStarted st, o1) ->
      st_pid st = Some p -> p <> 0 ->
      exists o2,
        run (StartRoute.POST env2 body2) o1
        = (Text 409 "Server already running for this world.", o2)
        /\ files o2 = files o1 /\ alive o2 = alive o1
        /\ spawn_count (trace o2) = S (spawn_count (trace o))).
Proof.
  split.
  - intros env body o txt pid name Hn Hb Hf Hp Hz Ha.
    eexists. split; [apply (start_conflict env body o txt pid); assumption|].
    split; [reflexivity|]. split; [reflexivity|].
    unfold after_ensure_pid_dir. cbn [trace emit with_dirs].
    now rewrite <- app_assoc.
  - intros env1 env2 body1 body2 o o1 st p Hw Hb H1 Hpid Hz.
    destruct (start_started env1 body1 o st o1 H1) as (Hf & Ha & Hc & Hs & Hn & _).
    rewrite Hpid in Hf, Hs. cbn [Text.String_] in Hf.
    rewrite <- (pidFile_cwd o o1 _ Hc), <- Hw in Hf. rewrite <- Hw in Hn.
    eexists. split.
    { apply (start_conflict env2 body2 o1 (Text.of_Z p) p);
        [exact Hn | exact Hb | exact Hf | apply parseInt_of_Z | exact Hz
        | apply Ha, Hpid]. }
    split; [reflexivity|]. split; [reflexivity|].
    unfold after_ensure_pid_dir. rewrite !trace_emit, !spawn_count_app.
    cbn [trace with_dirs spawn_count]. lia.
Qed.

Lemma start_already_running_witness :
  (String.eqb (Text.trim "Alpha") EmptyString = false
   /\ files machine1 !! pidFile machine1 (Text.trim "Alpha") = Some "4242"
   /\ Text.parseInt "4242" = Some 4242 /\ 4242 <> 0 /\ 4242 ∈ alive machine1
   /\ exists o',
        run (StartRoute.POST env0 body_alpha) machine1
        = (Text 409 "Server already running for this world.", o')
        /\ files o' = files machine1 /\ alive o' = alive machine1
        /\ trace o' = (trace machine1 ++ [Mkdir (PID_DIR machine1); Kill 4242 Sig0])%list)
  /\ (run (StartRoute.POST env0 body_alpha) machine0
      = (JsonStarted started_alpha, snd (run (StartRoute.POST env0 body_alpha) machine0))
      /\ exists o2,
           run (StartRoute.POST env0 body_alpha)
               (snd (run (StartRoute.POST env0 body_alpha) machine0))
           = (Text 409 "Server already running for this world.", o2)
           /\ files o2 = files (snd (run (StartRoute.POST env0 body_alpha) machine0))
           /\ alive o2 = alive (snd (run (StartRoute.POST env0 body_alpha) machine0))
           /\ spawn_count (trace o2) = S (spawn_count (trace machine0))).
Proof.
  assert (H : 4242 ∈ alive machine1) by (vm_compute; reflexivity).
  assert (R : run (StartRoute.POST env0 body_alpha) machine0
              = (JsonStarted started_alpha,
                 snd (run (StartRoute.POST env0 body_alpha) machine0)))
    by (vm_compute; reflexivity).
  split.
  - split; [reflexivity|]. split; [reflexivity|]. split; [reflexivity|].
    split; [lia|]. split; [exact H|].
    apply (proj1 start_already_running env0 body_alpha machine1 "4242" 4242);
      first [reflexivity | lia | exact H].
  - split; [exact R|].
    apply (proj2 start_already_running env0 env0 body_alpha body_alpha machine0
             (snd (run (StartRoute.POST env0 body_alpha) machine0))
             started_alpha 4242 eq_refl eq_refl R eq_refl).
    lia.
Defined.

(** C4, as amended.  Of the three routes only stop removes a stale
    record.  Status answers that nothing is running and leaves the
    record where it is.  Start does not take the record for a conflict
    and does not remove it either: the record stays as it is until a
    start gets as far as writing the new child's pid over it.  A start
    that answers that the server has started leaves the text of the
    child's pid in the record, and with any other answer, or when an
    exception leaves the handler, the record holds what it held. *)
Theorem stale_record_handling :
  (forall (env : StopRoute.Env) (w : string) (o : os) (txt : string),
      String.eqb (Text.trim w) EmptyString = false ->
      files o !! pidFile o (Text.trim w) = Some txt -> stale o txt ->
      exists o',
        run (StopRoute.POST env (Some w)) o
        = (JsonAlreadyStopped "No running server found (stale PID cleaned).", o')
        /\ files o' = delete (pidFile o (Text.trim w)) (files o))
  /\ (forall (w : string) (o : os) (txt : string),
      String.eqb (Text.trim w) EmptyString = false ->
      files o !! pidFile o (Text.trim w) = Some txt -> stale o txt ->
      exists o',
        run (StatusRoute.GET (Some w)) o = (JsonStatus false None, o')
        /\ files o' = files o)
  /\ (forall (env : StartRoute.Env) (body : StartRoute.Body) (o : os)
             (txt : string) (r : response) (o' : os),
      let name := Text.trim (default EmptyString (StartRoute.worldName body)) in
      String.eqb name EmptyString = false ->
      StartRoute.bad_port (default (Int 25565) (StartRoute.port body)) = false ->
      files o !! pidFile o name = Some txt -> stale_at_start o txt ->
      run (StartRoute.POST env body) o = (r, o') ->
      r <> Text 409 "Server already running for this world."
      /\ (forall st, r = JsonStarted st ->
            files o' !! pidFile o name = Some (Text.String_ (st_pid st)))
      /\ ((forall st, r <> JsonStarted st) ->
            files o' !! pidFile o name = Some txt)).
Proof.
  split; [|split].
  - intros env w o txt Hn Hf Hs.
    destruct (stop_stale env w o txt Hn Hf Hs) as (o' & H & Hfiles & _). eauto.
  - intros w o txt Hn Hf Hs.
    destruct (status_stale w o txt Hn Hf Hs) as (o' & H & Hfiles & _). eauto.
  - intros env body o txt r o' name Hn Hb Hf Hs H.
    exact (start_stale env body o txt r o' Hn Hb Hf Hs H).
Qed.

Lemma stale_record_handling_witness :
  String.eqb (Text.trim "Alpha") EmptyString = false
  /\ files machine_stale !! pidFile machine_stale (Text.trim "Alpha") = Some "4242"
  /\ stale machine_stale "4242"
  /\ exists o',
       run (StopRoute.POST {| StopRoute.vanishes := false |} (Some "Alpha")) machine_stale
       = (JsonAlreadyStopped "No running server found (stale PID cleaned).", o')
       /\ files o' = delete (pidFile machine_stale (Text.trim "Alpha")) (files machine_stale).
Proof.
  assert (H : stale machine_stale "4242").
  { right. intros H. vm_compute in H. discriminate H. }
  split; [reflexivity|]. split; [reflexivity|]. split; [exact H|].
  apply (proj1 stale_record_handling {| StopRoute.vanishes := false |} "Alpha"
           machine_stale "4242"); first [reflexivity | exact H].
Defined.

(** C4 as stated fails for status: on [machine_stale] the record of
    [Alpha] is stale, status finds that out and answers that nothing is
    running, and the record is still there afterwards. *)
Lemma status_leaves_stale_record :
  stale machine_stale "4242"
  /\ fst (run (StatusRoute.GET (Some "Alpha")) machine_stale) = JsonStatus false None
  /\ files (snd (run (StatusRoute.GET (Some "Alpha")) machine_stale)) !! alpha_pid
     = Some "4242".
Proof.
  split.
  - right. intros H. vm_compute in H. discriminate H.
  - vm_compute. split; reflexivity.
Qed.

End RegistryClaims.

(** ** Port allocation *)

Section PortClaims.

(** C5. For a preferred port between 1 and 65535: when the exclusive
    bind of that port succeeds, the allocation returns the same port, not
    reassigned, having listened once and closed; when the bind fails, it
    goes on at once to bind port 0 (the preferred port is tried exactly
    once), and the port the system hands out is returned as reassigned,
    a port different from the preferred one. *)
Theorem findAvailablePort_spec (ephemeral : option Z) (preferred : Z) (o : os) :
  1 <= preferred <= 65535 ->
  (net_listen ephemeral preferred o = Listening preferred ->
   Port.findAvailablePort ephemeral preferred o
   = (Return (preferred, false),
      emit (Close preferred) (emit (Listen preferred) o)))
  /\ (net_listen ephemeral preferred o = ListenError ->
      forall e, net_listen ephemeral 0 o = Listening e ->
      Port.findAvailablePort ephemeral preferred o
      = (Return (e, true),
         emit (Close e) (emit (Listen 0) (emit (Listen preferred) o)))
      /\ e <> preferred).
Proof.
  intros Hr. split.
  - intros H. unfold Port.findAvailablePort, bind, Port.checkPortAvailable.
    rewrite H. reflexivity.
  - intros H e He. split.
    + unfold Port.findAvailablePort, bind at 1, Port.checkPortAvailable.
      rewrite H. unfold bind, Port.getEphemeralPort.
      assert (net_listen ephemeral 0 (emit (Listen preferred) o)
              = net_listen ephemeral 0 o) as -> by reflexivity.
      rewrite He. reflexivity.
    + intros ->. revert H He. unfold net_listen.
      destruct ((preferred <? 0)%Z || (65535 <? preferred)%Z)%bool eqn:E1; [lia|].
      destruct (Z.eqb_spec preferred 0); [lia|].
      destruct (decide (preferred ∈ in_use o)) as [Hin|]; [|discriminate].
      intros _. cbn. destruct ephemeral as [e'|]; [|discriminate].
      destruct (decide (e' ∈ in_use o)); [discriminate|].
      destruct ((e' <? 1)%Z || (65535 <? e')%Z)%bool; [discriminate|].
      intros [= ->]. contradiction.
Qed.

Lemma findAvailablePort_spec_witness :
  1 <= 25565 <= 65535
  /\ Port.findAvailablePort None 25565 machine0
     = (Return (25565, false), emit (Close 25565) (emit (Listen 25565) machine0))
  /\ Port.findAvailablePort (Some 49152) 25565 machine_busy
     = (Return (49152, true),
        emit (Close 49152) (emit (Listen 0) (emit (Listen 25565) machine_busy)))
  /\ 49152 <> 25565.
Proof.
  assert (R : 1 <= 25565 <= 65535) by lia.
  split; [exact R|]. split.
  - apply (proj1 (findAvailablePort_spec None 25565 machine0 R)).
    vm_compute; reflexivity.
  - apply (proj2 (findAvailablePort_spec (Some 49152) 25565 machine_busy R));
      vm_compute; reflexivity.
Defined.

End PortClaims.

(** ** World names at the supervision routes *)

Section NameClaims.

(** C6 fails on the code: the start route checks only that the trimmed
    name is not empty.  For the name [../evil], which the pattern of
    [validateWorldName] rejects, it creates the directory [/srv/mc/evil]
    next to the worlds directory, creates a process, and writes the pid
    record [/srv/mc/evil.pid] outside the pid directory. *)
Theorem start_accepts_traversal :
  World.validateWorldName "../evil" = false
  /\ (exists st, fst (run (StartRoute.POST env0 body_evil) machine0) = JsonStarted st)
  /\ trace (snd (run (StartRoute.POST env0 body_evil) machine0))
     = [Mkdir ["srv"; "mc"; ".mc-pids"]; Mkdir ["srv"; "mc"; "evil"];
        Listen 25565; Close 25565;
        Spawn "java"
          ["-Xmx4G"; "-Xms4G"; "-jar"; "/srv/mc/server.jar"; "nogui";
           "--world"; "/srv/mc/evil"; "--port"; "25565"]
          (Some 4242);
        WriteFile ["srv"; "mc"; "evil.pid"] "4242"].
Proof.
  split; [reflexivity|]. split.
  - eexists. vm_compute. reflexivity.
  - vm_compute. reflexivity.
Qed.

End NameClaims.

(** ** Artifact resolution *)

Section Resolver.

Lemma sort_newest_head (l : list dirent) (e : dirent) (r : list dirent) :
  Artifact.sort_newest l = e :: r ->
  exists pre post,
    l = (pre ++ e :: post)%list
    /\ Forall (fun x => mtimeMs x < mtimeMs e) pre
    /\ Forall (fun x => mtimeMs x <= mtimeMs e) post.
Proof.
  revert e r. induction l as [|a l IH]; intros e r; [discriminate|].
  change (Artifact.sort_newest (a :: l))
    with (Artifact.insert_newest a (Artifact.sort_newest l)).
  destruct (Artifact.sort_newest l) as [|h t] eqn:E.
  - simpl. intros [= <- <-]. destruct l as [|b l].
    + exists [], []. repeat split; constructor.
    + exfalso. revert E. change (Artifact.sort_newest (b :: l))
        with (Artifact.insert_newest b (Artifact.sort_newest l)).
      destruct (Artifact.sort_newest l) as [|y u]; simpl; [discriminate|].
      destruct (mtimeMs y <=? mtimeMs b)%Z; discriminate.
  - destruct (IH h t eq_refl) as (pre & post & -> & Hpre & Hpost).
    simpl. destruct (Z.leb_spec (mtimeMs h) (mtimeMs a)) as [Hle|Hlt].
    + intros [= <- <-]. exists [], (pre ++ h :: post)%list.
      split; [reflexivity|]. split; [constructor|].
      apply Forall_app. split.
      * eapply Forall_impl; [exact Hpre|]. simpl. intros; lia.
      * constructor; [lia|]. eapply Forall_impl; [exact Hpost|]. simpl. intros; lia.
    + intros [= <- <-]. exists (a :: pre), post.
      split; [reflexivity|]. split; [constructor; assumption | assumption].
Qed.

Lemma sort_newest_nil (l : list dirent) : Artifact.sort_newest l = [] -> l = [].
Proof.
  destruct l as [|a l]; [reflexivity|].
  change (Artifact.sort_newest (a :: l))
    with (Artifact.insert_newest a (Artifact.sort_newest l)).
  destruct (Artifact.sort_newest l) as [|y u]; simpl; [discriminate|].
  destruct (mtimeMs y <=? mtimeMs a)%Z; discriminate.
Qed.

Lemma findExistingJar_pool (dir : path) (es : list dirent) :
  Artifact.findExistingJar dir (Some es)
  = match Artifact.sort_newest (pool es) with
    | e :: _ => Some (Path.join dir (name e))
    | [] => None
    end.
Proof.
  unfold Artifact.findExistingJar, pool.
  destruct (List.filter Artifact.is_jar es) as [|j js] eqn:E; [reflexivity|].
  destruct (List.filter _ (j :: js)); reflexivity.
Qed.

Lemma pool_nil (es : list dirent) :
  pool es = [] -> List.filter Artifact.is_jar es = [].
Proof.
  unfold pool.
  destruct (List.filter (fun e => Artifact.is_server_jar (name e)) _) eqn:E;
    [exact id | discriminate].
Qed.

(** The start script's own detection never picks a name with a marker. *)
Lemma SERVER_JAR_no_marker (es : list dirent) (n : string) :
  StartScript.SERVER_JAR es = Some n -> Artifact.has_backup_marker n = false.
Proof.
  unfold StartScript.SERVER_JAR.
  destruct (List.filter _ _) as [|x l] eqn:E; [discriminate|].
  intros [= ->]. assert (In n (n :: l)) as H by (left; reflexivity).
  rewrite <- E in H. apply filter_In in H as [_ H].
  now apply negb_true_iff in H.
Qed.

(** C7, as amended.  [findExistingJar] considers the regular files whose
    lower-cased name ends in [.jar], a name with a backup or old marker
    among them; it narrows them to the names matching [server*.jar]
    when there is one and keeps them all otherwise; and it returns the
    first listed of the candidates with the latest modification time:
    every candidate listed before it is strictly older, none after it is
    newer.  It returns nothing exactly when there is no jar.  Names with a
    marker are left out only by the start script's own detection. *)
Theorem findExistingJar_spec (dir : path) (es : list dirent) :
  match Artifact.findExistingJar dir (Some es) with
  | None => List.filter Artifact.is_jar es = []
  | Some p =>
      exists pre e post,
        pool es = (pre ++ e :: post)%list
        /\ p = Path.join dir (name e)
        /\ Forall (fun x => mtimeMs x < mtimeMs e) pre
        /\ Forall (fun x => mtimeMs x <= mtimeMs e) post
  end
  /\ (forall e, In e (pool es) ->
        In e es /\ isFile e = true
        /\ Text.endsWith ".jar" (Text.toLowerCase (name e)) = true)
  /\ (forall x, In x es -> Artifact.is_jar x = true ->
        Artifact.is_server_jar (name x) = true ->
        forall e, In e (pool es) <->
                  In e es /\ Artifact.is_jar e = true
                  /\ Artifact.is_server_jar (name e) = true)
  /\ ((forall x, In x es -> Artifact.is_jar x = true ->
         Artifact.is_server_jar (name x) = false) ->
      pool es = List.filter Artifact.is_jar es)
  /\ (forall n, StartScript.SERVER_JAR es = Some n ->
                Artifact.has_backup_marker n = false).
Proof.
  split; [|split; [|split; [|split; [|apply SERVER_JAR_no_marker]]]].
  - rewrite findExistingJar_pool.
    destruct (Artifact.sort_newest (pool es)) as [|e r] eqn:E.
    + apply pool_nil, sort_newest_nil, E.
    + destruct (sort_newest_head _ _ _ E) as (pre & post & H & Hpre & Hpost).
      exists pre, e, post. auto.
  - intros e. unfold pool.
    destruct (List.filter (fun e => Artifact.is_server_jar (name e)) _) eqn:E.
    + intros [Hin Hj]%filter_In. apply andb_prop in Hj. tauto.
    + rewrite <- E. intros [[Hin Hj]%filter_In _]%filter_In.
      apply andb_prop in Hj. tauto.
  - intros x Hx Hj Hs e. unfold pool.
    destruct (List.filter (fun e => Artifact.is_server_jar (name e)) _) eqn:E.
    + exfalso. assert (In x []) as [].
      rewrite <- E. apply filter_In. split; [apply filter_In; auto | exact Hs].
    + rewrite <- E, !filter_In. tauto.
  - intros H. unfold pool.
    destruct (List.filter (fun e => Artifact.is_server_jar (name e)) _) as [|y ys] eqn:E;
      [reflexivity|].
    exfalso. assert (In y (y :: ys)) as Hy by (left; reflexivity).
    rewrite <- E in Hy. apply filter_In in Hy as [[Hin Hj]%filter_In Hs].
    rewrite (H y Hin Hj) in Hs. discriminate.
Qed.

(** C7 as stated fails twice: a jar carrying the [.old] marker is
    chosen when it is the newest, and of two jars of the same time the
    one listed first is chosen, here the lexicographically smaller. *)
Lemma findExistingJar_marker_and_tie :
  (Artifact.findExistingJar ["srv"]
     (Some [Dirent "server.jar" true 1000; Dirent "server.old.jar" true 2000])
   = Some ["srv"; "server.old.jar"]
   /\ Artifact.has_backup_marker "server.old.jar" = true)
  /\ (Artifact.findExistingJar ["srv"]
        (Some [Dirent "a.jar" true 5; Dirent "b.jar" true 5])
      = Some ["srv"; "a.jar"]
      /\ String.ltb "a.jar" "b.jar" = true).
Proof. vm_compute. repeat split. Qed.

End Resolver.

(** ** The backup interval *)

Section Interval.

Lemma wrap64_range (z : Z) : - 2 ^ 63 <= Sh.wrap64 z < 2 ^ 63.
Proof. unfold Sh.wrap64. pose proof (Z.mod_pos_bound (z + 2 ^ 63) (2 ^ 64)). lia. Qed.

Lemma wrap64_small (z : Z) : - 2 ^ 63 <= z < 2 ^ 63 -> Sh.wrap64 z = z.
Proof. intros H. unfold Sh.wrap64. rewrite Z.mod_small; lia. Qed.

(** [test] reads back the decimal text of a 64-bit integer. *)
Lemma legal_number_of_Z (z : Z) :
  - 2 ^ 63 <= z < 2 ^ 63 -> Sh.legal_number (Text.of_Z z) = Some z.
Proof.
  intros Hz.
  assert (R : ((- 2 ^ 63 <=? z)%Z && (z <? 2 ^ 63)%Z)%bool = true).
  { apply andb_true_intro. split; [apply Z.leb_le | apply Z.ltb_lt]; lia. }
  destruct z as [|p|p].
  - reflexivity.
  - rewrite of_Z_pos.
    destruct (uint_text_head (Pos.to_uint p) (DecimalPos.Unsigned.to_uint_nonnil p))
      as (c & r & E & Hd & Hs & Hm & Hp).
    pose proof (read_digits_pos p) as RD. rewrite E in *.
    unfold Sh.legal_number.
    assert (Sh.skip_space (String c r) = String c r) as ->
      by (simpl; now rewrite Hs).
    assert (match String c r with
            | String "-"%char r0 => (true, r0) | String "+"%char r0 => (false, r0)
            | _ => (false, String c r) end = (false, String c r)) as ->.
    { destruct c as [[] [] [] [] [] [] [] []]; try reflexivity; congruence. }
    rewrite Hd, RD. cbn [Sh.skip_blanks]. now rewrite R.
  - rewrite of_Z_neg.
    destruct (uint_text_head (Pos.to_uint p) (DecimalPos.Unsigned.to_uint_nonnil p))
      as (c & r & E & Hd & Hs & Hm & Hp).
    pose proof (read_digits_pos p) as RD. rewrite E in *.
    unfold Sh.legal_number.
    change (Sh.skip_space (String "-" (String c r))) with (String "-" (String c r)).
    cbv iota beta. rewrite Hd, RD. cbn [Sh.skip_blanks].
    change (- Z.pos p) with (Z.neg p). now rewrite R.
Qed.

Variables (cfg : StartScript.Config) (now : Z) (d : disk).
Hypothesis enabled : StartScript.BACKUP_ON_STOP cfg = "TRUE".




(** A positive interval and a timestamp: due exactly when the time since
    the timestamp has reached the interval. *)
Lemma due_iff_elapsed (iv last : Z) :
  StartScript.parse_interval_to_seconds (StartScript.BACKUP_INTERVAL cfg)
  = Some (Text.of_Z iv) ->
  0 < iv < 2 ^ 63 ->
  last_backup d = Some last ->
  StartScript.should_backup_now cfg now d
  = Some (if (iv <=? Sh.wrap64 (now - last))%Z then 0 else 1).
Proof.
  intros Hp Hr Hl. unfold StartScript.should_backup_now.
  rewrite enabled, String.eqb_refl, Hp, Hl. cbn [negb].
  unfold Sh.test_le, Sh.test_ge.
  rewrite (legal_number_of_Z iv) by lia.
  rewrite (legal_number_of_Z (Sh.wrap64 (now - last))) by apply wrap64_range.
  change (Sh.legal_number "0") with (Some 0).
  cbv iota beta. rewrite (proj2 (Z.leb_gt iv 0)) by lia. reflexivity.
Qed.

End Interval.





(** ** Retention and archive names *)

Section Retention.

Global Instance ls_t_before_trans : Transitive BackupScript.ls_t_before.
Proof.
  intros [a x] [b y] [c z]. unfold BackupScript.ls_t_before. simpl.
  intros [H1|[H1 L1]] [H2|[H2 L2]]; [left; lia | left; lia | left; lia |].
  right. split; [lia|]. etrans; eassumption.
Qed.

Global Instance ls_t_before_total : Total BackupScript.ls_t_before.
Proof.
  intros [a x] [b y]. unfold BackupScript.ls_t_before. simpl.
  destruct (Z.lt_trichotomy (ar_mtime x) (ar_mtime y)) as [H|[H|H]]; [right; left; lia | | left; left; lia].
  destruct (total String.le a b); [left | right]; right; split; auto.
Qed.

Variables (w : string) (m : gmap string archive).

Let S := merge_sort BackupScript.ls_t_before
           (List.filter (fun nf => BackupScript.glob_backup w nf.1) (map_to_list m)).

Lemma ls_t_eq : BackupScript.ls_t w m = S.*1.
Proof. reflexivity. Qed.

Lemma sorted_elem (n : string) (a : archive) :
  (n, a) ∈ S <-> m !! n = Some a /\ BackupScript.glob_backup w n = true.
Proof.
  unfold S. rewrite merge_sort_Permutation, list_elem_of_In, filter_In,
    <- list_elem_of_In, elem_of_map_to_list. reflexivity.
Qed.

Lemma filter_sublist {A} (f : A -> bool) (l : list A) : List.filter f l `sublist_of` l.
Proof.
  induction l as [|x l IH]; simpl; [constructor|].
  destruct (f x); [apply sublist_skip | apply sublist_cons]; exact IH.
Qed.

Lemma sorted_NoDup : NoDup S.*1.
Proof.
  unfold S. rewrite merge_sort_Permutation.
  apply (sublist_NoDup _ ((map_to_list m).*1)); [apply NoDup_fst_map_to_list|].
  apply fmap_sublist, filter_sublist.
Qed.

Lemma sorted_strongly : StronglySorted BackupScript.ls_t_before S.
Proof. apply StronglySorted_merge_sort; apply _. Qed.

Lemma ls_t_elem (n : string) :
  n ∈ BackupScript.ls_t w m <-> is_Some (m !! n) /\ BackupScript.glob_backup w n = true.
Proof.
  rewrite ls_t_eq, list_elem_of_fmap. split.
  - intros ([n' a] & -> & H%sorted_elem). simpl. destruct H. eauto.
  - intros [[a Ha] Hg]. exists (n, a). split; [reflexivity|]. apply sorted_elem. auto.
Qed.

Lemma lookup_delete_all (l : list string) (n : string) :
  fold_right (fun k acc => delete k acc) m l !! n
  = if decide (n ∈ l) then None else m !! n.
Proof.
  induction l as [|k l IH]; simpl.
  - destruct (decide (n ∈ [])) as [H|]; [inversion H | reflexivity].
  - destruct (decide (k = n)) as [->|Hne].
    + rewrite lookup_delete_eq. destruct (decide (n ∈ n :: l)) as [|H]; [reflexivity|].
      exfalso. apply H. left.
    + rewrite lookup_delete_ne by exact Hne. rewrite IH.
      destruct (decide (n ∈ l)), (decide (n ∈ k :: l)) as [H|H]; try reflexivity.
      * exfalso. apply H. now right.
      * apply elem_of_cons in H as [->|]; contradiction.
Qed.

Lemma archives_of_elem (m' : gmap string archive) (n : string) :
  n ∈ archives_of w m' <-> is_Some (m' !! n) /\ BackupScript.glob_backup w n = true.
Proof.
  unfold archives_of. rewrite elem_of_dom. split.
  - intros [a [Ha Hg]%map_lookup_filter_Some]. split; [eauto | exact Hg].
  - intros [[a Ha] Hg]. exists a. apply map_lookup_filter_Some. auto.
Qed.

Lemma archives_of_ls_t : archives_of w m = list_to_set (BackupScript.ls_t w m).
Proof.
  apply set_eq. intros n. rewrite elem_of_list_to_set, archives_of_elem, ls_t_elem.
  reflexivity.
Qed.

Lemma archives_of_cleanup :
  archives_of w (BackupScript.cleanup w m) = list_to_set (take 10 (BackupScript.ls_t w m)).
Proof.
  apply set_eq. intros n.
  rewrite elem_of_list_to_set, archives_of_elem. unfold BackupScript.cleanup.
  rewrite lookup_delete_all.
  pose proof sorted_NoDup as ND. rewrite <- ls_t_eq in ND.
  rewrite <- (take_drop 10 (BackupScript.ls_t w m)) in ND.
  apply NoDup_app in ND as (_ & Hdisj & _).
  destruct (decide (n ∈ drop 10 (BackupScript.ls_t w m))) as [Hin|Hout].
  - split; [intros [[? [=]] _]|]. intros Ht. destruct (Hdisj n Ht Hin).
  - rewrite <- ls_t_elem. rewrite <- (take_drop 10 (BackupScript.ls_t w m)) at 1.
    rewrite elem_of_app. tauto.
Qed.

Lemma size_archives_cleanup :
  size (archives_of w (BackupScript.cleanup w m)) = Nat.min 10 (size (archives_of w m)).
Proof.
  pose proof sorted_NoDup as ND. rewrite <- ls_t_eq in ND.
  rewrite archives_of_cleanup, archives_of_ls_t.
  rewrite !size_list_to_set; [apply length_take | exact ND |].
  rewrite <- (take_drop 10 (BackupScript.ls_t w m)) in ND.
  apply NoDup_app in ND. tauto.
Qed.

Lemma removed_are_oldest (k n : string) :
  k ∈ archives_of w (BackupScript.cleanup w m) ->
  n ∈ archives_of w m -> n ∉ archives_of w (BackupScript.cleanup w m) ->
  exists ak an, m !! k = Some ak /\ m !! n = Some an
                /\ BackupScript.ls_t_before (k, ak) (n, an).
Proof.
  rewrite archives_of_cleanup, archives_of_ls_t, !elem_of_list_to_set.
  intros Hk Hn Hnot.
  assert (Hd : n ∈ drop 10 (BackupScript.ls_t w m)).
  { rewrite <- (take_drop 10 (BackupScript.ls_t w m)) in Hn.
    apply elem_of_app in Hn as [|]; [contradiction | assumption]. }
  rewrite ls_t_eq in Hk, Hd. rewrite <- fmap_take in Hk. rewrite <- fmap_drop in Hd.
  apply list_elem_of_fmap in Hk as ([k' ak] & -> & Hk).
  apply list_elem_of_fmap in Hd as ([n' an] & -> & Hd).
  pose proof sorted_strongly as SS. rewrite <- (take_drop 10 S) in SS.
  exists ak, an. split; [|split].
  - apply (sorted_elem k' ak). rewrite <- (take_drop 10 S). apply elem_of_app. now left.
  - apply (sorted_elem n' an). rewrite <- (take_drop 10 S). apply elem_of_app. now right.
  - exact (StronglySorted_app_1_elem_of _ _ _ _ _ SS Hk Hd).
Qed.

Lemma cleanup_other (n : string) :
  BackupScript.glob_backup w n = false ->
  BackupScript.cleanup w m !! n = m !! n.
Proof.
  intros Hg. unfold BackupScript.cleanup. rewrite lookup_delete_all.
  destruct (decide (n ∈ drop 10 (BackupScript.ls_t w m))) as [Hin|]; [|reflexivity].
  assert (n ∈ BackupScript.ls_t w m) as [_ H]%ls_t_elem; [|congruence].
  rewrite <- (take_drop 10 (BackupScript.ls_t w m)). apply elem_of_app. now right.
Qed.

Lemma cleanup_kept (n : string) (a : archive) :
  BackupScript.cleanup w m !! n = Some a -> m !! n = Some a.
Proof.
  unfold BackupScript.cleanup. rewrite lookup_delete_all.
  destruct (decide (n ∈ drop 10 (BackupScript.ls_t w m))); [discriminate | exact id].
Qed.

End Retention.

Section BackupClaims.

Lemma main_done (w : string) (env : BackupScript.Env) (d d' : disk) :
  BackupScript.main w env d = Some (0, d') ->
  backups d' = BackupScript.cleanup w (after_tar w env d).
Proof.
  unfold BackupScript.main, after_tar, backup_file.
  destruct (String.eqb w EmptyString); [discriminate|].
  destruct (negb (world_exists d)); [discriminate|].
  destruct (negb (BackupScript.plain_name w)); [discriminate|].
  destruct (BackupScript.tar_ok env); [|discriminate].
  destruct (forallb _ _); [|discriminate].
  intros [= <-]. reflexivity.
Qed.

(** C10, as amended.  After a successful run of [scripts/backup.sh] the
    world has its 10 newest archives left, or all of them when there were
    no more than 10: every archive removed is no newer than every archive
    kept (of two with the same time the one with the greater name goes
    first), an archive that is kept is kept as it was, and files of other
    names are not touched.  The start script's [do_backup] removes
    nothing. *)
Theorem backup_script_retention :
  (forall (w : string) (env : BackupScript.Env) (d d' : disk),
      BackupScript.main w env d = Some (0, d') ->
      size (archives_of w (backups d'))
      = Nat.min 10 (size (archives_of w (after_tar w env d)))
      /\ (forall k n,
            k ∈ archives_of w (backups d') ->
            n ∈ archives_of w (after_tar w env d) ->
            n ∉ archives_of w (backups d') ->
            exists ak an,
              after_tar w env d !! k = Some ak /\ after_tar w env d !! n = Some an
              /\ BackupScript.ls_t_before (k, ak) (n, an))
      /\ (forall n a, backups d' !! n = Some a -> after_tar w env d !! n = Some a)
      /\ (forall n, BackupScript.glob_backup w n = false ->
                    backups d' !! n = after_tar w env d !! n))
  /\ (forall (cfg : StartScript.Config) (env : StartScript.Env) (d : disk) (n : string),
      is_Some (backups d !! n) ->
      is_Some (backups (snd (StartScript.do_backup cfg env d)) !! n)).
Proof.
  split.
  - intros w env d d' H. apply main_done in H. rewrite H.
    split; [apply size_archives_cleanup|].
    split; [apply removed_are_oldest|].
    split; [apply cleanup_kept | apply cleanup_other].
  - intros cfg env d n Hn. unfold StartScript.do_backup.
    destruct (negb (world_exists d)); [exact Hn|].
    destruct (negb (StartScript.tar_ok env)); [exact Hn|].
    cbn [snd backups]. apply lookup_insert_is_Some'. now right.
Qed.

Lemma backup_script_retention_witness :
  BackupScript.main "Alpha" noon_backup eleven_script_archives
  = Some (0, Disk true 0
               (BackupScript.cleanup "Alpha"
                  (after_tar "Alpha" noon_backup eleven_script_archives)) None)
  /\ size (archives_of "Alpha"
             (BackupScript.cleanup "Alpha"
                (after_tar "Alpha" noon_backup eleven_script_archives)))
     = Nat.min 10 (size (archives_of "Alpha"
                           (after_tar "Alpha" noon_backup eleven_script_archives))).
Proof.
  assert (H : BackupScript.main "Alpha" noon_backup eleven_script_archives
              = Some (0, Disk true 0
                           (BackupScript.cleanup "Alpha"
                              (after_tar "Alpha" noon_backup eleven_script_archives))
                           None))
    by (vm_compute; reflexivity).
  split; [exact H|].
  exact (proj1 (proj1 backup_script_retention "Alpha" noon_backup
                  eleven_script_archives _ H)).
Defined.

(** C10 as stated fails for the start script: with ten archives of
    [Alpha] in the backup directory a successful [do_backup] leaves
    eleven. *)
Lemma do_backup_keeps_eleven :
  size (backups ten_start_archives) = 10%nat
  /\ fst (StartScript.do_backup (cfg_interval "24h") noon_start ten_start_archives)
     = Status 0
  /\ size (backups (snd (StartScript.do_backup (cfg_interval "24h") noon_start
                           ten_start_archives))) = 11%nat.
Proof. vm_compute. repeat split. Qed.

(** C9 fails on the code.  Two backups taken by the start script within
    one second write the same name: the directory holds one archive
    afterwards, and it is the second one.  [scripts/backup.sh] appends
    the time once today's archive exists, and two runs within one second
    then write the same name too: the directory holds today's archive
    and one more, again the second one. *)
Theorem same_second_backups_collide :
  (let d1 := snd (StartScript.do_backup (cfg_interval "24h") noon_start
                    (Disk true 0 ∅ None)) in
   let d2 := snd (StartScript.do_backup (cfg_interval "24h") noon_start
                    (world_changed d1)) in
   size (backups d1) = 1%nat /\ size (backups d2) = 1%nat
   /\ backups d1 !! "Alpha-20251101-120000.tar.gz" = Some (Archive 1761998400 0)
   /\ backups d2 !! "Alpha-20251101-120000.tar.gz" = Some (Archive 1761998400 1))
  /\ (let d0 := Disk true 0 {[ "Alpha_2025-11-01.tar.gz" := Archive 1761955200 0 ]} None in
      exists d1 d2,
        BackupScript.main "Alpha" noon_backup d0 = Some (0, d1)
        /\ BackupScript.main "Alpha" noon_backup (world_changed d1) = Some (0, d2)
        /\ size (backups d1) = 2%nat /\ size (backups d2) = 2%nat
        /\ backups d1 !! "Alpha_2025-11-01_12-00-00.tar.gz" = Some (Archive 1761998400 0)
        /\ backups d2 !! "Alpha_2025-11-01_12-00-00.tar.gz" = Some (Archive 1761998400 1)).
Proof.
  split.
  - vm_compute. repeat split.
  - eexists _, _. split; [vm_compute; reflexivity|].
    split; [vm_compute; reflexivity|]. vm_compute. repeat split.
Qed.

End BackupClaims.

(** ** What a route leaves alone *)

Lemma only_logs_refl (o : os) : only_logs o o.
Proof. repeat split. Qed.

Lemma only_logs_emit (e : event) (o o' : os) :
  match e with Spawn _ _ (Some _) => False | _ => True end ->
  only_logs o o' -> only_logs o (emit e o').
Proof.
  intros He (H1 & H2 & H3 & H4 & H5 & H6). repeat split; try assumption.
  now rewrite quiet_emit.
Qed.

Section StatusMore.

Variables (w : string) (o : os).
Let name := Text.trim w.

(** The status route reads and probes, nothing else, and it says
    [running] with the pid exactly when the record reads as a positive pid
    that can be signalled. *)
Lemma status_run :
  String.eqb name EmptyString = false ->
  exists o',
    run (StatusRoute.GET (Some w)) o
    = (match recorded_live o name with
       | Some p => JsonStatus true (Some p)
       | None => JsonStatus false None
       end, o')
    /\ only_logs o o'.
Proof.
  intros Hn. unfold recorded_live.
  destruct (files o !! pidFile o name) as [txt|] eqn:Hf.
  - destruct (Text.parseInt txt) as [p|] eqn:Hp.
    + destruct (Z.ltb_spec 0 p) as [Hpos|Hle]; cbn [andb].
      * destruct (bool_decide_reflect (p ∈ alive o)) as [Ha|Ha].
        -- rewrite (status_live w o txt p Hn Hf Hp Hpos Ha).
           eexists. split; [reflexivity|]. apply only_logs_emit; [exact I|].
           apply only_logs_refl.
        -- destruct (status_stale w o txt Hn Hf) as (o' & H & H1 & H2).
           { unfold stale. rewrite Hp. now right. }
           exists o'. split; [exact H|].
           revert H. unfold run, StatusRoute.GET.
           change (default EmptyString (Some w)) with w. fold name. rewrite Hn.
           unfold bind at 1. unfold get.
           unfold try_catch at 1. unfold bind at 1, readFile.
           rewrite Hf, Hp. unfold bind at 1, isAlive.
           destruct (Z.leb_spec p 0); [lia|].
           unfold try_catch at 1, bind at 1, process_kill at 1.
           destruct (decide (p ∈ alive o)); [contradiction|].
           intros [= <-]. apply only_logs_emit; [exact I | apply only_logs_refl].
      * exists o. split; [|apply only_logs_refl]. unfold run, StatusRoute.GET.
        change (default EmptyString (Some w)) with w. fold name. rewrite Hn.
        unfold bind at 1. unfold get.
        unfold try_catch at 1. unfold bind at 1, readFile.
        rewrite Hf, Hp. unfold bind at 1, isAlive.
        destruct (Z.leb_spec p 0); [reflexivity | lia].
    + exists o. split; [|apply only_logs_refl]. unfold run, StatusRoute.GET.
      change (default EmptyString (Some w)) with w. fold name. rewrite Hn.
      unfold bind at 1. unfold get.
      unfold try_catch at 1. unfold bind at 1, readFile.
      rewrite Hf, Hp. reflexivity.
  - exists o. split; [|apply only_logs_refl]. unfold run, StatusRoute.GET.
    change (default EmptyString (Some w)) with w. fold name. rewrite Hn.
    unfold bind at 1. unfold get.
    unfold try_catch at 1. unfold bind at 1, readFile.
    rewrite Hf. reflexivity.
Qed.

End StatusMore.

Section StopMore.

Variable env : StopRoute.Env.
Variables (w : string) (o : os).
Let name := Text.trim w.
Let pfile := pidFile o name.
Hypothesis nonblank : String.eqb name EmptyString = false.

(** Stopping a world that has no record, whatever its name. *)
Lemma stop_absent :
  files o !! pfile = None ->
  run (StopRoute.POST env (Some w)) o
  = (JsonAlreadyStopped "No running server found (no PID file).", o).
Proof.
  intros Hf. unfold run, StopRoute.POST.
  change (default EmptyString (Some w)) with w. fold name. rewrite nonblank.
  unfold bind, get, try_catch, readFile, ret. fold pfile. rewrite Hf. reflexivity.
Qed.

(** The process is gone by the time it is signalled. *)
Lemma stop_vanished_run (txt : string) (pid : Z) :
  files o !! pfile = Some txt ->
  Text.parseInt txt = Some pid -> 0 < pid -> pid ∈ alive o ->
  StopRoute.vanishes env = true ->
  run (StopRoute.POST env (Some w)) o
  = (JsonAlreadyStopped "Process already exited.",
     emit (Unlink pfile)
       (with_files (delete pfile (files o))
          (emit (Kill pid SIGTERM)
             (with_alive (alive o ∖ {[pid]}) (emit (Kill pid Sig0) o))))).
Proof.
  intros Hf Hp Hpos Ha Hv. unfold run, StopRoute.POST.
  change (default EmptyString (Some w)) with w. fold name. rewrite nonblank.
  unfold bind at 1. unfold get. fold pfile.
  unfold bind at 1. unfold try_catch at 1. unfold bind at 1, readFile.
  rewrite Hf. unfold ret at 1. rewrite Hp.
  unfold bind at 1, isAlive.
  destruct (Z.leb_spec pid 0); [lia|].
  unfold try_catch at 1, bind at 1, process_kill at 1.
  destruct (decide (pid ∈ alive o)); [|contradiction].
  unfold ret at 1. cbn [negb]. rewrite Hv.
  unfold bind at 1, modify at 1. cbn [default from_option id].
  unfold bind at 1, try_catch at 1, bind at 1, process_kill at 1.
  cbn [alive with_alive emit].
  destruct (decide (pid ∈ alive o ∖ {[pid]})) as [Hin|_].
  { apply elem_of_difference in Hin as [_ Hn]. exfalso. apply Hn.
    apply elem_of_singleton. reflexivity. }
  unfold ret at 1. cbn [negb].
  unfold bind at 1, try_catch at 1, unlink at 1.
  cbn [files emit with_alive]. rewrite Hf. reflexivity.
Qed.

(** Whatever it answers, the stop route leaves the world without a
    record, touches no other file, and creates no process. *)
Lemma stop_effect (r : response) (o' : os) :
  run (StopRoute.POST env (Some w)) o = (r, o') ->
  files o' = delete pfile (files o)
  /\ dirs o' = dirs o /\ cwd o' = cwd o /\ in_use o' = in_use o
  /\ alive o' ⊆ alive o
  /\ spawn_count (trace o') = spawn_count (trace o).
Proof.
  destruct (files o !! pfile) as [txt|] eqn:Hf.
  2:{ rewrite (stop_absent Hf). intros [= <- <-].
      rewrite delete_id by exact Hf. repeat split; try reflexivity. }
  destruct (Text.parseInt txt) as [pid|] eqn:Hp.
  2:{ destruct (stop_stale env w o txt nonblank Hf) as (o1 & H & Hfiles & Hal).
      { unfold stale. now rewrite Hp. }
      rewrite H. intros [= <- <-]. revert H. unfold run, StopRoute.POST.
      change (default EmptyString (Some w)) with w. fold name. rewrite nonblank.
      unfold bind at 1. unfold get. fold pfile.
      unfold bind at 1. unfold try_catch at 1. unfold bind at 1, readFile.
      rewrite Hf. unfold ret at 1. rewrite Hp. unfold bind at 1, isAlive, ret at 1.
      cbn [negb]. unfold bind at 1, try_catch at 1, unlink. rewrite Hf.
      intros [= <-]. repeat split; try reflexivity.
      cbn. rewrite spawn_count_app. cbn. lia. }
  destruct (decide (0 < pid /\ pid ∈ alive o)) as [[Hpos Ha]|Hn].
  - destruct (StopRoute.vanishes env) eqn:Hv.
    + rewrite (stop_vanished_run txt pid Hf Hp Hpos Ha Hv). intros [= <- <-].
      cbn [files dirs cwd in_use alive trace emit with_files with_alive].
      repeat split; try reflexivity.
      * apply subseteq_difference_l. reflexivity.
      * rewrite !spawn_count_app. cbn. lia.
    + rewrite (stop_live env w o txt pid nonblank Hf Hp Hpos Ha Hv). intros [= <- <-].
      cbn [files dirs cwd in_use alive trace emit with_files with_alive].
      repeat split; try reflexivity.
      rewrite !spawn_count_app. cbn. lia.
  - unfold run, StopRoute.POST.
    change (default EmptyString (Some w)) with w. fold name. rewrite nonblank.
    unfold bind at 1. unfold get. fold pfile.
    unfold bind at 1. unfold try_catch at 1. unfold bind at 1, readFile.
    rewrite Hf. unfold ret at 1. rewrite Hp. unfold bind at 1, isAlive.
    destruct (Z.leb_spec pid 0).
    + unfold ret at 1. cbn [negb]. unfold bind at 1, try_catch at 1, unlink.
      rewrite Hf. intros [= <- <-]. repeat split; try reflexivity.
      cbn. rewrite spawn_count_app. cbn. lia.
    + unfold try_catch at 1, bind at 1, process_kill at 1.
      destruct (decide (pid ∈ alive o)); [exfalso; apply Hn; split; [lia|assumption]|].
      unfold ret at 1. cbn [negb]. unfold bind at 1, try_catch at 1, unlink.
      rewrite files_emit, Hf. intros [= <- <-]. repeat split; try reflexivity.
      cbn. rewrite !spawn_count_app. cbn. lia.
Qed.

End StopMore.

Section PathFacts.

Lemma all_name_chars_app (a b : string) :
  World.all_name_chars a = true -> World.all_name_chars b = true ->
  World.all_name_chars (a +:+ b) = true.
Proof.
  induction a as [|c r IH]; simpl; [auto|].
  intros [Hc Hr]%andb_prop Hb. rewrite Hc. simpl. auto.
Qed.

Lemma pid_name_valid (w : string) :
  World.validateWorldName w = true ->
  World.validateWorldName (w +:+ ".pid") = true
  /\ w +:+ ".pid" <> "." /\ w +:+ ".pid" <> "..".
Proof.
  intros Hv. pose proof (validateWorldName_chars w Hv) as Hc.
  destruct w as [|c r]; [discriminate|]. split; [|split].
  - change (World.all_name_chars (String c r +:+ ".pid") = true).
    apply all_name_chars_app; [exact Hc | reflexivity].
  - destruct r; discriminate.
  - destruct r as [|c' [|c'' r'']]; discriminate.
Qed.

(** The pid record of a valid name is a file of the pid directory, which
    is a directory of the repository root. *)
Lemma pidFile_valid (o : os) (w : string) :
  World.validateWorldName w = true ->
  pidFile o w = (ROOT_DIR o ++ [".mc-pids"; w +:+ ".pid"])%list.
Proof.
  intros Hv. destruct (pid_name_valid w Hv) as (H1 & H2 & H3).
  unfold pidFile, PID_DIR. rewrite (join_valid (ROOT_DIR o) ".mc-pids") by
    first [reflexivity | discriminate].
  rewrite join_valid by assumption. now rewrite <- app_assoc.
Qed.

Lemma self_in_ancestors (p : path) : p ∈ Path.ancestors p.
Proof.
  unfold Path.ancestors. apply list_elem_of_In, in_map_iff.
  exists (List.length p). split; [apply firstn_all|].
  apply in_seq. lia.
Qed.

Lemma removelast_snoc {A} (l : list A) (x : A) : removelast (l ++ [x]) = l.
Proof. apply removelast_last. Qed.

End PathFacts.

Section StartStages.

Lemma check_passes (p : path) (o1 : os) :
  match files o1 !! p with Some txt => stale_at_start o1 txt | None => True end ->
  exists o2,
    try_catch
      (let* txt := readFile p
       in match Text.parseInt txt with
          | Some existing =>
              if (existing =? 0)%Z then ret false else StartRoute.isAlive existing
          | None => ret false
          end)
      (fun _ : string => ret false) o1 = (Return false, o2)
    /\ only_logs o1 o2.
Proof.
  intros H. unfold try_catch, bind at 1, readFile.
  destruct (files o1 !! p) as [txt|]; [|exists o1; split; [reflexivity | apply only_logs_refl]].
  unfold stale_at_start in H.
  destruct (Text.parseInt txt) as [z|];
    [|exists o1; split; [reflexivity | apply only_logs_refl]].
  destruct (Z.eqb_spec z 0);
    [exists o1; split; [reflexivity | apply only_logs_refl]|].
  unfold StartRoute.isAlive, try_catch, bind, process_kill.
  destruct (decide (z ∈ alive o1)); [destruct H; contradiction|].
  eexists. split; [reflexivity|]. apply only_logs_emit; [exact I | apply only_logs_refl].
Qed.

Lemma port_stage (eph : option Z) (port : Z) (o4 : os) :
  exists o5,
    try_catch
      (let* res := Port.findAvailablePort eph port in ret (Some res))
      (fun _ : string => ret None) o4 = (Return (pick_port eph port o4), o5)
    /\ only_logs o4 o5.
Proof.
  unfold try_catch, bind at 1, Port.findAvailablePort, bind at 1,
    Port.checkPortAvailable, pick_port.
  destruct (net_listen eph port o4) eqn:E.
  - eexists. split; [reflexivity|]. repeat apply only_logs_emit; try exact I.
    apply only_logs_refl.
  - unfold bind at 1, Port.getEphemeralPort.
    assert (net_listen eph 0 (emit (Listen port) o4) = net_listen eph 0 o4) as ->
      by reflexivity.
    destruct (net_listen eph 0 o4); (eexists; split; [reflexivity|]);
      repeat apply only_logs_emit; try exact I; apply only_logs_refl.
  - eexists. split; [reflexivity | apply only_logs_refl].
Qed.

Lemma pick_port_logs (eph : option Z) (port : Z) (o o' : os) :
  in_use o' = in_use o -> pick_port eph port o' = pick_port eph port o.
Proof. intros H. unfold pick_port, net_listen. now rewrite H. Qed.

End StartStages.

Lemma bind_ret_eq {A B} (m : M A) (k : A -> M B) (o o1 : os) (a : A) :
  m o = (Return a, o1) -> bind m k o = k a o1.
Proof. unfold bind. now intros ->. Qed.

Lemma bind_throw_eq {A B} (m : M A) (k : A -> M B) (o o1 : os) (e : string) :
  m o = (Throw e, o1) -> bind m k o = (Throw e, o1).
Proof. unfold bind. now intros ->. Qed.

Section StartMore.

Variable env : StartRoute.Env.
Variables (body : StartRoute.Body) (o : os).
Let name := Text.trim (default EmptyString (StartRoute.worldName body)).
Let pfile := pidFile o name.
Let requested := default (Int 25565) (StartRoute.port body).
Let memory := default "4G" (StartRoute.memory body).
Let worldPath := Path.join (WORLDS_DIR o) name.
Let targetJarDir := StartRoute.resolveJarDir o (StartRoute.jarDir body).

Hypothesis nonblank : String.eqb name EmptyString = false.
Hypothesis good_port : StartRoute.bad_port requested = false.
Hypothesis free : no_conflict o name.

(** The handler in stages: once the name and the port have passed and no
    live record stands in the way, the pid and world directories are made
    and nothing else has changed ([o3]); the jar is resolved from there;
    an exception of that step leaves the handler, a jar leads on to the
    port and the launch. *)
Lemma start_stages :
  exists o3, prepared o name o3
  /\ (forall e o4, jar_stage env body o o3 = (Throw e, o4) ->
        run (StartRoute.POST env body) o = (Uncaught e, o4))
  /\ (forall j o4, jar_stage env body o o3 = (Return j, o4) ->
      exists o5, only_logs o4 o5 /\
      run (StartRoute.POST env body) o =
        match pick_port (StartRoute.ephemeral env) (StartRoute.port_value requested) o4 with
        | None => (Text 503 "Unable to allocate a free port.", o5)
        | Some (c, a) =>
            match StartRoute.child env with
            | StartRoute.SpawnThrows e => (Text 500 ("Error: " +:+ e), o5)
            | StartRoute.Child pid =>
                let o6 := spawned (launch_args memory j worldPath c) pid o5 in
                if decide (removelast pfile ∈ dirs o5)
                then (JsonStarted (Started name pid memory j targetJarDir
                                     (StartRoute.port_value requested) c a),
                      emit (WriteFile pfile (Text.String_ pid))
                        (with_files (<[pfile := Text.String_ pid]> (files o6)) o6))
                else (Text 500 ("Error: " +:+ "ENOENT"), o6)
            end
        end).
Proof.
  destruct (check_passes pfile (after_ensure_pid_dir o)) as (o2 & H2 & L2).
  { exact free. }
  set (o3 := emit (Mkdir worldPath)
               (with_dirs (dirs o2 ∪ list_to_set (Path.ancestors worldPath)) o2)).
  assert (P3 : prepared o name o3).
  { destruct L2 as (a1 & a2 & a3 & a4 & a5 & a6).
    unfold prepared. subst o3.
    rewrite cwd_emit, files_emit, alive_emit, dirs_emit.
    cbn [cwd files alive in_use dirs with_dirs emit].
    rewrite quiet_emit by exact I. cbn [trace with_dirs].
    rewrite a1, a2, a3, a4, a5, a6. unfold after_ensure_pid_dir.
    cbn [cwd files alive in_use dirs with_dirs emit]. rewrite quiet_emit by exact I.
    repeat split; reflexivity. }
  exists o3. split; [exact P3|].
  assert (Pre :
     exists k, StartRoute.POST env body o = bind (jar_stage env body o) k o3 /\
       forall j o4, k j o4 =
         bind (try_catch
                 (let* res := Port.findAvailablePort (StartRoute.ephemeral env)
                                (StartRoute.port_value requested) in ret (Some res))
                 (fun _ => ret None))
           (fun picked => match picked with
              | None => ret (Text 503 "Unable to allocate a free port.")
              | Some (chosenPort, autoPicked) =>
                  try_catch
                    (let* pid :=
                       match StartRoute.child env with
                       | StartRoute.SpawnThrows e => throw e
                       | StartRoute.Child pid =>
                           modify (fun o' => spawned (launch_args memory j worldPath chosenPort) pid o') ;;
                           ret pid
                       end in
                     writeFile pfile (Text.String_ pid) ;;
                     ret (JsonStarted
                            (Started name pid memory j targetJarDir
                               (StartRoute.port_value requested) chosenPort autoPicked)))
                    (fun e => ret (Text 500 ("Error: " +:+ e)))
              end) o4).
  { eexists. split.
    - unfold StartRoute.POST. fold name. rewrite nonblank. fold requested.
      rewrite good_port. fold memory.
      rewrite (bind_ret_eq get _ o o o eq_refl).
      rewrite (bind_ret_eq (ensureDir (PID_DIR o)) _ o (after_ensure_pid_dir o) tt eq_refl).
      fold pfile. rewrite (bind_ret_eq _ _ _ _ _ H2).
      fold worldPath.
      rewrite (bind_ret_eq (ensureDir worldPath) _ o2 o3 tt eq_refl).
      reflexivity.
    - intros j o4. reflexivity. }
  destruct Pre as (k & Hk & Hrest).
  split.
  - intros e o4 Hj. unfold run. rewrite Hk, (bind_throw_eq _ _ _ _ _ Hj). reflexivity.
  - intros j o4 Hj.
    destruct (port_stage (StartRoute.ephemeral env) (StartRoute.port_value requested) o4)
      as (o5 & H5 & L5).
    exists o5. split; [exact L5|].
    unfold run. rewrite Hk, (bind_ret_eq _ _ _ _ _ Hj), Hrest.
    rewrite (bind_ret_eq _ _ _ _ _ H5).
    destruct (pick_port _ _ o4) as [[c a]|]; [|reflexivity].
    unfold try_catch.
    destruct (StartRoute.child env) as [e|pid]; [reflexivity|].
    unfold bind at 1. unfold bind at 1, modify at 1. unfold ret at 1.
    unfold bind at 1, writeFile at 1.
    assert (dirs (spawned (launch_args memory j worldPath c) pid o5) = dirs o5) as ->
      by (destruct pid; reflexivity).
    destruct (decide _); reflexivity.
Qed.

Lemma jar_stage_local (j : path) (o3 : os) :
  local_jar env body o = Some j -> jar_stage env body o o3 = (Return j, o3).
Proof.
  unfold local_jar, jar_stage. cbv zeta.
  destruct (negb _); [now intros [= <-]|]. now intros ->.
Qed.

Lemma start_outcome (j : path) :
  local_jar env body o = Some j ->
  exists o5, prepared o name o5 /\
    run (StartRoute.POST env body) o =
      match pick_port (StartRoute.ephemeral env) (StartRoute.port_value requested) o with
      | None => (Text 503 "Unable to allocate a free port.", o5)
      | Some (c, a) =>
          match StartRoute.child env with
          | StartRoute.SpawnThrows e => (Text 500 ("Error: " +:+ e), o5)
          | StartRoute.Child pid =>
              let o6 := spawned (launch_args memory j worldPath c) pid o5 in
              if decide (removelast pfile ∈ dirs o5)
              then (JsonStarted (Started name pid memory j targetJarDir
                                   (StartRoute.port_value requested) c a),
                    emit (WriteFile pfile (Text.String_ pid))
                      (with_files (<[pfile := Text.String_ pid]> (files o6)) o6))
              else (Text 500 ("Error: " +:+ "ENOENT"), o6)
          end
      end.
Proof.
  intros Hj. destruct start_stages as (o3 & P3 & _ & Hok).
  destruct (Hok j o3 (jar_stage_local j o3 Hj)) as (o5 & L5 & R).
  exists o5. split.
  - destruct P3 as (a1 & a2 & a3 & a4 & a5 & a6).
    destruct L5 as (b1 & b2 & b3 & b4 & b5 & b6).
    unfold prepared. rewrite b1, b2, b3, b4, b5, b6. auto 10.
  - rewrite R. rewrite (pick_port_logs _ _ o o3); [reflexivity|].
    apply P3.
Qed.

End StartMore.

(** ** What a start does, path by path *)

Section StartPaths.

Variable env : StartRoute.Env.
Variables (body : StartRoute.Body) (o : os).
Let requested := default (Int 25565) (StartRoute.port body).
Let memory := default "4G" (StartRoute.memory body).

Lemma PID_DIR_snoc : PID_DIR o = (ROOT_DIR o ++ [".mc-pids"])%list.
Proof. unfold PID_DIR. apply join_valid; first [reflexivity | discriminate]. Qed.

Lemma pid_dir_prepared (w : string) (o5 : os) :
  World.validateWorldName w = true -> prepared o w o5 ->
  removelast (pidFile o w) ∈ dirs o5.
Proof.
  intros Hv (_ & _ & _ & _ & _ & Hd).
  rewrite (pidFile_valid o w Hv), Hd.
  change (ROOT_DIR o ++ [".mc-pids"; w +:+ ".pid"])%list
    with (ROOT_DIR o ++ [".mc-pids"] ++ [w +:+ ".pid"])%list.
  rewrite app_assoc, removelast_snoc, <- PID_DIR_snoc.
  apply elem_of_union_l, elem_of_union_r, elem_of_list_to_set, self_in_ancestors.
Qed.

(** X7. A start that gets through with a jar it finds: for a name of
    the validated alphabet with no live record, no jar named in the
    request and one found by [findExistingJar] in the target directory,
    a port to bind and a child process, the answer carries the name, the
    pid, the memory, the jar found and the port; the record holds the
    pid's decimal text, the pid is alive, the world directory exists, and
    [java] was launched with the same memory for [-Xmx] and [-Xms], the
    path of the jar found, the world directory and the chosen port. *)
Theorem start_launches (w : string) (j : path) (c : Z) (a : bool) (p : Z) :
  StartRoute.worldName body = Some w ->
  World.validateWorldName w = true ->
  StartRoute.bad_port requested = false ->
  no_conflict o w ->
  default EmptyString (StartRoute.serverJar body) = EmptyString ->
  Artifact.findExistingJar (StartRoute.resolveJarDir o (StartRoute.jarDir body))
    (StartRoute.readdir env (StartRoute.resolveJarDir o (StartRoute.jarDir body)))
  = Some j ->
  pick_port (StartRoute.ephemeral env) (StartRoute.port_value requested) o = Some (c, a) ->
  StartRoute.child env = StartRoute.Child (Some p) ->
  exists o',
    run (StartRoute.POST env body) o
    = (JsonStarted (Started w (Some p) memory j
                      (StartRoute.resolveJarDir o (StartRoute.jarDir body))
                      (StartRoute.port_value requested) c a), o')
    /\ files o' = <[pidFile o w := Text.of_Z p]> (files o)
    /\ alive o' = {[p]} ∪ alive o
    /\ Path.join (WORLDS_DIR o) w ∈ dirs o'
    /\ In (Spawn "java"
             [ "-Xmx" +:+ memory; "-Xms" +:+ memory; "-jar"; Path.to_string j; "nogui";
               "--world"; Path.to_string (Path.join (WORLDS_DIR o) w);
               "--port"; Text.of_Z c ] (Some p))
          (trace o').
Proof.
  intros Hw Hv Hb Hfree Hsj Hfound Hp Hc.
  assert (Hj : local_jar env body o = Some j).
  { unfold local_jar. rewrite Hsj. exact Hfound. }
  assert (Hn : Text.trim (default EmptyString (StartRoute.worldName body)) = w).
  { rewrite Hw. apply trim_valid, Hv. }
  destruct (start_outcome env body o) with (j := j) as (o5 & P & R).
  { rewrite Hn. apply valid_not_empty, Hv. }
  { exact Hb. }
  { rewrite Hn. exact Hfree. }
  { exact Hj. }
  rewrite Hn in P, R. fold requested in R. rewrite Hp, Hc in R. cbv zeta in R.
  destruct (decide _) as [_|N] in R; [|destruct N; apply pid_dir_prepared; assumption].
  eexists. split; [exact R|].
  destruct P as (P1 & P2 & P3 & P4 & P5 & P6).
  rewrite files_emit, alive_emit, dirs_emit, trace_emit.
  cbn [files alive dirs trace with_files]. unfold spawned.
  rewrite files_emit, alive_emit, dirs_emit, trace_emit.
  cbn [files alive dirs with_alive Text.String_]. rewrite P2, P3, P6.
  split; [reflexivity|]. split; [reflexivity|].
  split; [apply elem_of_union_r, elem_of_list_to_set, self_in_ancestors|].
  apply in_or_app. left. apply in_or_app. right. left. reflexivity.
Qed.

(** X8. A start with no jar named and none found downloads the latest
    release into the target directory as [server-<id>.jar] and launches
    that: the answer names the downloaded jar, the jar's bytes and the
    pid record are both on disk, and the target directory exists. *)
Theorem start_downloads (w id buf : string) (c : Z) (a : bool) (p : Z) :
  StartRoute.worldName body = Some w ->
  World.validateWorldName w = true ->
  StartRoute.bad_port requested = false ->
  no_conflict o w ->
  local_jar env body o = None ->
  StartRoute.download env = Some (id, buf) ->
  World.all_name_chars id = true ->
  pick_port (StartRoute.ephemeral env) (StartRoute.port_value requested) o = Some (c, a) ->
  StartRoute.child env = StartRoute.Child (Some p) ->
  let dir := StartRoute.resolveJarDir o (StartRoute.jarDir body) in
  let jar := (dir ++ ["server-" +:+ id +:+ ".jar"])%list in
  exists o',
    run (StartRoute.POST env body) o
    = (JsonStarted (Started w (Some p) memory jar dir
                      (StartRoute.port_value requested) c a), o')
    /\ files o' = <[pidFile o w := Text.of_Z p]> (<[jar := buf]> (files o))
    /\ alive o' = {[p]} ∪ alive o
    /\ dir ∈ dirs o'.
Proof.
  intros Hw Hv Hb Hfree Hj Hd Hid Hp Hc dir jar.
  assert (Hn : Text.trim (default EmptyString (StartRoute.worldName body)) = w).
  { rewrite Hw. apply trim_valid, Hv. }
  destruct (start_stages env body o) as (o3 & P & _ & Hok).
  { rewrite Hn. apply valid_not_empty, Hv. }
  { exact Hb. }
  { rewrite Hn. exact Hfree. }
  rewrite Hn in P, Hok.
  pose proof (pid_dir_prepared w o3 Hv P) as Hpd.
  destruct P as (P1 & P2 & P3 & P4 & P5 & P6).
  assert (Hjar : Path.join dir ("server-" +:+ id +:+ ".jar") = jar).
  { apply join_valid.
    - change (World.all_name_chars ("server-" +:+ id +:+ ".jar") = true).
      apply (all_name_chars_app "server-"); [reflexivity|].
      apply all_name_chars_app; [exact Hid | reflexivity].
    - discriminate.
    - discriminate. }
  set (o3' := emit (Mkdir dir) (with_dirs (dirs o3 ∪ list_to_set (Path.ancestors dir)) o3)).
  set (o4 := emit (WriteFile jar buf) (with_files (<[jar := buf]> (files o3')) o3')).
  assert (J : jar_stage env body o o3 = (Return jar, o4)).
  { unfold local_jar in Hj. unfold jar_stage. cbv zeta. fold dir in Hj |- *.
    destruct (negb _); [discriminate|]. rewrite Hj.
    unfold StartRoute.downloadLatestServerJar. rewrite Hd, Hjar.
    rewrite (bind_ret_eq (ensureDir dir) _ o3 o3' tt eq_refl).
    unfold bind at 1, writeFile at 1.
    destruct (decide _) as [_|N]; [reflexivity|].
    destruct N. unfold jar. rewrite removelast_snoc. subst o3'.
    rewrite dirs_emit. cbn [dirs with_dirs].
    apply elem_of_union_r, elem_of_list_to_set, self_in_ancestors. }
  destruct (Hok jar o4 J) as (o5 & L & R).
  destruct L as (L1 & L2 & L3 & L4 & L5 & L6).
  fold requested in R.
  rewrite (pick_port_logs _ _ o o4) in R by (subst o4 o3'; exact P4).
  rewrite Hp, Hc in R. cbv zeta in R.
  assert (D5 : dirs o5 = dirs o3 ∪ list_to_set (Path.ancestors dir)).
  { rewrite L3. reflexivity. }
  destruct (decide _) as [_|N] in R.
  2:{ destruct N. rewrite D5. apply elem_of_union_l, Hpd. }
  eexists. split; [exact R|].
  rewrite files_emit, alive_emit, dirs_emit.
  cbn [files alive dirs with_files]. unfold spawned.
  rewrite files_emit, alive_emit, dirs_emit.
  cbn [files alive dirs with_alive Text.String_]. rewrite L2, L4, D5.
  subst o4 o3'. rewrite files_emit, alive_emit. cbn [files alive with_files].
  rewrite files_emit, alive_emit. cbn [files alive with_dirs]. rewrite P2, P3.
  split; [reflexivity|]. split; [reflexivity|].
  apply elem_of_union_r, elem_of_list_to_set, self_in_ancestors.
Qed.

End StartPaths.

Lemma start_launches_witness :
  StartRoute.worldName body_alpha = Some "Alpha"
  /\ World.validateWorldName "Alpha" = true
  /\ no_conflict machine0 "Alpha"
  /\ default EmptyString (StartRoute.serverJar body_alpha) = EmptyString
  /\ Artifact.findExistingJar ["srv"; "mc"] (StartRoute.readdir env0 ["srv"; "mc"])
     = Some ["srv"; "mc"; "server.jar"]
  /\ exists o',
       run (StartRoute.POST env0 body_alpha) machine0
       = (JsonStarted (Started "Alpha" (Some 4242) "4G" ["srv"; "mc"; "server.jar"]
                         ["srv"; "mc"] 25565 25565 false), o')
       /\ files o' = <[pidFile machine0 "Alpha" := "4242"]> (files machine0)
       /\ alive o' = {[4242]} ∪ alive machine0
       /\ Path.join (WORLDS_DIR machine0) "Alpha" ∈ dirs o'
       /\ In (Spawn "java"
                [ "-Xmx4G"; "-Xms4G"; "-jar"; "/srv/mc/server.jar"; "nogui";
                  "--world"; "/srv/mc/worlds/Alpha"; "--port"; "25565" ] (Some 4242))
             (trace o').
Proof.
  assert (F : no_conflict machine0 "Alpha") by exact I.
  split; [reflexivity|]. split; [reflexivity|]. split; [exact F|].
  split; [reflexivity|]. split; [reflexivity|].
  apply (start_launches env0 body_alpha machine0 "Alpha" ["srv"; "mc"; "server.jar"]
           25565 false 4242 eq_refl eq_refl eq_refl F eq_refl eq_refl eq_refl eq_refl).
Defined.

Lemma start_downloads_witness :
  StartRoute.worldName body_alpha = Some "Alpha"
  /\ World.validateWorldName "Alpha" = true
  /\ no_conflict machine0 "Alpha"
  /\ local_jar env_online body_alpha machine0 = None
  /\ World.all_name_chars "1.21.4" = true
  /\ exists o',
       run (StartRoute.POST env_online body_alpha) machine0
       = (JsonStarted (Started "Alpha" (Some 4242) "4G"
                         ["srv"; "mc"; "server-1.21.4.jar"]
                         ["srv"; "mc"] 25565 25565 false), o')
       /\ files o' = <[pidFile machine0 "Alpha" := "4242"]>
                       (<[ ["srv"; "mc"; "server-1.21.4.jar"] := "jar bytes"]> (files machine0))
       /\ alive o' = {[4242]} ∪ alive machine0
       /\ ["srv"; "mc"] ∈ dirs o'.
Proof.
  assert (F : no_conflict machine0 "Alpha") by exact I.
  split; [reflexivity|]. split; [reflexivity|]. split; [exact F|].
  split; [reflexivity|]. split; [reflexivity|].
  apply (start_downloads env_online body_alpha machine0 "Alpha" "1.21.4" "jar bytes"
           25565 false 4242 eq_refl eq_refl eq_refl F eq_refl eq_refl eq_refl
           eq_refl eq_refl).
Defined.

Section StartFailures.

Variable env : StartRoute.Env.
Variables (body : StartRoute.Body) (o : os).
Let name := Text.trim (default EmptyString (StartRoute.worldName body)).
Let pfile := pidFile o name.
Let requested := default (Int 25565) (StartRoute.port body).
Let worldPath := Path.join (WORLDS_DIR o) name.

Hypothesis nonblank : String.eqb name EmptyString = false.
Hypothesis good_port : StartRoute.bad_port requested = false.
Hypothesis free : no_conflict o name.

(** X9. A start whose record cannot be written: when the directory the pid
    record should go into is not there once the pid and world directories
    have been made (a name with a directory part), the child has been
    created and runs, the answer is 500, and no record of it is kept. *)
Theorem start_unrecorded (j : path) (c : Z) (a : bool) (p : Z) :
  local_jar env body o = Some j ->
  pick_port (StartRoute.ephemeral env) (StartRoute.port_value requested) o = Some (c, a) ->
  StartRoute.child env = StartRoute.Child (Some p) ->
  removelast pfile ∉ (dirs o ∪ list_to_set (Path.ancestors (PID_DIR o))
                             ∪ list_to_set (Path.ancestors worldPath)) ->
  exists msg o',
    run (StartRoute.POST env body) o = (Text 500 msg, o')
    /\ files o' = files o
    /\ p ∈ alive o'
    /\ spawn_count (trace o') = S (spawn_count (trace o)).
Proof.
  intros Hj Hp Hc Hd.
  destruct (start_outcome env body o nonblank good_port free j Hj) as (o5 & P & R).
  fold requested in R. rewrite Hp, Hc in R. cbv zeta in R.
  destruct P as (P1 & P2 & P3 & P4 & P5 & P6).
  fold name pfile in R. fold name in P6. fold worldPath in P6. rewrite <- P6 in Hd.
  destruct (decide _) as [Y|_] in R; [contradiction|].
  eexists _, _. split; [exact R|]. unfold spawned.
  rewrite files_emit, alive_emit, trace_emit, spawn_count_app.
  cbn [files alive trace with_alive spawn_count]. rewrite P5.
  split; [exact P2|]. split; [|lia].
  apply elem_of_union_l, elem_of_singleton. reflexivity.
Qed.


(** X11. A start whose [spawn] throws answers 500 with the error's message;
    no record is written and no pid becomes alive. *)
Theorem start_spawn_throws (j : path) (c : Z) (a : bool) (e : string) :
  local_jar env body o = Some j ->
  pick_port (StartRoute.ephemeral env) (StartRoute.port_value requested) o = Some (c, a) ->
  StartRoute.child env = StartRoute.SpawnThrows e ->
  exists o',
    run (StartRoute.POST env body) o = (Text 500 ("Error: " +:+ e), o')
    /\ files o' = files o /\ alive o' = alive o
    /\ spawn_count (trace o') = spawn_count (trace o).
Proof.
  intros Hj Hp Hc.
  destruct (start_outcome env body o nonblank good_port free j Hj) as (o5 & P & R).
  fold requested in R. rewrite Hp, Hc in R.
  destruct P as (P1 & P2 & P3 & P4 & P5 & P6).
  exists o5. auto.
Qed.

(** X12. A start with no jar at hand and no download to be had: the exception
    of the download leaves the handler uncaught (it is outside both of
    its [try] blocks); the world directory has been made by then, no
    process created and no file written. *)
Theorem start_download_fails :
  local_jar env body o = None ->
  StartRoute.download env = None ->
  exists e o',
    run (StartRoute.POST env body) o = (Uncaught e, o')
    /\ files o' = files o /\ alive o' = alive o
    /\ spawn_count (trace o') = spawn_count (trace o)
    /\ worldPath ∈ dirs o'.
Proof.
  intros Hj Hd.
  destruct (start_stages env body o nonblank good_port free) as (o3 & P & Hthrow & _).
  assert (J : jar_stage env body o o3 = (Throw "download failed", o3)).
  { unfold local_jar in Hj. unfold jar_stage. cbv zeta.
    destruct (negb _); [discriminate|]. rewrite Hj.
    unfold StartRoute.downloadLatestServerJar. rewrite Hd. reflexivity. }
  destruct P as (P1 & P2 & P3 & P4 & P5 & P6).
  eexists _, o3. split; [exact (Hthrow _ _ J)|].
  split; [exact P2|]. split; [exact P3|]. split; [exact P5|].
  rewrite P6. apply elem_of_union_r, elem_of_list_to_set, self_in_ancestors.
Qed.

End StartFailures.

Lemma start_unrecorded_witness :
  String.eqb (Text.trim "a/b") EmptyString = false
  /\ no_conflict machine0 "a/b"
  /\ (removelast (pidFile machine0 "a/b")
        ∉ (dirs machine0 ∪ list_to_set (Path.ancestors (PID_DIR machine0))
                          ∪ list_to_set (Path.ancestors (Path.join (WORLDS_DIR machine0) "a/b"))))
  /\ exists msg o',
       run (StartRoute.POST env0 body_nested) machine0 = (Text 500 msg, o')
       /\ files o' = files machine0
       /\ 4242 ∈ alive o'
       /\ spawn_count (trace o') = S (spawn_count (trace machine0)).
Proof.
  assert (F : no_conflict machine0 "a/b") by exact I.
  assert (D : removelast (pidFile machine0 "a/b")
       ∉ (dirs machine0 ∪ list_to_set (Path.ancestors (PID_DIR machine0))
                         ∪ list_to_set (Path.ancestors (Path.join (WORLDS_DIR machine0) "a/b")))).
  { intros H. vm_compute in H. discriminate H. }
  split; [reflexivity|]. split; [exact F|]. split; [exact D|].
  apply (start_unrecorded env0 body_nested machine0 eq_refl eq_refl F
           ["srv"; "mc"; "server.jar"] 25565 false 4242 eq_refl eq_refl eq_refl D).
Defined.


Lemma start_spawn_throws_witness :
  String.eqb (Text.trim "Alpha") EmptyString = false
  /\ no_conflict machine0 "Alpha"
  /\ exists o',
       run (StartRoute.POST env_no_memory body_alpha) machine0
       = (Text 500 "Error: spawn ENOMEM", o')
       /\ files o' = files machine0 /\ alive o' = alive machine0
       /\ spawn_count (trace o') = spawn_count (trace machine0).
Proof.
  assert (F : no_conflict machine0 "Alpha") by exact I.
  split; [reflexivity|]. split; [exact F|].
  apply (start_spawn_throws env_no_memory body_alpha machine0 eq_refl eq_refl F
           ["srv"; "mc"; "server.jar"] 25565 false "spawn ENOMEM"
           eq_refl eq_refl eq_refl).
Defined.

Lemma start_download_fails_witness :
  String.eqb (Text.trim "Alpha") EmptyString = false
  /\ no_conflict machine0 "Alpha"
  /\ local_jar env_offline body_alpha machine0 = None
  /\ exists e o',
       run (StartRoute.POST env_offline body_alpha) machine0 = (Uncaught e, o')
       /\ files o' = files machine0 /\ alive o' = alive machine0
       /\ spawn_count (trace o') = spawn_count (trace machine0)
       /\ Path.join (WORLDS_DIR machine0) "Alpha" ∈ dirs o'.
Proof.
  assert (F : no_conflict machine0 "Alpha") by exact I.
  split; [reflexivity|]. split; [exact F|]. split; [reflexivity|].
  apply (start_download_fails env_offline body_alpha machine0 eq_refl eq_refl F
           eq_refl eq_refl).
Defined.

(** ** The routes as a user meets them *)

Section RouteProperties.

(** X1. Whatever the stop route answers for a name that is not blank, the
    world is left without a record; no other file is touched, no
    directory, no port; no process is created and none becomes alive. *)
Theorem stop_clears_record (env : StopRoute.Env) (w : string) (o : os)
    (r : response) (o' : os) :
  String.eqb (Text.trim w) EmptyString = false ->
  run (StopRoute.POST env (Some w)) o = (r, o') ->
  files o' = delete (pidFile o (Text.trim w)) (files o)
  /\ dirs o' = dirs o /\ cwd o' = cwd o /\ in_use o' = in_use o
  /\ alive o' ⊆ alive o
  /\ spawn_count (trace o') = spawn_count (trace o).
Proof. intros Hn H. exact (stop_effect env w o Hn r o' H). Qed.

(** X2. Stop is idempotent: after a stop, whatever it answered, a second
    stop for the same world finds no record, answers [alreadyStopped]
    and changes nothing at all. *)
Theorem stop_twice (env env2 : StopRoute.Env) (w : string) (o : os)
    (r : response) (o' : os) :
  String.eqb (Text.trim w) EmptyString = false ->
  run (StopRoute.POST env (Some w)) o = (r, o') ->
  run (StopRoute.POST env2 (Some w)) o'
  = (JsonAlreadyStopped "No running server found (no PID file).", o').
Proof.
  intros Hn H. destruct (stop_effect env w o Hn r o' H) as (Hf & _ & Hc & _).
  apply stop_absent; [exact Hn|].
  rewrite (pidFile_cwd o o' _ Hc), Hf. apply lookup_delete_eq.
Qed.

(** X3. When the recorded process passes the probe and is gone by the
    time it is signalled, the stop route still removes the record and
    answers [alreadyStopped] with [Process already exited.]; the probe
    and the termination signal are the only signals it sent. *)
Theorem stop_race (env : StopRoute.Env) (w : string) (o : os) (txt : string) (pid : Z) :
  String.eqb (Text.trim w) EmptyString = false ->
  files o !! pidFile o (Text.trim w) = Some txt ->
  Text.parseInt txt = Some pid -> 0 < pid -> pid ∈ alive o ->
  StopRoute.vanishes env = true ->
  exists o',
    run (StopRoute.POST env (Some w)) o
    = (JsonAlreadyStopped "Process already exited.", o')
    /\ files o' = delete (pidFile o (Text.trim w)) (files o)
    /\ trace o' = (trace o ++ [Kill pid Sig0; Kill pid SIGTERM;
                                Unlink (pidFile o (Text.trim w))])%list.
Proof.
  intros Hn Hf Hp Hpos Ha Hv. eexists.
  split; [apply (stop_vanished_run env w o Hn txt pid); assumption|].
  split; [reflexivity|]. cbn [trace emit with_files with_alive].
  now rewrite <- !app_assoc.
Qed.

(** X4. The status route only reads and probes: it changes no file, no
    directory and no process.  It answers [running: true] with the pid
    exactly when the world's record reads as a positive pid that can be
    signalled, and [running: false] with no pid otherwise, be the record
    missing, unreadable as a number, or stale. *)
Theorem status_reports_record (w : string) (o : os) :
  String.eqb (Text.trim w) EmptyString = false ->
  exists o',
    run (StatusRoute.GET (Some w)) o
    = (match recorded_live o (Text.trim w) with
       | Some p => JsonStatus true (Some p)
       | None => JsonStatus false None
       end, o')
    /\ only_logs o o'.
Proof. apply status_run. Qed.

End RouteProperties.

Lemma stop_clears_record_witness :
  String.eqb (Text.trim "Alpha") EmptyString = false
  /\ files (snd (run (StopRoute.POST {| StopRoute.vanishes := true |} (Some "Alpha")) machine1))
     = delete (pidFile machine1 (Text.trim "Alpha")) (files machine1).
Proof.
  split; [reflexivity|].
  apply (stop_clears_record {| StopRoute.vanishes := true |} "Alpha" machine1
           (fst (run (StopRoute.POST {| StopRoute.vanishes := true |} (Some "Alpha")) machine1))
           (snd (run (StopRoute.POST {| StopRoute.vanishes := true |} (Some "Alpha")) machine1))
           eq_refl).
  apply surjective_pairing.
Defined.

Lemma stop_twice_witness :
  String.eqb (Text.trim "Alpha") EmptyString = false
  /\ let o' := snd (run (StopRoute.POST {| StopRoute.vanishes := false |} (Some "Alpha")) machine1) in
     run (StopRoute.POST {| StopRoute.vanishes := false |} (Some "Alpha")) o'
     = (JsonAlreadyStopped "No running server found (no PID file).", o').
Proof.
  split; [reflexivity|].
  apply (stop_twice {| StopRoute.vanishes := false |} {| StopRoute.vanishes := false |}
           "Alpha" machine1
           (fst (run (StopRoute.POST {| StopRoute.vanishes := false |} (Some "Alpha")) machine1))
           (snd (run (StopRoute.POST {| StopRoute.vanishes := false |} (Some "Alpha")) machine1))
           eq_refl).
  apply surjective_pairing.
Defined.

Lemma stop_race_witness :
  String.eqb (Text.trim "Alpha") EmptyString = false
  /\ files machine1 !! pidFile machine1 (Text.trim "Alpha") = Some "4242"
  /\ Text.parseInt "4242" = Some 4242 /\ 0 < 4242 /\ 4242 ∈ alive machine1
  /\ exists o',
       run (StopRoute.POST {| StopRoute.vanishes := true |} (Some "Alpha")) machine1
       = (JsonAlreadyStopped "Process already exited.", o')
       /\ files o' = delete (pidFile machine1 (Text.trim "Alpha")) (files machine1)
       /\ trace o' = (trace machine1 ++ [Kill 4242 Sig0; Kill 4242 SIGTERM;
                        Unlink (pidFile machine1 (Text.trim "Alpha"))])%list.
Proof.
  assert (H : 4242 ∈ alive machine1) by (vm_compute; reflexivity).
  assert (P : 0 < 4242) by lia.
  split; [reflexivity|]. split; [reflexivity|]. split; [reflexivity|].
  split; [exact P|]. split; [exact H|].
  apply (stop_race {| StopRoute.vanishes := true |} "Alpha" machine1 "4242" 4242
           eq_refl eq_refl eq_refl P H eq_refl).
Defined.

Lemma status_reports_record_witness :
  String.eqb (Text.trim "Alpha") EmptyString = false
  /\ recorded_live machine1 (Text.trim "Alpha") = Some 4242
  /\ exists o',
       run (StatusRoute.GET (Some "Alpha")) machine1
       = (match recorded_live machine1 (Text.trim "Alpha") with
          | Some p => JsonStatus true (Some p)
          | None => JsonStatus false None
          end, o')
       /\ only_logs machine1 o'.
Proof.
  split; [reflexivity|]. split; [vm_compute; reflexivity|].
  apply (status_reports_record "Alpha" machine1 eq_refl).
Defined.

Section Requests.




(** X6. The start route answers 400 exactly when the trimmed name is
    empty or the port is not an integer between 1 and 65535, and then it
    has done nothing; every other request gets past validation. *)
Theorem start_validates (env : StartRoute.Env) (body : StartRoute.Body)
    (o : os) (r : response) (o' : os) :
  run (StartRoute.POST env body) o = (r, o') ->
  ((exists msg, r = Text 400 msg)
   <-> (Text.trim (default EmptyString (StartRoute.worldName body)) = EmptyString
        \/ StartRoute.bad_port (default (Int 25565) (StartRoute.port body)) = true))
  /\ ((exists msg, r = Text 400 msg) -> o' = o).
Proof.
  unfold run.
  destruct (StartRoute.POST env body o) as [res o2] eqn:H.
  intros E. assert (o2 = o') as -> by (destruct res; congruence).
  assert (r = match res with Return x => x | Throw e => Uncaught e end) as ->
    by (destruct res; congruence). clear E.
  revert H. unfold StartRoute.POST.
  destruct (String.eqb_spec (Text.trim (default EmptyString (StartRoute.worldName body)))
              EmptyString) as [Hn|Hn].
  { intros [= <- <-]. split; [|reflexivity]. split; eauto. }
  destruct (StartRoute.bad_port (default (Int 25565) (StartRoute.port body))) eqn:Hb.
  { intros [= <- <-]. split; [|reflexivity]. split; eauto. }
  intros H.
  assert (N : ~ exists msg, match res with Return x => x | Throw e => Uncaught e end
                            = Text 400 msg).
  { intros (msg & E).
    apply bind_inv in H as [(oo & o1 & [= <- <-] & H)|(e & [=] & _)].
    apply bind_inv in H as [([] & o1 & H1 & H)|(e & [=] & _)].
    apply bind_inv in H as [(running & o2' & H2 & H)|(e & H2 & ->)]; [|discriminate].
    destruct running; [injection H as <- <-; discriminate|].
    apply bind_inv in H as [([] & o3 & H3 & H)|(e & [=] & _)].
    apply bind_inv in H as [(jarPath & o4 & H4 & H)|(e & H4 & ->)]; [|discriminate].
    apply bind_inv in H as [(picked & o5 & H5 & H)|(e & H5 & ->)]; [|discriminate].
    destruct picked as [[chosen auto]|]; [|injection H as <- <-; discriminate].
    unfold try_catch in H.
    destruct (StartRoute.child env) as [e|pid]; [injection H as <- <-; discriminate|].
    unfold bind at 1 in H. unfold bind at 1, modify at 1 in H.
    unfold ret at 1 in H. unfold bind at 1, writeFile at 1 in H.
    destruct (decide _) in H; injection H as <- <-; discriminate. }
  split; [|intros X; contradiction].
  split; [intros X; contradiction|]. intros [X|X]; [contradiction | discriminate].
Qed.

(** X13. A start that answered with a pid, followed by a status request
    for the same world: status answers [running: true] with that pid,
    having done nothing but probe it. *)
Theorem start_then_status (env : StartRoute.Env) (body : StartRoute.Body)
    (o : os) (st : started) (o' : os) (p : Z) :
  run (StartRoute.POST env body) o = (JsonStarted st, o') ->
  st_pid st = Some p -> 0 < p ->
  run (StatusRoute.GET (StartRoute.worldName body)) o'
  = (JsonStatus true (Some p), emit (Kill p Sig0) o').
Proof.
  intros H Hpid Hpos.
  destruct (start_started env body o st o' H) as (Hf & Ha & Hc & _ & Hn & _).
  rewrite Hpid in Hf. cbn [Text.String_] in Hf.
  rewrite <- (pidFile_cwd o o' _ Hc) in Hf.
  destruct (StartRoute.worldName body) as [w|]; [|discriminate Hn].
  apply (status_live w o' (Text.of_Z p) p Hn Hf (parseInt_of_Z p) Hpos (Ha p Hpid)).
Qed.

(** X14. A start that answered with a pid, followed by a stop for the
    same world when the process is still there: stop answers
    [stopped: true] with that very pid and removes the record, after
    which status answers [running: false], as the record is what it
    goes by. *)
Theorem start_then_stop (env : StartRoute.Env) (senv : StopRoute.Env)
    (body : StartRoute.Body) (o : os) (st : started) (o' : os) (p : Z) :
  run (StartRoute.POST env body) o = (JsonStarted st, o') ->
  st_pid st = Some p -> 0 < p -> StopRoute.vanishes senv = false ->
  exists o2 o3,
    run (StopRoute.POST senv (StartRoute.worldName body)) o' = (JsonStopped p, o2)
    /\ files o2
       = delete (pidFile o (Text.trim (default EmptyString (StartRoute.worldName body))))
           (files o')
    /\ run (StatusRoute.GET (StartRoute.worldName body)) o2 = (JsonStatus false None, o3).
Proof.
  intros H Hpid Hpos Hv.
  destruct (start_started env body o st o' H) as (Hf & Ha & Hc & _ & Hn & _).
  rewrite Hpid in Hf. cbn [Text.String_] in Hf.
  rewrite <- (pidFile_cwd o o' _ Hc) in Hf.
  destruct (StartRoute.worldName body) as [w|]; [|discriminate Hn].
  change (default EmptyString (Some w)) with w in *.
  pose proof (stop_live senv w o' (Text.of_Z p) p Hn Hf (parseInt_of_Z p) Hpos
                (Ha p Hpid) Hv) as Hs.
  destruct (status_run w (snd (run (StopRoute.POST senv (Some w)) o')) Hn) as (o3 & Hst & _).
  rewrite Hs in Hst |- *. cbn [snd] in Hst.
  eexists _, o3. split; [reflexivity|].
  split.
  { rewrite (pidFile_cwd o o' _ Hc). reflexivity. }
  rewrite Hst. unfold recorded_live.
  assert (X : forall q t u, pidFile (emit (Unlink q) (with_files t u)) (Text.trim w)
                            = pidFile u (Text.trim w)) by reflexivity.
  rewrite X. clear X.
  assert (Y : pidFile (emit (Kill p SIGTERM) (emit (Kill p Sig0) o')) (Text.trim w)
              = pidFile o' (Text.trim w)) by reflexivity.
  rewrite Y, files_emit. cbn [files with_files]. rewrite lookup_delete_eq. reflexivity.
Qed.

End Requests.


Lemma start_validates_witness :
  run (StartRoute.POST env0 body_port0) machine0
  = (Text 400 "Invalid port number. Must be between 1 and 65535.", machine0)
  /\ (Text.trim (default EmptyString (StartRoute.worldName body_port0)) = EmptyString
      \/ StartRoute.bad_port (default (Int 25565) (StartRoute.port body_port0)) = true).
Proof.
  assert (R : run (StartRoute.POST env0 body_port0) machine0
              = (Text 400 "Invalid port number. Must be between 1 and 65535.", machine0))
    by reflexivity.
  split; [exact R|].
  apply (proj1 (proj1 (start_validates env0 body_port0 machine0 _ _ R))).
  eexists. reflexivity.
Defined.

Lemma start_then_status_witness :
  run (StartRoute.POST env0 body_alpha) machine0
  = (JsonStarted started_alpha, snd (run (StartRoute.POST env0 body_alpha) machine0))
  /\ 0 < 4242
  /\ run (StatusRoute.GET (Some "Alpha")) (snd (run (StartRoute.POST env0 body_alpha) machine0))
     = (JsonStatus true (Some 4242),
        emit (Kill 4242 Sig0) (snd (run (StartRoute.POST env0 body_alpha) machine0))).
Proof.
  assert (R : run (StartRoute.POST env0 body_alpha) machine0
              = (JsonStarted started_alpha,
                 snd (run (StartRoute.POST env0 body_alpha) machine0)))
    by (vm_compute; reflexivity).
  assert (P : 0 < 4242) by lia.
  split; [exact R|]. split; [exact P|].
  apply (start_then_status env0 body_alpha machine0 started_alpha
           (snd (run (StartRoute.POST env0 body_alpha) machine0)) 4242 R eq_refl P).
Defined.

Lemma start_then_stop_witness :
  run (StartRoute.POST env0 body_alpha) machine0
  = (JsonStarted started_alpha, snd (run (StartRoute.POST env0 body_alpha) machine0))
  /\ 0 < 4242
  /\ exists o2 o3,
       run (StopRoute.POST {| StopRoute.vanishes := false |} (Some "Alpha"))
           (snd (run (StartRoute.POST env0 body_alpha) machine0))
       = (JsonStopped 4242, o2)
       /\ files o2
          = delete (pidFile machine0 (Text.trim "Alpha"))
              (files (snd (run (StartRoute.POST env0 body_alpha) machine0)))
       /\ run (StatusRoute.GET (Some "Alpha")) o2 = (JsonStatus false None, o3).
Proof.
  assert (R : run (StartRoute.POST env0 body_alpha) machine0
              = (JsonStarted started_alpha,
                 snd (run (StartRoute.POST env0 body_alpha) machine0)))
    by (vm_compute; reflexivity).
  assert (P : 0 < 4242) by lia.
  split; [exact R|]. split; [exact P|].
  apply (start_then_stop env0 {| StopRoute.vanishes := false |} body_alpha machine0
           started_alpha (snd (run (StartRoute.POST env0 body_alpha) machine0)) 4242
           R eq_refl P eq_refl).
Defined.

(** ** Intervals with a unit *)

Section IntervalUnits.

Lemma all_digits_uint (d : uint) : Text.all_digits (NilEmpty.string_of_uint d) = true.
Proof. induction d; simpl; auto. Qed.

Lemma nzhead_head (d : uint) : match nzhead d with D0 _ => False | _ => True end.
Proof. induction d; simpl; auto. Qed.

(** The decimal text of a positive number does not start with [0]. *)
Lemma to_uint_head (p : positive) : match Pos.to_uint p with D0 _ => False | _ => True end.
Proof.
  pose proof (DecimalPos.Unsigned.to_of (Pos.to_uint p)) as H.
  rewrite DecimalPos.Unsigned.of_to in H. cbn [N.to_uint] in H.
  pose proof (DecimalPos.Unsigned.to_uint_nonzero p) as Hz.
  pose proof (nzhead_head (Pos.to_uint p)) as Hh.
  unfold unorm in H. destruct (nzhead (Pos.to_uint p)) eqn:E;
    rewrite H in *; try exact I; try contradiction.
Qed.

Lemma arith_of_word_of_Z (n : Z) :
  0 <= n < 2 ^ 63 -> Sh.arith_of_word (Text.of_Z n) = Sh.Value n.
Proof.
  intros Hn. destruct n as [|p|p]; [reflexivity | | lia].
  rewrite of_Z_pos. pose proof (to_uint_head p) as Hh.
  pose proof (all_digits_uint (Pos.to_uint p)) as Ha.
  pose proof (read_digits_pos p) as Hr.
  pose proof (DecimalPos.Unsigned.to_uint_nonnil p) as Hnil.
  destruct (Pos.to_uint p) as [|d|d|d|d|d|d|d|d|d|d]; try contradiction;
    cbn [NilEmpty.string_of_uint] in *; unfold Sh.arith_of_word;
    rewrite Ha, Hr; cbn [fst]; rewrite wrap64_small by lia; reflexivity.
Qed.

Lemma strip_unit_snoc (s : string) (u : ascii) :
  Sh.unit_seconds u <> 0 -> Sh.strip_unit (s +:+ String u EmptyString) = Some (s, u).
Proof.
  intros Hu. induction s as [|c r IH].
  - destruct u as [[] [] [] [] [] [] [] []]; try reflexivity; now destruct Hu.
  - change (String c r +:+ String u EmptyString) with (String c (r +:+ String u EmptyString)).
    cbn [Sh.strip_unit]. rewrite IH.
    destruct (r +:+ String u EmptyString) eqn:E; [|reflexivity].
    destruct r; discriminate.
Qed.

Lemma digit_not_unit (c : ascii) :
  Text.is_digit c = true -> Sh.strip_unit (String c EmptyString) = None.
Proof. destruct c as [[] [] [] [] [] [] [] []]; vm_compute; congruence. Qed.

Lemma strip_unit_digits (s : string) : Text.all_digits s = true -> Sh.strip_unit s = None.
Proof.
  induction s as [|c r IH]; [reflexivity|]. cbn [Text.all_digits].
  intros [Hc Hr]%andb_prop. destruct r as [|c' r'].
  - apply digit_not_unit, Hc.
  - change (Sh.strip_unit (String c (String c' r')))
      with (match Sh.strip_unit (String c' r') with
            | Some (n, u) => Some (String c n, u)
            | None => None
            end).
    now rewrite (IH Hr).
Qed.

Lemma of_Z_digits (n : Z) : 0 <= n -> Text.is_number (Text.of_Z n) = true.
Proof.
  intros Hn. destruct n as [|p|p]; [reflexivity | | lia].
  rewrite of_Z_pos. pose proof (all_digits_uint (Pos.to_uint p)) as Ha.
  pose proof (DecimalPos.Unsigned.to_uint_nonnil p) as Hnil.
  destruct (Pos.to_uint p); try contradiction; exact Ha.
Qed.

Lemma unit_seconds_pos (u : ascii) : Sh.unit_seconds u <> 0 -> 0 < Sh.unit_seconds u.
Proof.
  intros Hu. destruct u as [[] [] [] [] [] [] [] []]; cbn in Hu |- *; try lia;
    now destruct Hu.
Qed.

Lemma parse_units (n : Z) (u : ascii) :
  0 <= n -> Sh.unit_seconds u <> 0 -> n * Sh.unit_seconds u < 2 ^ 63 ->
  StartScript.parse_interval_to_seconds (Text.of_Z n +:+ String u EmptyString)
  = Some (Text.of_Z (n * Sh.unit_seconds u)).
Proof.
  intros Hn Hu Hb. pose proof (unit_seconds_pos u Hu) as Hpos.
  unfold StartScript.parse_interval_to_seconds.
  rewrite (strip_unit_snoc _ u Hu), arith_of_word_of_Z by nia.
  rewrite wrap64_small by nia. reflexivity.
Qed.

Lemma parse_plain (n : Z) :
  0 <= n -> StartScript.parse_interval_to_seconds (Text.of_Z n) = Some (Text.of_Z n).
Proof.
  intros Hn. unfold StartScript.parse_interval_to_seconds.
  pose proof (of_Z_digits n Hn) as Hd.
  rewrite strip_unit_digits, Hd; [reflexivity|].
  unfold Text.is_number in Hd. destruct (Text.of_Z n); [discriminate | exact Hd].
Qed.

(** X15. What the interval parser prints: a count followed by one of the
    units [s m h d w] is the count times the unit's seconds, and a bare
    count is taken as seconds, for every count written in decimal without
    leading zeros, as long as the product fits the shell's 64 bits. *)
Theorem parse_interval_units (n : Z) (u : ascii) :
  0 <= n -> Sh.unit_seconds u <> 0 -> n * Sh.unit_seconds u < 2 ^ 63 ->
  StartScript.parse_interval_to_seconds (Text.of_Z n +:+ String u EmptyString)
  = Some (Text.of_Z (n * Sh.unit_seconds u))
  /\ StartScript.parse_interval_to_seconds (Text.of_Z n) = Some (Text.of_Z n).
Proof.
  intros Hn Hu Hb. split; [apply parse_units; assumption | apply parse_plain, Hn].
Qed.

(** X16. With backups switched on, an interval of [n] units and a
    timestamp on disk, a backup is due exactly when the time since the
    timestamp has reached [n] times the unit's seconds. *)
Theorem interval_due (cfg : StartScript.Config) (now last : Z) (d : disk)
    (n : Z) (u : ascii) :
  StartScript.BACKUP_ON_STOP cfg = "TRUE" ->
  StartScript.BACKUP_INTERVAL cfg = Text.of_Z n +:+ String u EmptyString ->
  0 < n -> Sh.unit_seconds u <> 0 -> n * Sh.unit_seconds u < 2 ^ 63 ->
  last_backup d = Some last ->
  - 2 ^ 63 <= now - last < 2 ^ 63 ->
  StartScript.should_backup_now cfg now d
  = Some (if (n * Sh.unit_seconds u <=? now - last)%Z then 0 else 1).
Proof.
  intros He Hi Hn Hu Hb Hl Hr.
  pose proof (unit_seconds_pos u Hu) as Hpos.
  rewrite (due_iff_elapsed cfg now d He (n * Sh.unit_seconds u) last).
  - now rewrite wrap64_small.
  - rewrite Hi. apply parse_units; [lia | assumption | assumption].
  - nia.
  - exact Hl.
Qed.

End IntervalUnits.

Lemma parse_interval_units_witness :
  0 <= 24 /\ Sh.unit_seconds "h" <> 0 /\ 24 * Sh.unit_seconds "h" < 2 ^ 63
  /\ StartScript.parse_interval_to_seconds "24h" = Some "86400"
  /\ StartScript.parse_interval_to_seconds "24" = Some "24".
Proof.
  assert (H1 : 0 <= 24) by lia.
  assert (H2 : Sh.unit_seconds "h" <> 0) by discriminate.
  assert (H3 : 24 * Sh.unit_seconds "h" < 2 ^ 63) by (cbn; lia).
  split; [exact H1|]. split; [exact H2|]. split; [exact H3|].
  exact (parse_interval_units 24 "h" H1 H2 H3).
Defined.

Lemma interval_due_witness :
  0 < 24 /\ Sh.unit_seconds "h" <> 0 /\ 24 * Sh.unit_seconds "h" < 2 ^ 63
  /\ - 2 ^ 63 <= 1761998400 - 1761900000 < 2 ^ 63
  /\ StartScript.should_backup_now (cfg_interval "24h") 1761998400
       (disk_backed_up_at 1761900000) = Some 0.
Proof.
  assert (H1 : 0 < 24) by lia.
  assert (H2 : Sh.unit_seconds "h" <> 0) by discriminate.
  assert (H3 : 24 * Sh.unit_seconds "h" < 2 ^ 63) by (cbn; lia).
  assert (H4 : - 2 ^ 63 <= 1761998400 - 1761900000 < 2 ^ 63) by lia.
  split; [exact H1|]. split; [exact H2|]. split; [exact H3|]. split; [exact H4|].
  exact (interval_due (cfg_interval "24h") 1761998400 1761900000
           (disk_backed_up_at 1761900000) 24 "h" eq_refl eq_refl H1 H2 H3 eq_refl H4).
Defined.

(** ** The start script's backups *)

Section StartScriptBackups.

(** X17. A backup starts the interval anew: after a successful
    [do_backup] the timestamp is the time of that backup, and
    [do_backup_if_needed] leaves the disk alone for as long as less than
    the interval has passed since then, and backs up again once it has. *)
Theorem backup_resets_interval (cfg : StartScript.Config)
    (env env' : StartScript.Env) (d : disk) (n : Z) (u : ascii) :
  StartScript.BACKUP_ON_STOP cfg = "TRUE" ->
  StartScript.BACKUP_INTERVAL cfg = Text.of_Z n +:+ String u EmptyString ->
  0 < n -> Sh.unit_seconds u <> 0 -> n * Sh.unit_seconds u < 2 ^ 63 ->
  world_exists d = true -> StartScript.tar_ok env = true ->
  0 <= StartScript.now env' - StartScript.now env < 2 ^ 63 ->
  let d1 := snd (StartScript.do_backup cfg env d) in
  last_backup d1 = Some (StartScript.now env)
  /\ StartScript.do_backup_if_needed cfg env' d1
     = Some (if (n * Sh.unit_seconds u <=? StartScript.now env' - StartScript.now env)%Z
             then StartScript.do_backup cfg env' d1
             else (Status 0, d1)).
Proof.
  intros He Hi Hn Hu Hb Hw Ht Hr d1.
  assert (Hl : last_backup d1 = Some (StartScript.now env)).
  { subst d1. unfold StartScript.do_backup. rewrite Hw, Ht. reflexivity. }
  split; [exact Hl|].
  unfold StartScript.do_backup_if_needed.
  rewrite (due_iff_elapsed cfg (StartScript.now env') d1 He
             (n * Sh.unit_seconds u) (StartScript.now env)).
  - rewrite wrap64_small by lia.
    destruct (n * Sh.unit_seconds u <=? StartScript.now env' - StartScript.now env)%Z;
      reflexivity.
  - rewrite Hi. apply parse_units; [lia | assumption | assumption].
  - pose proof (unit_seconds_pos u Hu). nia.
  - exact Hl.
Qed.

(** X18. The toggle is compared as text with [TRUE]: with any other
    value no stop path backs up.  [do_backup_on_stop] and
    [do_backup_if_needed] return 0 and the signal handler exits 0, and
    the disk is as it was. *)
Theorem backups_disabled (cfg : StartScript.Config) (env : StartScript.Env)
    (s : StartScript.session) :
  StartScript.BACKUP_ON_STOP cfg <> "TRUE" ->
  StartScript.do_backup_on_stop cfg env (StartScript.on_disk s)
  = (Status 0, StartScript.on_disk s)
  /\ StartScript.do_backup_if_needed cfg env (StartScript.on_disk s)
     = Some (Status 0, StartScript.on_disk s)
  /\ fst (StartScript.cleanup_and_backup cfg env s) = Exit 0
  /\ StartScript.on_disk (snd (StartScript.cleanup_and_backup cfg env s))
     = StartScript.on_disk s.
Proof.
  intros H. apply String.eqb_neq in H.
  unfold StartScript.cleanup_and_backup, StartScript.do_backup_if_needed,
    StartScript.should_backup_now, StartScript.do_backup_on_stop.
  rewrite H. cbn [negb Z.eqb]. split; [reflexivity|]. split; [reflexivity|].
  destruct (StartScript.server_alive s); split; reflexivity.
Qed.

End StartScriptBackups.

Lemma backup_resets_interval_witness :
  0 < 24 /\ Sh.unit_seconds "h" <> 0 /\ 24 * Sh.unit_seconds "h" < 2 ^ 63
  /\ 0 <= StartScript.now one_pm_start - StartScript.now noon_start < 2 ^ 63
  /\ let d1 := snd (StartScript.do_backup (cfg_interval "24h") noon_start
                      (Disk true 0 ∅ None)) in
     last_backup d1 = Some 1761998400
     /\ StartScript.do_backup_if_needed (cfg_interval "24h") one_pm_start d1
        = Some (Status 0, d1).
Proof.
  assert (H1 : 0 < 24) by lia.
  assert (H2 : Sh.unit_seconds "h" <> 0) by discriminate.
  assert (H3 : 24 * Sh.unit_seconds "h" < 2 ^ 63) by (cbn; lia).
  assert (H4 : 0 <= StartScript.now one_pm_start - StartScript.now noon_start < 2 ^ 63)
    by (cbn; lia).
  split; [exact H1|]. split; [exact H2|]. split; [exact H3|]. split; [exact H4|].
  exact (backup_resets_interval (cfg_interval "24h") noon_start one_pm_start
           (Disk true 0 ∅ None) 24 "h" eq_refl eq_refl H1 H2 H3 eq_refl eq_refl H4).
Defined.

Lemma backups_disabled_witness :
  StartScript.BACKUP_ON_STOP (cfg_toggle "true") <> "TRUE"
  /\ StartScript.do_backup_on_stop (cfg_toggle "true") noon_start (Disk true 0 ∅ None)
     = (Status 0, Disk true 0 ∅ None).
Proof.
  assert (H : StartScript.BACKUP_ON_STOP (cfg_toggle "true") <> "TRUE") by discriminate.
  split; [exact H|].
  exact (proj1 (backups_disabled (cfg_toggle "true") noon_start
                  (StartScript.Session true true (Disk true 0 ∅ None)) H)).
Defined.

(** ** [scripts/backup.sh] beyond retention *)

Section BackupScriptMore.

Lemma startsWith_app (p r : string) : Text.startsWith p (p +:+ r) = true.
Proof. induction p as [|c p IH]; [reflexivity|]. simpl. now rewrite Ascii.eqb_refl. Qed.

Lemma drop_app (p r : string) : Text.drop (String.length p) (p +:+ r) = r.
Proof. induction p as [|c p IH]; [now destruct r | exact IH]. Qed.

Lemma length_app (p r : string) :
  String.length (p +:+ r) = (String.length p + String.length r)%nat.
Proof. induction p as [|c p IH]; [reflexivity|]. simpl. now rewrite IH. Qed.

Lemma endsWith_app (p r : string) : Text.endsWith r (p +:+ r) = true.
Proof.
  unfold Text.endsWith. rewrite length_app.
  replace (String.length p + String.length r - String.length r)%nat
    with (String.length p) by lia.
  rewrite drop_app, String.eqb_refl.
  rewrite (proj2 (Nat.leb_le _ _)) by lia. reflexivity.
Qed.

Lemma append_assoc (a b c : string) : (a +:+ b) +:+ c = a +:+ (b +:+ c).
Proof.
  induction a as [|x a IH]; [reflexivity|].
  change (String x ((a +:+ b) +:+ c) = String x (a +:+ (b +:+ c))).
  now rewrite IH.
Qed.

(** The names the script writes to are matched by its clean-up pattern. *)
Lemma glob_backup_written (w x : string) :
  BackupScript.glob_backup w (w +:+ "_" +:+ x +:+ ".tar.gz") = true.
Proof.
  unfold BackupScript.glob_backup.
  rewrite <- (append_assoc w "_" (x +:+ ".tar.gz")).
  rewrite startsWith_app, drop_app, endsWith_app. reflexivity.
Qed.

Lemma glob_backup_file (w : string) (env : BackupScript.Env) (d : disk) :
  BackupScript.glob_backup w (backup_file w env d) = true.
Proof.
  unfold backup_file. destruct (backups d !! _).
  - rewrite <- (append_assoc (BackupScript.DATE env) "_"
                  (BackupScript.TIME env +:+ ".tar.gz")).
    rewrite <- (append_assoc (BackupScript.DATE env +:+ "_")
                  (BackupScript.TIME env) ".tar.gz").
    apply glob_backup_written.
  - apply glob_backup_written.
Qed.

Lemma length_ls_t (w : string) (m : gmap string archive) :
  List.length (BackupScript.ls_t w m) = size (archives_of w m).
Proof.
  rewrite archives_of_ls_t, size_list_to_set; [reflexivity|].
  rewrite ls_t_eq. apply sorted_NoDup.
Qed.

Lemma main_outcome (w : string) (env : BackupScript.Env) (d d' : disk) (st : Z) :
  BackupScript.main w env d = Some (st, d') ->
  (st = 0 /\ w <> EmptyString /\ world_exists d = true /\ BackupScript.tar_ok env = true)
  \/ (st = 1 /\ d' = d
      /\ (w = EmptyString \/ world_exists d = false \/ BackupScript.tar_ok env = false)).
Proof.
  unfold BackupScript.main.
  destruct (String.eqb_spec w EmptyString) as [->|Hw].
  { intros [= <- <-]. right. auto. }
  destruct (world_exists d).
  2:{ intros [= <- <-]. right. auto. }
  cbn [negb]. destruct (negb (BackupScript.plain_name w)); [discriminate|].
  destruct (BackupScript.tar_ok env).
  2:{ intros [= <- <-]. right. auto. }
  destruct (forallb _ _); [|discriminate].
  intros [= <- <-]. left. auto.
Qed.

(** X19. While the world has no more than ten archives, the one just
    written included, a successful run removes nothing: the backup
    directory is what it was plus the new archive. *)
Theorem backup_few_archives (w : string) (env : BackupScript.Env) (d d' : disk) :
  BackupScript.main w env d = Some (0, d') ->
  (size (archives_of w (after_tar w env d)) <= 10)%nat ->
  backups d' = after_tar w env d
  /\ world_data d' = world_data d /\ last_backup d' = last_backup d.
Proof.
  intros H Hs. split.
  - rewrite (main_done w env d d' H). unfold BackupScript.cleanup.
    rewrite drop_ge; [reflexivity|]. rewrite length_ls_t. exact Hs.
  - revert H. unfold BackupScript.main.
    destruct (String.eqb w EmptyString); [discriminate|].
    destruct (negb (world_exists d)); [discriminate|].
    destruct (negb (BackupScript.plain_name w)); [discriminate|].
    destruct (BackupScript.tar_ok env); [|discriminate].
    destruct (forallb _ _); [|discriminate].
    intros [= <-]. split; reflexivity.
Qed.

Lemma after_tar_new (w : string) (env : BackupScript.Env) (d : disk) :
  after_tar w env d !! backup_file w env d
  = Some (Archive (BackupScript.now env) (world_data d)).
Proof. unfold after_tar. apply lookup_insert_eq. Qed.

Lemma after_tar_old (w : string) (env : BackupScript.Env) (d : disk) (k : string) :
  k <> backup_file w env d -> after_tar w env d !! k = backups d !! k.
Proof. intros H. unfold after_tar. apply lookup_insert_ne. congruence. Qed.

(** X20. When every archive of the world already there is older than
    the one being written, a successful run keeps the new archive, with
    the world's state as it was when the script ran. *)
Theorem backup_new_archive_kept (w : string) (env : BackupScript.Env) (d d' : disk) :
  BackupScript.main w env d = Some (0, d') ->
  (forall k a, backups d !! k = Some a -> BackupScript.glob_backup w k = true ->
               ar_mtime a < BackupScript.now env) ->
  backups d' !! backup_file w env d
  = Some (Archive (BackupScript.now env) (world_data d)).
Proof.
  intros H Hold. rewrite (main_done w env d d' H).
  set (m := after_tar w env d). set (n := backup_file w env d).
  assert (Hn : n ∈ archives_of w m).
  { apply archives_of_elem. split; [|apply glob_backup_file].
    subst m n. rewrite after_tar_new. eauto. }
  destruct (decide (n ∈ archives_of w (BackupScript.cleanup w m))) as [Hk|Hk].
  - apply archives_of_elem in Hk as [[a Ha] _].
    pose proof (cleanup_kept w m n a Ha) as Hm. subst m n.
    rewrite after_tar_new in Hm. congruence.
  - exfalso.
    assert (Hsz : size (archives_of w (BackupScript.cleanup w m)) <> 0%nat).
    { rewrite size_archives_cleanup.
      assert (size (archives_of w m) <> 0%nat).
      { intros Hz. apply size_empty_inv in Hz. apply Hz in Hn.
        now apply not_elem_of_empty in Hn. }
      lia. }
    destruct (size_pos_elem_of (archives_of w (BackupScript.cleanup w m)))
      as (k & Hkin); [lia|].
    destruct (removed_are_oldest w m k n Hkin Hn Hk) as (ak & an & Hak & Han & Hlt).
    assert (Hne : k <> n) by (intros ->; contradiction).
    subst m n. rewrite after_tar_new in Han. injection Han as <-.
    rewrite (after_tar_old w env d k Hne) in Hak.
    assert (Hg : BackupScript.glob_backup w k = true).
    { apply archives_of_elem in Hkin as [_ Hg]. exact Hg. }
    pose proof (Hold k ak Hak Hg) as Ho.
    unfold BackupScript.ls_t_before in Hlt. cbn in Hlt. lia.
Qed.

(** X21. When ten archives of the world already there are newer than
    the one being written (a clock set back, say), a successful run
    removes the archive it has just written. *)
Theorem backup_new_archive_lost (w : string) (env : BackupScript.Env) (d d' : disk)
    (K : gset string) :
  BackupScript.main w env d = Some (0, d') ->
  size K = 10%nat -> backup_file w env d ∉ K ->
  (forall k, k ∈ K -> exists a, backups d !! k = Some a
                                /\ BackupScript.glob_backup w k = true
                                /\ BackupScript.now env < ar_mtime a) ->
  backups d' !! backup_file w env d = None.
Proof.
  intros H HK HnK Hnew. rewrite (main_done w env d d' H).
  set (m := after_tar w env d). set (n := backup_file w env d).
  set (kept := archives_of w (BackupScript.cleanup w m)).
  assert (Hn : n ∈ archives_of w m).
  { apply archives_of_elem. split; [|apply glob_backup_file].
    subst m n. rewrite after_tar_new. eauto. }
  destruct (BackupScript.cleanup w m !! n) as [a|] eqn:E; [exfalso|reflexivity].
  assert (Hkept : n ∈ kept).
  { apply archives_of_elem. split; [eauto | apply glob_backup_file]. }
  assert (Hall : forall k, k ∈ K -> k ∈ archives_of w m).
  { intros k Hk. destruct (Hnew k Hk) as (ak & Hak & Hg & _).
    apply archives_of_elem. split; [|exact Hg].
    subst m. rewrite after_tar_old by (intros ->; contradiction). eauto. }
  destruct (decide (set_Forall (fun k => k ∈ kept) K)) as [Hsub|Hex].
  - assert (Hle : (size ({[n]} ∪ K) <= size kept)%nat).
    { apply subseteq_size. intros x [->%elem_of_singleton|Hx]%elem_of_union;
        [exact Hkept | exact (Hsub x Hx)]. }
    rewrite size_union in Hle by set_solver.
    rewrite size_singleton, HK in Hle.
    subst kept. rewrite size_archives_cleanup in Hle. lia.
  - apply not_set_Forall_Exists in Hex; [|apply _].
    destruct Hex as (k & Hk & Hnot). cbn in Hnot.
    destruct (removed_are_oldest w m n k Hkept (Hall k Hk) Hnot)
      as (an & ak & Han & Hak & Hlt).
    destruct (Hnew k Hk) as (ak' & Hak' & _ & Hnewer).
    subst m n. rewrite after_tar_new in Han. injection Han as <-.
    rewrite after_tar_old in Hak by (intros ->; contradiction).
    rewrite Hak in Hak'. injection Hak' as <-.
    unfold BackupScript.ls_t_before in Hlt. cbn in Hlt. lia.
Qed.

End BackupScriptMore.

(** ** [minecraft.sh] *)

Section ManagementScript.

(** X22. [stop_server] on a running server either backs up and takes the
    containers down, returning 0, or, when the backup script fails, ends
    the script with status 1 before [docker-compose down]: the
    containers are left up. *)
Theorem stop_server_outcome (W : string) (env : Minecraft.Env) (s : Minecraft.state)
    (r : ended) (s' : Minecraft.state) :
  Minecraft.running s = true ->
  Minecraft.stop_server W env s = Some (r, s') ->
  (r = Status 0 /\ Minecraft.running s' = false
   /\ BackupScript.main W (Minecraft.backup_env env) (Minecraft.store s)
      = Some (0, Minecraft.store s')
   /\ Minecraft.steps s'
      = (Minecraft.steps s ++ [Minecraft.RconStop; Minecraft.RunBackup;
                                Minecraft.ComposeDown])%list)
  \/ (r = Exit 1 /\ Minecraft.running s' = true
      /\ Minecraft.steps s'
         = (Minecraft.steps s ++ [Minecraft.RconStop; Minecraft.RunBackup])%list).
Proof.
  intros Hr. unfold Minecraft.stop_server. rewrite Hr.
  cbn [negb Minecraft.store Minecraft.steps Minecraft.running Minecraft.backup_env].
  destruct (BackupScript.main W (Minecraft.backup_env env) (Minecraft.store s))
    as [[st d]|] eqn:E; [|discriminate].
  destruct (main_outcome W _ _ _ _ E) as [(-> & _)|(-> & _)]; cbn [Z.eqb negb];
    intros [= <- <-]; [left | right]; cbn [Minecraft.running Minecraft.store Minecraft.steps];
    rewrite <- ?app_assoc; auto.
Qed.

End ManagementScript.

Lemma backup_few_archives_witness :
  BackupScript.main "Alpha" noon_backup (Disk true 0 ∅ None)
  = Some (0, Disk true 0
               (BackupScript.cleanup "Alpha"
                  (after_tar "Alpha" noon_backup (Disk true 0 ∅ None))) None)
  /\ (size (archives_of "Alpha" (after_tar "Alpha" noon_backup (Disk true 0 ∅ None)))
      <= 10)%nat
  /\ BackupScript.cleanup "Alpha" (after_tar "Alpha" noon_backup (Disk true 0 ∅ None))
     = after_tar "Alpha" noon_backup (Disk true 0 ∅ None).
Proof.
  assert (H : BackupScript.main "Alpha" noon_backup (Disk true 0 ∅ None)
              = Some (0, Disk true 0
                           (BackupScript.cleanup "Alpha"
                              (after_tar "Alpha" noon_backup (Disk true 0 ∅ None))) None))
    by (vm_compute; reflexivity).
  assert (S : (size (archives_of "Alpha"
                       (after_tar "Alpha" noon_backup (Disk true 0 ∅ None))) <= 10)%nat)
    by (vm_compute; lia).
  split; [exact H|]. split; [exact S|].
  exact (proj1 (backup_few_archives "Alpha" noon_backup (Disk true 0 ∅ None) _ H S)).
Defined.

Lemma backup_new_archive_kept_witness :
  BackupScript.main "Alpha" noon_backup eleven_script_archives
  = Some (0, Disk true 0
               (BackupScript.cleanup "Alpha"
                  (after_tar "Alpha" noon_backup eleven_script_archives)) None)
  /\ map_Forall (fun k a => ar_mtime a < BackupScript.now noon_backup)
       (backups eleven_script_archives)
  /\ BackupScript.cleanup "Alpha" (after_tar "Alpha" noon_backup eleven_script_archives)
       !! "Alpha_2025-11-01.tar.gz"
     = Some (Archive 1761998400 0).
Proof.
  assert (H : BackupScript.main "Alpha" noon_backup eleven_script_archives
              = Some (0, Disk true 0
                           (BackupScript.cleanup "Alpha"
                              (after_tar "Alpha" noon_backup eleven_script_archives))
                           None))
    by (vm_compute; reflexivity).
  assert (F : map_Forall (fun k a => ar_mtime a < BackupScript.now noon_backup)
                (backups eleven_script_archives)).
  { apply (bool_decide_unpack _). vm_compute. exact I. }
  split; [exact H|]. split; [exact F|].
  exact (backup_new_archive_kept "Alpha" noon_backup eleven_script_archives _ H
           (fun k a Hk _ => F k a Hk)).
Defined.

Lemma backup_new_archive_lost_witness :
  BackupScript.main "Alpha" noon_backup ten_later_archives
  = Some (0, Disk true 0
               (BackupScript.cleanup "Alpha"
                  (after_tar "Alpha" noon_backup ten_later_archives)) None)
  /\ size (dom (backups ten_later_archives)) = 10%nat
  /\ (backup_file "Alpha" noon_backup ten_later_archives
        ∉ dom (backups ten_later_archives))
  /\ map_Forall (fun k a => BackupScript.glob_backup "Alpha" k = true
                            /\ BackupScript.now noon_backup < ar_mtime a)
       (backups ten_later_archives)
  /\ BackupScript.cleanup "Alpha" (after_tar "Alpha" noon_backup ten_later_archives)
       !! "Alpha_2025-11-01.tar.gz"
     = None.
Proof.
  assert (H : BackupScript.main "Alpha" noon_backup ten_later_archives
              = Some (0, Disk true 0
                           (BackupScript.cleanup "Alpha"
                              (after_tar "Alpha" noon_backup ten_later_archives))
                           None))
    by (vm_compute; reflexivity).
  assert (S : size (dom (backups ten_later_archives)) = 10%nat)
    by (vm_compute; reflexivity).
  assert (N : backup_file "Alpha" noon_backup ten_later_archives
              ∉ dom (backups ten_later_archives)).
  { apply (bool_decide_unpack _). vm_compute. exact I. }
  assert (F : map_Forall (fun k a => BackupScript.glob_backup "Alpha" k = true
                                     /\ BackupScript.now noon_backup < ar_mtime a)
                (backups ten_later_archives)).
  { apply (bool_decide_unpack _). vm_compute. exact I. }
  split; [exact H|]. split; [exact S|]. split; [exact N|]. split; [exact F|].
  apply (backup_new_archive_lost "Alpha" noon_backup ten_later_archives _
           (dom (backups ten_later_archives)) H S N).
  intros k [a Ha]%elem_of_dom. exists a. split; [exact Ha|]. exact (F k a Ha).
Defined.

Lemma stop_server_outcome_witness :
  Minecraft.running server_up = true
  /\ Minecraft.stop_server "Alpha"
       {| Minecraft.rcon_ok := true; Minecraft.backup_env := noon_tar_fails |} server_up
     = Some (Exit 1, Minecraft.State true (Disk true 0 ∅ None)
                       [Minecraft.RconStop; Minecraft.RunBackup])
  /\ Minecraft.running (Minecraft.State true (Disk true 0 ∅ None)
                          [Minecraft.RconStop; Minecraft.RunBackup]) = true.
Proof.
  assert (H : Minecraft.stop_server "Alpha"
       {| Minecraft.rcon_ok := true; Minecraft.backup_env := noon_tar_fails |} server_up
     = Some (Exit 1, Minecraft.State true (Disk true 0 ∅ None)
                       [Minecraft.RconStop; Minecraft.RunBackup])) by reflexivity.
  split; [reflexivity|]. split; [exact H|].
  destruct (stop_server_outcome "Alpha" _ server_up _ _ eq_refl H)
    as [(E & _)|(_ & R & _)]; [discriminate E | exact R].
Defined.

(** ** The resolver and the order of the listing *)

Section ResolverOrder.

Lemma filter_perm {A} (f : A -> bool) (l l' : list A) :
  Permutation l l' -> Permutation (List.filter f l) (List.filter f l').
Proof.
  induction 1 as [|x l l' _ IH|x y l|l l' l'' _ IH1 _ IH2]; simpl.
  - constructor.
  - destruct (f x); [constructor|]; exact IH.
  - destruct (f x), (f y); try reflexivity. constructor.
  - etrans; eassumption.
Qed.

Lemma pool_perm (es es' : list dirent) :
  Permutation es es' -> Permutation (pool es) (pool es').
Proof.
  intros H. unfold pool.
  pose proof (filter_perm Artifact.is_jar es es' H) as Hj.
  pose proof (filter_perm (fun e => Artifact.is_server_jar (name e)) _ _ Hj) as Hp.
  destruct (List.filter (fun e => Artifact.is_server_jar (name e))
              (List.filter Artifact.is_jar es)) as [|a l] eqn:E1;
    destruct (List.filter (fun e => Artifact.is_server_jar (name e))
                (List.filter Artifact.is_jar es')) as [|b l'] eqn:E2.
  - exact Hj.
  - apply Permutation_length in Hp. discriminate.
  - apply Permutation_length in Hp. discriminate.
  - exact Hp.
Qed.

(** X23. Unless two candidates share a modification time, the jar
    [findExistingJar] returns does not depend on the order in which the
    directory is listed. *)
Theorem findExistingJar_order (dir : path) (es es' : list dirent) :
  Permutation es es' ->
  NoDup (map mtimeMs (pool es)) ->
  Artifact.findExistingJar dir (Some es') = Artifact.findExistingJar dir (Some es).
Proof.
  intros Hp Hnd. pose proof (pool_perm es es' Hp) as Hpool.
  rewrite !findExistingJar_pool.
  destruct (Artifact.sort_newest (pool es)) as [|e r] eqn:E;
    destruct (Artifact.sort_newest (pool es')) as [|e' r'] eqn:E'.
  - reflexivity.
  - apply sort_newest_nil in E. apply Permutation_length in Hpool.
    rewrite E in Hpool. destruct (pool es'); [discriminate E' | discriminate Hpool].
  - apply sort_newest_nil in E'. apply Permutation_length in Hpool.
    rewrite E' in Hpool. destruct (pool es); [discriminate E | discriminate Hpool].
  - destruct (sort_newest_head _ _ _ E) as (pre & post & Hl & Hpre & Hpost).
    destruct (sort_newest_head _ _ _ E') as (pre' & post' & Hl' & Hpre' & Hpost').
    assert (Hmax : forall x, In x (pool es) -> mtimeMs x <= mtimeMs e).
    { intros x Hx. rewrite Hl in Hx. apply in_app_or in Hx as [Hx|[<-|Hx]]; [|lia|].
      - rewrite List.Forall_forall in Hpre. specialize (Hpre x Hx). lia.
      - rewrite List.Forall_forall in Hpost. exact (Hpost x Hx). }
    assert (Hmax' : forall x, In x (pool es') -> mtimeMs x <= mtimeMs e').
    { intros x Hx. rewrite Hl' in Hx. apply in_app_or in Hx as [Hx|[<-|Hx]]; [|lia|].
      - rewrite List.Forall_forall in Hpre'. specialize (Hpre' x Hx). lia.
      - rewrite List.Forall_forall in Hpost'. exact (Hpost' x Hx). }
    assert (He : In e (pool es)) by (rewrite Hl; apply in_or_app; right; left; reflexivity).
    assert (He' : In e' (pool es'))
      by (rewrite Hl'; apply in_or_app; right; left; reflexivity).
    assert (He'1 : In e' (pool es)).
    { apply list_elem_of_In. rewrite Hpool. apply list_elem_of_In, He'. }
    assert (He1 : In e (pool es')).
    { apply list_elem_of_In. rewrite <- Hpool. apply list_elem_of_In, He. }
    assert (Ht : mtimeMs e' = mtimeMs e).
    { pose proof (Hmax e' He'1). pose proof (Hmax' e He1). lia. }
    assert (e' = e) as ->; [|reflexivity].
    apply list_elem_of_In in He, He'1.
    apply list_elem_of_lookup in He as (i & Hi), He'1 as (i' & Hi').
    assert (i' = i) as ->.
    { eapply NoDup_lookup; [exact Hnd | |].
      - rewrite list_lookup_fmap, Hi'. reflexivity.
      - rewrite list_lookup_fmap, Hi. cbn. now rewrite Ht. }
    congruence.
Qed.

End ResolverOrder.

Lemma findExistingJar_order_witness :
  Permutation [Dirent "server.jar" true 1000; Dirent "server-1.21.jar" true 2000]
              [Dirent "server-1.21.jar" true 2000; Dirent "server.jar" true 1000]
  /\ NoDup (map mtimeMs (pool [Dirent "server.jar" true 1000;
                               Dirent "server-1.21.jar" true 2000]))
  /\ Artifact.findExistingJar ["srv"]
       (Some [Dirent "server-1.21.jar" true 2000; Dirent "server.jar" true 1000])
     = Artifact.findExistingJar ["srv"]
         (Some [Dirent "server.jar" true 1000; Dirent "server-1.21.jar" true 2000]).
Proof.
  assert (P : Permutation [Dirent "server.jar" true 1000; Dirent "server-1.21.jar" true 2000]
                [Dirent "server-1.21.jar" true 2000; Dirent "server.jar" true 1000])
    by apply perm_swap.
  assert (N : NoDup (map mtimeMs (pool [Dirent "server.jar" true 1000;
                                        Dirent "server-1.21.jar" true 2000]))).
  { apply (bool_decide_unpack _). vm_compute. exact I. }
  split; [exact P|]. split; [exact N|].
  exact (findExistingJar_order ["srv"] _ _ P N).
Defined.

(** ** Property files *)

Section Escaping.

Lemma esc_cons (c : ascii) (r : string) :
  c <> ":"%char ->
  Props.escape_colons (String c r) = String c (Props.escape_colons r).
Proof.
  intros H. destruct c as [[] [] [] [] [] [] [] []]; try reflexivity.
  now destruct H.
Qed.

Lemma esc_head (r : string) : Text.startsWith ":" (Props.escape_colons r) = false.
Proof.
  destruct r as [|c r]; [reflexivity|].
  destruct c as [[] [] [] [] [] [] [] []]; reflexivity.
Qed.

Lemma esc_empty (s : string) : Props.escape_colons s = EmptyString -> s = EmptyString.
Proof.
  destruct s as [|c r]; [reflexivity|].
  destruct c as [[] [] [] [] [] [] [] []]; discriminate.
Qed.

Lemma unesc_cons (c : ascii) (r : string) :
  (c = "092"%char -> Text.startsWith ":" r = false) ->
  Props.unescape_colons (String c r) = String c (Props.unescape_colons r).
Proof.
  intros H. destruct (ascii_dec c "092") as [->|Hc].
  - specialize (H eq_refl). destruct r as [|c2 r2]; [reflexivity|].
    destruct c2 as [[] [] [] [] [] [] [] []]; try reflexivity. discriminate H.
  - destruct c as [[] [] [] [] [] [] [] []]; try reflexivity. now destruct Hc.
Qed.

Lemma unesc_esc (k : string) : Props.unescape_colons (Props.escape_colons k) = k.
Proof.
  induction k as [|c r IH]; [reflexivity|].
  destruct (ascii_dec c ":") as [->|Hc].
  - change (String ":" (Props.unescape_colons (Props.escape_colons r)) = String ":" r).
    now rewrite IH.
  - rewrite (esc_cons c r Hc), unesc_cons, IH; [reflexivity|].
    intros _. apply esc_head.
Qed.


Lemma space_plain (c : ascii) : plain c -> Text.is_space c = false.
Proof. apply plain_is_space. Qed.

Lemma space2_plain_l (c x : ascii) : plain c -> Text.is_space2 c x = false.
Proof. intros H. apply (plain_is_space2 c x H). Qed.

Lemma space2_plain_r (c x : ascii) : plain c -> Text.is_space2 x c = false.
Proof. intros H. apply (plain_is_space2 c x H). Qed.

Lemma space3_plain_2 (c x y : ascii) : plain c -> Text.is_space3 x c y = false.
Proof. intros H. apply (plain_is_space3 c x y H). Qed.

Lemma space3_plain_3 (c x y : ascii) : plain c -> Text.is_space3 x y c = false.
Proof. intros H. apply (plain_is_space3 c x y H). Qed.

Ltac plain_bytes :=
  rewrite ?(space2_plain_r ":" _ plain_colon),
    ?(space2_plain_r "092" _ plain_backslash),
    ?(space3_plain_2 ":" _ _ plain_colon),
    ?(space3_plain_2 "092" _ _ plain_backslash),
    ?(space3_plain_3 ":" _ _ plain_colon),
    ?(space3_plain_3 "092" _ _ plain_backslash),
    ?orb_false_r.

(** Escaping the colons of a text changes nothing about the white space
    it begins with. *)
Lemma esc_ws_start (s : string) :
  ws_start (Props.escape_colons s) = ws_start s.
Proof.
  destruct s as [|a r1]; [reflexivity|].
  destruct (ascii_dec a ":") as [->|Ha].
  { change (Props.escape_colons (String ":" r1))
      with (String "092" (String ":" (Props.escape_colons r1))).
    now rewrite !ws_start_plain by first [exact plain_colon | exact plain_backslash]. }
  rewrite (esc_cons a r1 Ha). destruct r1 as [|b r2]; [reflexivity|].
  destruct (ascii_dec b ":") as [->|Hb].
  { change (Props.escape_colons (String ":" r2))
      with (String "092" (String ":" (Props.escape_colons r2))).
    cbn [ws_start]. plain_bytes. destruct r2; plain_bytes; reflexivity. }
  rewrite (esc_cons b r2 Hb). destruct r2 as [|c r3]; [reflexivity|].
  destruct (ascii_dec c ":") as [->|Hc].
  { change (Props.escape_colons (String ":" r3))
      with (String "092" (String ":" (Props.escape_colons r3))).
    cbn [ws_start]. plain_bytes. reflexivity. }
  rewrite (esc_cons c r3 Hc). reflexivity.
Qed.

Lemma starts_colon (s : string) :
  Text.startsWith ":" s = true -> exists r, s = String ":" r.
Proof.
  destruct s as [|c r]; [discriminate|].
  change (Text.startsWith ":" (String c r)) with (if Ascii.eqb ":" c then true else false).
  destruct (Ascii.eqb_spec ":" c) as [<-|]; [|discriminate]. now exists r.
Qed.

(** The first three bytes of an unescaped text: either the text began
    with an escaped colon, or its first byte stays. *)
Lemma unesc_view (s : string) :
  (exists r, s = String "092" (String ":" r)
             /\ Props.unescape_colons s = String ":" (Props.unescape_colons r))
  \/ s = EmptyString
  \/ (exists c r, s = String c r
                  /\ Props.unescape_colons s = String c (Props.unescape_colons r)).
Proof.
  destruct s as [|c r]; [now right; left|].
  destruct (ascii_dec c "092") as [->|Hc].
  - destruct (Text.startsWith ":" r) eqn:E.
    + apply starts_colon in E as (r' & ->). left. now exists r'.
    + right; right. exists "092"%char, r. split; [reflexivity|].
      now apply unesc_cons.
  - right; right. exists c, r. split; [reflexivity|].
    apply unesc_cons. intros ->. now destruct Hc.
Qed.

(** Unescaping changes nothing about the white space a text begins
    with either. *)
Lemma unesc_ws_start (s : string) :
  ws_start (Props.unescape_colons s) = ws_start s.
Proof.
  destruct (unesc_view s) as [(r & -> & ->)|[->|(a & r1 & -> & ->)]];
    [|reflexivity|].
  { now rewrite !ws_start_plain by first [exact plain_colon | exact plain_backslash]. }
  destruct (unesc_view r1) as [(r & -> & ->)|[->|(b & r2 & -> & ->)]];
    [|reflexivity|].
  { cbn [ws_start]. plain_bytes. destruct (Props.unescape_colons r); plain_bytes; reflexivity. }
  destruct (unesc_view r2) as [(r & -> & ->)|[->|(c & r3 & -> & ->)]];
    [|reflexivity|].
  { cbn [ws_start]. plain_bytes. reflexivity. }
  reflexivity.
Qed.

Lemma esc_trimStart (k : string) :
  Text.trimStart (Props.escape_colons k) = Props.escape_colons (Text.trimStart k).
Proof.
  induction k as [k H|a r H IH|a b r Ha Hb IH|a b c r Ha Hb Hc IH] using ws_cases.
  - rewrite (trimStart_keep k H). apply trimStart_keep. now rewrite esc_ws_start.
  - assert (a <> ":"%char) as Na
      by (intros ->; now rewrite (space_plain _ plain_colon) in H).
    now rewrite (esc_cons a r Na), !trimStart_1.
  - apply is_space2_bytes in Hb as Hb'.
    assert (a <> ":"%char) as Na by (intros ->; now destruct Hb').
    assert (b <> ":"%char) as Nb by (intros ->; now destruct Hb').
    now rewrite (esc_cons a _ Na), (esc_cons b _ Nb), !trimStart_2.
  - apply is_space3_bytes in Hc as Hc'.
    assert (a <> ":"%char) as Na
      by (intros ->; change (nat_of_ascii ":") with 58%nat in Hc'; lia).
    assert (b <> ":"%char) as Nb
      by (intros ->; change (nat_of_ascii ":") with 58%nat in Hc'; lia).
    assert (c <> ":"%char) as Nc
      by (intros ->; change (nat_of_ascii ":") with 58%nat in Hc'; lia).
    now rewrite (esc_cons a _ Na), (esc_cons b _ Nb), (esc_cons c _ Nc), !trimStart_3.
Qed.

Lemma esc_trimEnd (k : string) :
  Text.trimEnd (Props.escape_colons k) = Props.escape_colons (Text.trimEnd k).
Proof.
  induction k as [|c r IH]; [reflexivity|].
  destruct (ascii_dec c ":") as [->|Hc].
  - change (Props.escape_colons (String ":" r))
      with (String "092" (String ":" (Props.escape_colons r))).
    rewrite (trimEnd_plain "092" _ plain_backslash), !(trimEnd_plain ":" _ plain_colon), IH.
    reflexivity.
  - rewrite (esc_cons c r Hc), !trimEnd_cons, <- (esc_cons c r Hc), esc_trimStart.
    destruct (String.eqb_spec (Text.trimStart (String c r)) EmptyString) as [E|E].
    + now rewrite E.
    + destruct (String.eqb_spec (Props.escape_colons (Text.trimStart (String c r)))
                  EmptyString) as [F|F].
      * apply esc_empty in F. contradiction.
      * now rewrite (esc_cons c _ Hc), IH.
Qed.

Lemma esc_trim (k : string) :
  Text.trim (Props.escape_colons k) = Props.escape_colons (Text.trim k).
Proof. unfold Text.trim. now rewrite esc_trimStart, esc_trimEnd. Qed.

(** X24. Escaping a key and unescaping it again gives the key back,
    trimmed: the colons survive, and so does a backslash that stood
    before a colon already. *)
Theorem key_escape_round_trip (k : string) :
  Props.unescapeKey (Props.escapeKey k) = Text.trim k.
Proof.
  unfold Props.unescapeKey, Props.escapeKey.
  rewrite esc_trim, unesc_esc. apply trim_trim.
Qed.

End Escaping.

Section PropertyFiles.

Lemma cut_app (c : ascii) (a b : string) :
  has c a = false -> Props.cut c (a +:+ String c b) = Some (a, b).
Proof.
  induction a as [|x a IH]; intros H.
  - simpl. now rewrite Ascii.eqb_refl.
  - simpl in H. apply orb_false_elim in H as [H1 H2].
    change (Props.cut c (String x (a +:+ String c b)) = Some (String x a, b)).
    simpl. now rewrite H1, (IH H2).
Qed.

Lemma has_esc (c : ascii) (k : string) :
  c <> ":"%char -> c <> "092"%char -> has c (Props.escape_colons k) = has c k.
Proof.
  intros H1 H2. induction k as [|x r IH]; [reflexivity|].
  destruct (ascii_dec x ":") as [->|Hx].
  - change (has c (Props.escape_colons (String ":" r)))
      with (Ascii.eqb "092" c || (Ascii.eqb ":" c || has c (Props.escape_colons r)))%bool.
    change (has c (String ":" r)) with (Ascii.eqb ":" c || has c r)%bool.
    rewrite IH.
    destruct (Ascii.eqb_spec "092" c) as [<-|_]; [now destruct H2|]. reflexivity.
  - rewrite (esc_cons x r Hx).
    change (has c (String x (Props.escape_colons r)))
      with (Ascii.eqb x c || has c (Props.escape_colons r))%bool.
    now rewrite IH.
Qed.

Lemma startsWith_hash_esc (k : string) :
  Text.startsWith "#" (Props.escape_colons k) = Text.startsWith "#" k.
Proof.
  destruct k as [|c r]; [reflexivity|].
  destruct c as [[] [] [] [] [] [] [] []]; reflexivity.
Qed.

Lemma startsWith_app_l (p a b : string) :
  a <> EmptyString -> String.length p = 1%nat ->
  Text.startsWith p (a +:+ b) = Text.startsWith p a.
Proof.
  intros Ha Hp. destruct p as [|x [|y p]]; try discriminate.
  destruct a as [|c a]; [contradiction|]. simpl. destruct (Ascii.eqb x c); reflexivity.
Qed.

Lemma split_cons (c : ascii) (r : string) :
  c <> "010"%char -> (c = "013"%char -> Text.startsWith (String "010" EmptyString) r = false) ->
  Props.split_lines (String c r)
  = match Props.split_lines r with
    | h :: t => String c h :: t
    | [] => [String c EmptyString]
    end.
Proof.
  intros Hlf Hcr. destruct (ascii_dec c "013") as [->|Hc].
  - specialize (Hcr eq_refl). destruct r as [|c2 r2]; [reflexivity|].
    destruct c2 as [[] [] [] [] [] [] [] []]; try reflexivity. discriminate Hcr.
  - destruct c as [[] [] [] [] [] [] [] []]; try reflexivity;
      first [now destruct Hlf | now destruct Hc].
Qed.

Lemma split_line (l rest : string) :
  has "010" l = false -> ends_cr l = false ->
  Props.split_lines (l +:+ String "010" rest) = l :: Props.split_lines rest.
Proof.
  induction l as [|c r IH]; intros Hh Hl; [reflexivity|].
  simpl in Hh. apply orb_false_elim in Hh as [Hc Hr].
  assert (c <> "010"%char) as Hlf by (intros ->; discriminate Hc).
  change (Props.split_lines (String c (r +:+ String "010" rest))
          = String c r :: Props.split_lines rest).
  destruct r as [|c2 r2].
  - rewrite split_cons; [reflexivity | exact Hlf |].
    intros ->. discriminate Hl.
  - rewrite split_cons; [| exact Hlf |].
    + rewrite (IH Hr Hl). reflexivity.
    + intros _. simpl in Hr. apply orb_false_elim in Hr as [Hc2 _].
      change (Text.startsWith (String "010" EmptyString)
                (String c2 r2 +:+ String "010" rest))
        with (if Ascii.eqb "010" c2 then true else false).
      destruct (Ascii.eqb_spec "010" c2) as [<-|_]; [discriminate Hc2 | reflexivity].
Qed.

Lemma split_single (l : string) :
  has "010" l = false -> ends_cr l = false -> Props.split_lines l = [l].
Proof.
  induction l as [|c r IH]; intros Hh Hl; [reflexivity|].
  simpl in Hh. apply orb_false_elim in Hh as [Hc Hr].
  assert (c <> "010"%char) as Hlf by (intros ->; discriminate Hc).
  destruct r as [|c2 r2].
  - rewrite split_cons; [reflexivity | exact Hlf |]. intros ->. discriminate Hl.
  - rewrite split_cons; [| exact Hlf |].
    + rewrite (IH Hr Hl). reflexivity.
    + intros _. simpl in Hr. apply orb_false_elim in Hr as [Hc2 _].
      change (Text.startsWith (String "010" EmptyString) (String c2 r2))
        with (if Ascii.eqb "010" c2 then true else false).
      destruct (Ascii.eqb_spec "010" c2) as [<-|_]; [discriminate Hc2 | reflexivity].
Qed.

Lemma split_join (lines : list string) :
  lines <> [] ->
  Forall (fun l => has "010" l = false /\ ends_cr l = false) lines ->
  Props.split_lines (Props.join_lines lines) = lines.
Proof.
  induction lines as [|l rest IH]; [contradiction|]. intros _ H.
  apply Forall_cons in H as [[H1 H2] Hrest].
  destruct rest as [|l2 rest2].
  - now apply split_single.
  - change (Props.join_lines (l :: l2 :: rest2))
      with (l +:+ String "010" (Props.join_lines (l2 :: rest2))).
    rewrite (split_line l _ H1 H2), IH; [reflexivity | discriminate | exact Hrest].
Qed.

Lemma esc_clean (k : string) :
  clean_key k ->
  Props.escapeKey k = Props.escape_colons k
  /\ Text.trim (Props.escape_colons k) = Props.escape_colons k
  /\ has "=" (Props.escape_colons k) = false
  /\ has "010" (Props.escape_colons k) = false
  /\ Text.startsWith "#" (Props.escape_colons k) = false.
Proof.
  intros (Ht & He & Hl & Hh & _).
  assert (T : Text.trim (Props.escape_colons k) = Props.escape_colons k)
    by (now rewrite esc_trim, Ht).
  split; [exact T|]. split; [exact T|].
  rewrite !has_esc by discriminate. rewrite startsWith_hash_esc. auto.
Qed.

Lemma line_of_shape (kv : string * Props.jsval) :
  clean_entry kv ->
  has "010" (line_of kv) = false /\ Text.trim (line_of kv) = line_of kv
  /\ ends_cr (line_of kv) = false.
Proof.
  intros [Hk [Hv1 Hv2]]. destruct (esc_clean _ Hk) as (E1 & E2 & E3 & E4 & E5).
  unfold line_of. rewrite E1.
  apply trim_fix in E2 as [S1 L1]. apply trim_fix in Hv1 as [S2 L2].
  change (Props.escape_colons kv.1 +:+ "=" +:+ Props.value_text kv.2)
    with (Props.escape_colons kv.1 +:+ String "=" (Props.value_text kv.2)).
  assert (T : Text.trimEnd (Props.escape_colons kv.1 +:+ String "=" (Props.value_text kv.2))
              = Props.escape_colons kv.1 +:+ String "=" (Props.value_text kv.2))
    by (now rewrite (trimEnd_sep _ _ "=" plain_eq), L2).
  split; [|split].
  - rewrite has_app. cbn [has]. rewrite E4, Hv2. reflexivity.
  - apply trim_id; [|exact T]. now apply trimStart_sep; [apply plain_eq|].
  - apply trimEnd_cr, T.
Qed.

Lemma parse_line_of (kv : string * Props.jsval) :
  clean_entry kv -> Props.parse_line (line_of kv) = Some (as_text kv).
Proof.
  intros Hc. destruct (line_of_shape kv Hc) as (_ & T & _).
  destruct Hc as [Hk [Hv1 Hv2]]. destruct (esc_clean _ Hk) as (E1 & E2 & E3 & E4 & E5).
  unfold Props.parse_line. rewrite T.
  unfold line_of in *. rewrite E1 in *.
  assert (N : String.eqb (Props.escape_colons kv.1 +:+ "=" +:+ Props.value_text kv.2)
                EmptyString = false).
  { destruct (Props.escape_colons kv.1); reflexivity. }
  assert (H : Text.startsWith "#" (Props.escape_colons kv.1 +:+ "=" +:+ Props.value_text kv.2)
              = false).
  { destruct (Props.escape_colons kv.1) as [|c r] eqn:E; [reflexivity|].
    rewrite startsWith_app_l; [exact E5 | discriminate | reflexivity]. }
  rewrite N, H. cbn [orb].
  change (Props.escape_colons kv.1 +:+ "=" +:+ Props.value_text kv.2)
    with (Props.escape_colons kv.1 +:+ String "=" (Props.value_text kv.2)).
  rewrite (cut_app "=" _ _ E3). rewrite E2, Hv1.
  unfold Props.unescapeKey. rewrite unesc_esc. destruct Hk as (-> & _).
  reflexivity.
Qed.

Lemma foldl_insert (es : list (string * string)) (acc : gmap string string) :
  NoDup es.*1 ->
  fold_left (fun out e => <[e.1 := e.2]> out) es acc = list_to_map es ∪ acc.
Proof.
  revert acc. induction es as [|[k v] es IH]; intros acc Hnd.
  - simpl. now rewrite (left_id_L ∅ (∪)).
  - rewrite fmap_cons in Hnd. apply NoDup_cons in Hnd as [Hk Hnd].
    cbn [fold_left list_to_map foldr fst snd uncurry]. rewrite (IH _ Hnd).
    rewrite <- insert_union_l. symmetry. apply insert_union_r.
    apply not_elem_of_list_to_map. exact Hk.
Qed.

Lemma parse_lines_of (es : list (string * Props.jsval)) (acc : gmap string string) :
  Forall clean_entry es ->
  fold_left (fun out raw =>
               match Props.parse_line raw with
               | Some (key, value) => Props.assign out key value
               | None => out
               end) (map line_of es) acc
  = fold_left (fun out e => <[e.1 := e.2]> out) (map as_text es) acc.
Proof.
  revert acc. induction es as [|kv es IH]; intros acc H; [reflexivity|].
  apply Forall_cons in H as [Hc H]. simpl.
  rewrite (parse_line_of kv Hc). unfold as_text at 1, Props.assign.
  destruct Hc as [(_ & _ & _ & _ & Hp) _].
  apply String.eqb_neq in Hp. rewrite Hp. apply (IH _ H).
Qed.

Lemma round_trip (es : list (string * Props.jsval)) :
  NoDup es.*1 -> Forall clean_entry es ->
  Props.parseServerProperties (Props.stringifyServerProperties es)
  = list_to_map (map as_text es).
Proof.
  intros Hnd Hc. unfold Props.parseServerProperties, Props.stringifyServerProperties.
  fold line_of. change (fun kv : string * Props.jsval =>
                          Props.escapeKey kv.1 +:+ "=" +:+ Props.value_text kv.2)
                 with line_of.
  destruct es as [|kv es]; [reflexivity|].
  rewrite split_join.
  - rewrite (parse_lines_of _ _ Hc), foldl_insert.
    + now rewrite (right_id_L ∅ (∪)).
    + rewrite <- list_fmap_compose. exact Hnd.
  - discriminate.
  - apply Forall_fmap. eapply Forall_impl; [exact Hc|].
    intros x Hx. destruct (line_of_shape x Hx) as (A & _ & B). cbn. auto.
Qed.

(** X25. What [stringifyServerProperties] writes,
    [parseServerProperties] reads back: for entries with distinct keys
    that are trimmed, free of [=] and line feeds, not comments and not
    [__proto__], and values whose text is trimmed and free of line feeds,
    the parsed file holds exactly these keys, each with the text of its
    value, colons in keys included. *)
Theorem props_round_trip (es : list (string * Props.jsval)) :
  NoDup es.*1 -> Forall clean_entry es ->
  Props.parseServerProperties (Props.stringifyServerProperties es)
  = list_to_map (map as_text es).
Proof. apply round_trip. Qed.

End PropertyFiles.

Section ParsedFiles.

Lemma split_lines_no_lf (s : string) :
  Forall (fun l => has "010" l = false) (Props.split_lines s).
Proof.
  induction s as [|c r IH]; [repeat constructor|].
  destruct (ascii_dec c "010") as [->|Hlf].
  { change (Props.split_lines (String "010" r)) with (EmptyString :: Props.split_lines r).
    constructor; [reflexivity | exact IH]. }
  destruct (ascii_dec c "013") as [->|Hcr].
  - destruct r as [|c2 r2]; [repeat constructor|].
    destruct (ascii_dec c2 "010") as [->|Hc2].
    + change (Props.split_lines (String "013" (String "010" r2)))
        with (EmptyString :: Props.split_lines r2).
      change (Props.split_lines (String "010" r2))
        with (EmptyString :: Props.split_lines r2) in IH.
      exact IH.
    + rewrite split_cons; [| discriminate |].
      * destruct (Props.split_lines (String c2 r2)) as [|h t]; [repeat constructor|].
        apply Forall_cons in IH as [Hh Ht]. constructor; [exact Hh | exact Ht].
      * intros _.
        change (Text.startsWith (String "010" EmptyString) (String c2 r2))
          with (if Ascii.eqb "010" c2 then true else false).
        destruct (Ascii.eqb_spec "010" c2) as [<-|_]; [now destruct Hc2 | reflexivity].
  - rewrite split_cons; [| exact Hlf | intros ->; now destruct Hcr].
    destruct (Props.split_lines r) as [|h t].
    + constructor; [|constructor].
      change (has "010" (String c EmptyString)) with (Ascii.eqb c "010" || false)%bool.
      destruct (Ascii.eqb_spec c "010"); [contradiction | reflexivity].
    + apply Forall_cons in IH as [Hh Ht]. constructor; [|exact Ht].
      change (has "010" (String c h)) with (Ascii.eqb c "010" || has "010" h)%bool.
      rewrite Hh. destruct (Ascii.eqb_spec c "010"); [contradiction | reflexivity].
Qed.

Lemma cut_spec (c : ascii) (s a b : string) :
  Props.cut c s = Some (a, b) -> s = a +:+ String c b /\ has c a = false.
Proof.
  revert a. induction s as [|x r IH]; intros a; [discriminate|]. simpl.
  destruct (Ascii.eqb_spec x c) as [->|Hx].
  - intros [= <- <-]. split; reflexivity.
  - destruct (Props.cut c r) as [[a' b']|]; [|discriminate].
    intros [= <- <-]. destruct (IH a' eq_refl) as [-> Ha]. split; [reflexivity|].
    change (has c (String x a')) with (Ascii.eqb x c || has c a')%bool.
    rewrite Ha. destruct (Ascii.eqb_spec x c); [contradiction | reflexivity].
Qed.

Lemma has_unesc (c : ascii) (k : string) :
  c <> ":"%char -> c <> "092"%char ->
  has c (Props.unescape_colons k) = has c k.
Proof.
  intros H1 H2. induction k as [|x r IH]; [reflexivity|].
  destruct (ascii_dec x "092") as [->|Hx].
  - destruct r as [|y r2]; [reflexivity|].
    destruct (ascii_dec y ":") as [->|Hy].
    + change (Props.unescape_colons (String "092" (String ":" r2)))
        with (String ":" (Props.unescape_colons r2)).
      rewrite unesc_cons in IH by discriminate.
      change (has c (String ":" (Props.unescape_colons r2)) = has c (String ":" r2)) in IH.
      rewrite IH.
      change (has c (String "092" (String ":" r2)))
        with (Ascii.eqb "092" c || has c (String ":" r2))%bool.
      destruct (Ascii.eqb_spec "092" c) as [<-|_]; [now destruct H2 | reflexivity].
    + rewrite unesc_cons.
      * change (has c (String "092" (Props.unescape_colons (String y r2))))
          with (Ascii.eqb "092" c || has c (Props.unescape_colons (String y r2)))%bool.
        now rewrite IH.
      * intros _.
        change (Text.startsWith ":" (String y r2)) with (if Ascii.eqb ":" y then true else false).
        destruct (Ascii.eqb_spec ":" y) as [<-|_]; [now destruct Hy | reflexivity].
  - rewrite unesc_cons by (intros ->; now destruct Hx).
    change (has c (String x (Props.unescape_colons r)))
      with (Ascii.eqb x c || has c (Props.unescape_colons r))%bool.
    now rewrite IH.
Qed.

Lemma hd_ok_intro (c : ascii) (r : string) :
  ws_start (String c r) = false -> c <> "#"%char -> hd_ok (String c r) = true.
Proof.
  intros H Hc. unfold hd_ok. rewrite H.
  change (Text.startsWith "#" (String c r)) with (if Ascii.eqb "#" c then true else false).
  destruct (Ascii.eqb_spec "#" c) as [<-|]; [now destruct Hc | reflexivity].
Qed.

Lemma hd_ok_elim (c : ascii) (r : string) :
  hd_ok (String c r) = true -> ws_start (String c r) = false /\ c <> "#"%char.
Proof.
  unfold hd_ok. intros [H1%negb_true_iff H2%negb_true_iff]%andb_prop.
  split; [exact H1|]. intros ->. discriminate H2.
Qed.

Lemma hd_ok_trimEnd (s : string) : hd_ok s = true -> hd_ok (Text.trimEnd s) = true.
Proof.
  destruct s as [|c r]; [reflexivity|]. intros H.
  pose proof (hd_ok_elim c r H) as [H1 H2]. apply trimEnd_start in H1.
  rewrite trimEnd_cons in *.
  destruct (String.eqb (Text.trimStart (String c r)) EmptyString); [reflexivity|].
  now apply hd_ok_intro.
Qed.

Lemma hd_ok_trim (s : string) : hd_ok s = true -> hd_ok (Text.trim s) = true.
Proof.
  intros H. unfold Text.trim. rewrite trimStart_keep; [now apply hd_ok_trimEnd|].
  unfold hd_ok in H. now apply andb_prop in H as [H%negb_true_iff _].
Qed.

Lemma hd_ok_unesc (s : string) : hd_ok s = true -> hd_ok (Props.unescape_colons s) = true.
Proof.
  destruct (unesc_view s) as [(r & -> & ->)|[->|(c & r & -> & E)]];
    [|reflexivity|].
  - intros _. apply hd_ok_intro; [|discriminate]. apply ws_start_plain, plain_colon.
  - intros [H1 H2]%hd_ok_elim. rewrite E. apply hd_ok_intro; [|exact H2].
    now rewrite <- E, unesc_ws_start.
Qed.

Lemma hd_ok_prefix (a b : string) : hd_ok (a +:+ b) = true -> a <> EmptyString -> hd_ok a = true.
Proof.
  destruct a as [|c r]; [contradiction|]. intros H _.
  change (String c r +:+ b) with (String c (r +:+ b)) in H.
  apply hd_ok_elim in H as [H1 H2]. apply hd_ok_intro; [|exact H2].
  destruct (ws_start (String c r)) eqn:F; [|reflexivity].
  apply (ws_start_app _ b) in F.
  change (String c r +:+ b) with (String c (r +:+ b)) in F. congruence.
Qed.

Lemma hd_ok_hash (s : string) : hd_ok s = true -> Text.startsWith "#" s = false.
Proof. unfold hd_ok. intros [_ H]%andb_prop. now apply negb_true_iff in H. Qed.

(** What one line gives is clean, but for the key [__proto__]. *)
Lemma parse_line_clean (raw k v : string) :
  has "010" raw = false ->
  Props.parse_line raw = Some (k, v) ->
  (k <> "__proto__" -> clean_key k) /\ clean_value v.
Proof.
  intros Hlf. unfold Props.parse_line.
  pose proof (has_trim "010" raw Hlf) as Hl.
  destruct (trim_ok raw) as [S L].
  destruct (String.eqb_spec (Text.trim raw) EmptyString) as [|Hne]; [discriminate|].
  destruct (Text.startsWith "#" (Text.trim raw)) eqn:Hh; [discriminate|].
  cbn [orb]. destruct (Props.cut "=" (Text.trim raw)) as [[a b]|] eqn:E; [|discriminate].
  intros [= <- <-]. apply cut_spec in E as [E Ha].
  assert (Hla : has "010" a = false /\ has "010" b = false).
  { rewrite E, has_app in Hl. apply orb_false_elim in Hl as [H1 H2].
    split; [exact H1 | exact H2]. }
  destruct Hla as [Hla Hlb].
  assert (Hhd : hd_ok a = true).
  { destruct a as [|c r]; [reflexivity|].
    apply (hd_ok_prefix _ (String "=" b)); [|discriminate].
    rewrite <- E. unfold hd_ok. now rewrite (trimStart_fixed _ S), Hh. }
  split.
  - intros Hp. unfold clean_key, Props.unescapeKey.
    split; [apply trim_trim|].
    split; [apply has_trim; rewrite has_unesc by discriminate; now apply has_trim|].
    split; [apply has_trim; rewrite has_unesc by discriminate; now apply has_trim|].
    split; [|exact Hp].
    apply hd_ok_hash, hd_ok_trim, hd_ok_unesc, hd_ok_trim, Hhd.
  - split; [apply trim_trim | now apply has_trim].
Qed.

Lemma parse_fold_clean (lines : list string) (acc : gmap string string) :
  Forall (fun l => has "010" l = false) lines ->
  map_Forall (fun k v => clean_key k /\ clean_value v) acc ->
  map_Forall (fun k v => clean_key k /\ clean_value v)
    (fold_left (fun out raw =>
                  match Props.parse_line raw with
                  | Some (key, value) => Props.assign out key value
                  | None => out
                  end) lines acc).
Proof.
  revert acc. induction lines as [|l lines IH]; intros acc Hl Hacc; [exact Hacc|].
  apply Forall_cons in Hl as [H1 Hl]. simpl. apply IH; [exact Hl|].
  destruct (Props.parse_line l) as [[k v]|] eqn:E; [|exact Hacc].
  destruct (parse_line_clean l k v H1 E) as [Hk Hv].
  unfold Props.assign. destruct (String.eqb_spec k "__proto__") as [|Hp]; [exact Hacc|].
  apply map_Forall_insert_2; [split; [exact (Hk Hp) | exact Hv] | exact Hacc].
Qed.

(** Whatever the file, the keys and values [parseServerProperties]
    returns are clean. *)
Lemma parse_clean (text : string) :
  map_Forall (fun k v => clean_key k /\ clean_value v) (Props.parseServerProperties text).
Proof.
  apply parse_fold_clean; [apply split_lines_no_lf | apply map_Forall_empty].
Qed.

(** X26. Rewriting a property file the way the PUT handler does, by
    parsing it, laying the patch over it and writing the result out,
    gives a file that parses to the old properties with the patched ones
    replaced or added, whatever the old file looked like and in whatever
    order the merged entries are written, as long as the patch is clean.
    With an empty patch every property is kept. *)
Theorem put_merges (text : string) (patch : gmap string Props.jsval)
    (es : list (string * Props.jsval)) :
  NoDup es.*1 ->
  (list_to_map es : gmap string Props.jsval)
  = patch ∪ (Props.JString <$> Props.parseServerProperties text) ->
  map_Forall (fun k v => clean_entry (k, v)) patch ->
  Props.parseServerProperties (Props.stringifyServerProperties es)
  = (Props.value_text <$> patch) ∪ Props.parseServerProperties text.
Proof.
  intros Hnd Hm Hp. rewrite round_trip; [|exact Hnd|].
  - change (map as_text es) with (prod_map id Props.value_text <$> es).
    rewrite list_to_map_fmap, Hm, map_fmap_union, <- map_fmap_compose.
    f_equal. apply map_eq. intros k. rewrite lookup_fmap.
    destruct (Props.parseServerProperties text !! k); reflexivity.
  - apply Forall_forall. intros [k v] Hin.
    assert (Hl : (list_to_map es : gmap string Props.jsval) !! k = Some v)
      by (apply elem_of_list_to_map; assumption).
    rewrite Hm in Hl. apply lookup_union_Some_raw in Hl as [Hl|[_ Hl]].
    + exact (Hp k v Hl).
    + rewrite lookup_fmap in Hl.
      destruct (Props.parseServerProperties text !! k) as [s|] eqn:E; [|discriminate].
      injection Hl as <-. exact (parse_clean text k s E).
Qed.

(** X27. For a world name of the validated alphabet other than [.] and
    [..], the property file and the whitelist are files of that world's
    directory under [worlds]; the name [..], which the validation lets
    through as well, leads to files of the repository root instead. *)
Theorem getPaths_confined (o : os) (world : string) :
  World.validateWorldName world = true ->
  (world <> "." -> world <> ".." ->
   Props.serverPropsPath o world = (Props.worldsPath o ++ [world; "server.properties"])%list
   /\ Props.whitelistPath o world = (Props.worldsPath o ++ [world; "whitelist.json"])%list)
  /\ (world = ".." ->
      Props.serverPropsPath o world
      = (removelast (Props.worldsPath o) ++ ["server.properties"])%list
      /\ Props.whitelistPath o world
         = (removelast (Props.worldsPath o) ++ ["whitelist.json"])%list).
Proof.
  intros Hv. split.
  - intros H1 H2. unfold Props.serverPropsPath, Props.whitelistPath.
    rewrite (join_valid _ world Hv H1 H2).
    rewrite !join_valid by first [reflexivity | discriminate].
    rewrite <- !app_assoc. split; reflexivity.
  - intros ->. split; reflexivity.
Qed.

End ParsedFiles.

Lemma props_round_trip_witness :
  NoDup three_props.*1 /\ Forall clean_entry three_props
  /\ Props.parseServerProperties (Props.stringifyServerProperties three_props)
     = list_to_map (map as_text three_props).
Proof.
  assert (N : NoDup three_props.*1).
  { apply (bool_decide_unpack _). vm_compute. exact I. }
  assert (C : Forall clean_entry three_props).
  { unfold three_props.
    apply Forall_forall. intros kv Hin.
    repeat (apply elem_of_cons in Hin as [->|Hin]);
      [.. | now apply elem_of_nil in Hin];
      (split; [repeat split; try reflexivity; discriminate | split; reflexivity]). }
  split; [exact N|]. split; [exact C|].
  exact (props_round_trip three_props N C).
Defined.

Lemma put_merges_witness :
  NoDup merged_entries.*1
  /\ (list_to_map merged_entries : gmap string Props.jsval)
     = port_patch ∪ (Props.JString <$> Props.parseServerProperties old_file)
  /\ map_Forall (fun k v => clean_entry (k, v)) port_patch
  /\ Props.parseServerProperties (Props.stringifyServerProperties merged_entries)
     = (Props.value_text <$> port_patch) ∪ Props.parseServerProperties old_file.
Proof.
  assert (N : NoDup merged_entries.*1).
  { apply (bool_decide_unpack _). vm_compute. exact I. }
  assert (M : (list_to_map merged_entries : gmap string Props.jsval)
              = port_patch ∪ (Props.JString <$> Props.parseServerProperties old_file))
    by (vm_compute; reflexivity).
  assert (C : map_Forall (fun k v => clean_entry (k, v)) port_patch).
  { apply map_Forall_singleton.
    split; [repeat split; try reflexivity; discriminate | split; reflexivity]. }
  split; [exact N|]. split; [exact M|]. split; [exact C|].
  exact (put_merges old_file port_patch merged_entries N M C).
Defined.

Lemma getPaths_confined_witness :
  World.validateWorldName "Alpha" = true
  /\ Props.serverPropsPath machine0 "Alpha"
     = ["srv"; "mc"; "worlds"; "Alpha"; "server.properties"]
  /\ Props.whitelistPath machine0 "Alpha"
     = ["srv"; "mc"; "worlds"; "Alpha"; "whitelist.json"].
Proof.
  split; [reflexivity|].
  apply (proj1 (getPaths_confined machine0 "Alpha" eq_refl)); discriminate.
Defined.
